(** * Velox Air: a shallow embedding of the streaming core

    The development follows the Python sources of the repository:
    - [core/streamable.py]        frames, tiles and delta frames,
    - [core/tile_partitioner.py]  the delta detector,
    - [core/encoder.py], [core/decoder.py]  the wire format,
    - [core/adaptive_governor.py] the quality control law,
    - [core/capture.py], [core/engine.py]   the capture factory and the engine,
    - [air_server_app.py]         the engine registry, the blacklist,
                                  the in-flight-send map and the software reset,
    - [core/network_manager.py]   the client's receive loop,
    - [core/client_ui.py]         the client's screen buffer,
    - [core/jitter_buffer.py]     the client's jitter buffer.

    Conventions.  Python integers are [Z]; [bytes] are lists of [Byte.byte];
    dictionaries are [gmap]s; sets of viewers are [gset]s.  Python floats
    (wall-clock seconds, pressures, qualities) are idealised as exact
    rationals [Q].  Exceptions are values of the [result] type.  Calls into
    external collaborators (the WebP codec of PIL, the capture drivers, the
    clock) are inputs of the functions that use them. *)

From Stdlib Require Import ZArith QArith Qabs Qminmax Lia Lqa.
From Stdlib Require Import Strings.Byte Strings.Ascii Strings.String.
From stdpp Require Import base option list sorting relations gmap strings.

Local Open Scope Z_scope.

(* [set_solver] clears hypotheses that its own simplifications already
   removed; the warning it triggers carries no information. *)
Set Warnings "-clear-no-such-hyp".

(* ===================================================================== *)
(** * Part I: definitions                                                 *)
(* ===================================================================== *)

(** ** Exceptions and results *)

Inductive exn : Type :=
  | StructError      (* struct.error: value out of range, or short buffer *)
  | ValueError       (* e.g. range() arg 3 must not be zero *)
  | IndexError       (* sequence index out of range *)
  | EngineInitError  (* StreamEngine(...) raised *)
  | TimeoutError     (* asyncio.wait_for ran out of time *)
  | CaptureError (msg : string). (* raised while grabbing a frame *)

Inductive result (A : Type) : Type :=
  | Ok (a : A)
  | Raise (e : exn).
Arguments Ok {A} a.
Arguments Raise {A} e.

(** [result] is an error monad; stdpp's [x ← r; k] notation is used for
    sequencing calls that may raise. *)
#[global] Instance result_ret : MRet result := fun A a => Ok a.
#[global] Instance result_bind : MBind result := fun A B k r =>
  match r with
  | Ok a => k a
  | Raise e => Raise e
  end.

(** ** Bytes and [struct] *)

Abbreviation byte := Byte.byte.
Abbreviation bytes := (list Byte.byte).

Definition byte_of_Z (z : Z) : byte :=
  match Byte.of_N (Z.to_N (z mod 256)) with
  | Some b => b
  | None => Byte.x00
  end.

Definition Z_of_byte (b : byte) : Z := Z.of_N (Byte.to_N b).

(** [n] little-endian bytes of [z] (two's complement when [z] is negative). *)
Fixpoint pack_le (n : nat) (z : Z) : bytes :=
  match n with
  | O => []
  | S n' => byte_of_Z z :: pack_le n' (z / 256)
  end.

Fixpoint unpack_le (bs : bytes) : Z :=
  match bs with
  | [] => 0
  | b :: bs' => Z_of_byte b + 256 * unpack_le bs'
  end.

Definition in_signed (n : nat) (z : Z) : Prop :=
  - 2 ^ (8 * Z.of_nat n - 1) ≤ z < 2 ^ (8 * Z.of_nat n - 1).

Definition in_signedb (n : nat) (z : Z) : bool :=
  (- 2 ^ (8 * Z.of_nat n - 1) <=? z) && (z <? 2 ^ (8 * Z.of_nat n - 1)).

(** [struct.pack('<i', z)] for [n = 4], [struct.pack('<q', z)] for [n = 8]:
    raises [struct.error] when [z] does not fit. *)
Definition struct_pack_signed (n : nat) (z : Z) : result bytes :=
  if in_signedb n z then Ok (pack_le n z) else Raise StructError.

(** [struct.unpack] of one signed field: the buffer must have exactly
    [n] bytes. *)
Definition struct_unpack_signed (n : nat) (bs : bytes) : result Z :=
  if bool_decide (length bs = n) then
    let u := unpack_le bs in
    Ok (if u <? 2 ^ (8 * Z.of_nat n - 1) then u else u - 2 ^ (8 * Z.of_nat n))
  else Raise StructError.

Definition pack_i : Z → result bytes := struct_pack_signed 4.
Definition pack_q : Z → result bytes := struct_pack_signed 8.
Definition unpack_i : bytes → result Z := struct_unpack_signed 4.
Definition unpack_q : bytes → result Z := struct_unpack_signed 8.

(** Python slice [data[start:stop]] on a sequence, with the normalisation
    of negative and out-of-range indices that Python performs. *)
Definition py_index (len i : Z) : Z :=
  if i <? 0 then Z.max 0 (i + len) else Z.min i len.

Definition py_slice {A} (data : list A) (start stop : Z) : list A :=
  let len := Z.of_nat (length data) in
  let s := py_index len start in
  let e := py_index len stop in
  take (Z.to_nat (e - s)) (drop (Z.to_nat s) data).

(** ** Frames, tiles and delta frames ([core/streamable.py]) *)

#[global] Instance byte_eq_dec : EqDecision byte := Byte.byte_eq_dec.

(** Every capture backend hands out RGB frames: a pixel is three bytes. *)
Definition pixel : Type := byte * byte * byte.

(** A NumPy array of shape [(nd_h, nd_w, 3)].  PIL images are identified
    with the pixel array they hold ([Image.fromarray] / [np.array]). *)
Record ndarray : Type := {
  nd_h : Z;
  nd_w : Z;
  nd_rows : list (list pixel)
}.

#[global] Instance ndarray_eq_dec : EqDecision ndarray.
Proof. solve_decision. Defined.

(** The invariant NumPy maintains: the buffer is rectangular and agrees
    with the shape. *)
Definition nd_wf (a : ndarray) : Prop :=
  nd_h a = Z.of_nat (length (nd_rows a)) ∧ 0 ≤ nd_w a ∧
  Forall (λ r, Z.of_nat (length r) = nd_w a) (nd_rows a).

Definition shape (a : ndarray) : Z * Z := (nd_h a, nd_w a).

Definition slice_len (dim start stop : Z) : Z :=
  Z.max 0 (py_index dim stop - py_index dim start).

(** [a[y0:y1, x0:x1]] *)
Definition nd_slice (a : ndarray) (y0 y1 x0 x1 : Z) : ndarray :=
  {| nd_h := slice_len (nd_h a) y0 y1;
     nd_w := slice_len (nd_w a) x0 x1;
     nd_rows := (λ r, py_slice r x0 x1) <$> py_slice (nd_rows a) y0 y1 |}.

(** [np.array_equal]: same shape and same elements. *)
Definition array_equal (a b : ndarray) : bool :=
  bool_decide (shape a = shape b) && bool_decide (nd_rows a = nd_rows b).

Record Tile : Type := {
  tile_x : Z;
  tile_y : Z;
  tile_width : Z;
  tile_height : Z;
  tile_data : ndarray
}.

#[global] Instance Tile_eq_dec : EqDecision Tile.
Proof. solve_decision. Defined.

Record ScreenFrame : Type := { frame_np : ndarray }.

(** [ScreenFrame.__init__] sets [self.height, self.width =
    frame_data.shape[:2]] once; both are read-only afterwards. *)
Definition frame_width (f : ScreenFrame) : Z := nd_w (frame_np f).
Definition frame_height (f : ScreenFrame) : Z := nd_h (frame_np f).

Definition get_np_array (f : ScreenFrame) : ndarray := frame_np f.

(** [ScreenFrame.get_tile]: [self._np_array[y:y+height, x:x+width]]. *)
Definition get_tile (f : ScreenFrame) (x y width height : Z) : Tile :=
  {| tile_x := x; tile_y := y; tile_width := width; tile_height := height;
     tile_data := nd_slice (frame_np f) y (y + height) x (x + width) |}.

Record DeltaFrame : Type := {
  frame_number : Z;
  changed_tiles : list Tile;
  full_frame_fallback : bool
}.

(** ** The wire format ([core/encoder.py], [core/decoder.py]) *)

(** The still-image codec of PIL, an external collaborator:
    [image.save(buf, format="WEBP", quality, method, lossless)], taken to
    return its bytes, and [Image.open(BytesIO(data))], which fails on
    data it does not recognise. *)
Class ImageCodec : Type := {
  webp_save : Z → Z → bool → ndarray → bytes;
  image_open : bytes → option ndarray
}.

Record WebPEncoder : Type := {
  enc_quality : Z;
  enc_method : Z;
  enc_lossless : bool
}.

(** [WebPEncoder.__init__] defaults. *)
Definition default_encoder (quality : Z) : WebPEncoder :=
  {| enc_quality := quality; enc_method := 0; enc_lossless := false |}.

Definition pack_ii (a b : Z) : result bytes :=
  pa ← pack_i a; pb ← pack_i b; mret (pa ++ pb).

Definition pack_iiii (a b c d : Z) : result bytes :=
  pa ← pack_i a; pb ← pack_i b; pc ← pack_i c; pd ← pack_i d;
  mret (pa ++ pb ++ pc ++ pd).

Definition unpack_ii (bs : bytes) : result (Z * Z) :=
  if bool_decide (length bs = 8%nat) then
    a ← unpack_i (take 4 bs); b ← unpack_i (take 4 (drop 4 bs)); mret (a, b)
  else Raise StructError.

Definition unpack_iiii (bs : bytes) : result (Z * Z * Z * Z) :=
  if bool_decide (length bs = 16%nat) then
    a ← unpack_i (take 4 bs); b ← unpack_i (take 4 (drop 4 bs));
    c ← unpack_i (take 4 (drop 8 bs)); d ← unpack_i (take 4 (drop 12 bs));
    mret (a, b, c, d)
  else Raise StructError.

Section Wire.
Context `{ImageCodec}.

(** [WebPEncoder._encode_tile] *)
Definition _encode_tile (enc : WebPEncoder) (tile : Tile) : bytes :=
  webp_save (enc_quality enc) (enc_method enc) (enc_lossless enc) (tile_data tile).

(** The body of the [for i, tile in enumerate(...)] loop of [encode]:
    the three parts appended for one tile. *)
Definition encode_tile_entry (enc : WebPEncoder) (tile : Tile) : result bytes :=
  let encoded_tile_data := _encode_tile enc tile in
  hdr ← pack_iiii (tile_x tile) (tile_y tile) (tile_width tile) (tile_height tile);
  len ← pack_i (Z.of_nat (length encoded_tile_data));
  mret (hdr ++ len ++ encoded_tile_data).

Fixpoint encode_tile_entries (enc : WebPEncoder) (tiles : list Tile) : result bytes :=
  match tiles with
  | [] => mret []
  | tile :: rest =>
      part ← encode_tile_entry enc tile;
      parts ← encode_tile_entries enc rest;
      mret (part ++ parts)
  end.

(** [WebPEncoder.encode]; [timestamp_ms] is [int(time.time() * 1000)],
    sampled when the call starts. *)
Definition encode (enc : WebPEncoder) (timestamp_ms : Z) (delta_frame : DeltaFrame)
  : result bytes :=
  timestamp_bytes ← pack_q timestamp_ms;
  if full_frame_fallback delta_frame then
    if bool_decide (changed_tiles delta_frame = [])
       || negb (bool_decide (length (changed_tiles delta_frame) = 1%nat))
    then mret []
    else
      match changed_tiles delta_frame !! 0%nat with
      | None => Raise IndexError
      | Some full_screen_tile =>
          let encoded_full_frame_data := _encode_tile enc full_screen_tile in
          p0 ← pack_i 0;
          p1 ← pack_ii (tile_width full_screen_tile) (tile_height full_screen_tile);
          p2 ← pack_i (Z.of_nat (length encoded_full_frame_data));
          mret (Byte.x01 :: timestamp_bytes ++ p0 ++ p1 ++ p2 ++ encoded_full_frame_data)
      end
  else
    p0 ← pack_i (Z.of_nat (length (changed_tiles delta_frame)));
    parts ← encode_tile_entries enc (changed_tiles delta_frame);
    mret (Byte.x01 :: timestamp_bytes ++ p0 ++ parts).

(** The [for i in range(num_tiles)] loop of [WebPDeltaDecoder.decode],
    threading [offset]; a tile whose image does not open is skipped. *)
Fixpoint decode_tiles (n : nat) (data : bytes) (offset : Z) : result (list Tile) :=
  match n with
  | O => mret []
  | S n' =>
      '(x, y, width, height) ← unpack_iiii (py_slice data offset (offset + 16));
      let offset := offset + 16 in
      tile_data_length ← unpack_i (py_slice data offset (offset + 4));
      let offset := offset + 4 in
      let tile_bytes := py_slice data offset (offset + tile_data_length) in
      let offset := offset + tile_data_length in
      rest ← decode_tiles n' data offset;
      mret (match image_open tile_bytes with
            | Some img =>
                {| tile_x := x; tile_y := y; tile_width := width;
                   tile_height := height; tile_data := img |} :: rest
            | None => rest
            end)
  end.

(** [WebPDeltaDecoder.decode]: returns the delta frame and the timestamp
    in seconds ([raw_ts / 1000.0]). *)
Definition decode (data : bytes) : result (DeltaFrame * Q) :=
  let offset := 0 in
  raw_ts ← unpack_q (py_slice data offset (offset + 8));
  let timestamp := (inject_Z raw_ts / 1000)%Q in
  let offset := offset + 8 in
  num_tiles ← unpack_i (py_slice data offset (offset + 4));
  let offset := offset + 4 in
  if num_tiles =? 0 then
    '(full_width, full_height) ← unpack_ii (py_slice data offset (offset + 8));
    let offset := offset + 8 in
    full_image_data_length ← unpack_i (py_slice data offset (offset + 4));
    let offset := offset + 4 in
    let full_image_data := py_slice data offset (offset + full_image_data_length) in
    let tiles :=
      match image_open full_image_data with
      | Some img =>
          [ {| tile_x := 0; tile_y := 0; tile_width := full_width;
               tile_height := full_height; tile_data := img |} ]
      | None => []
      end in
    mret ({| frame_number := 0; changed_tiles := tiles;
             full_frame_fallback := true |}, timestamp)
  else
    tiles ← decode_tiles (Z.to_nat num_tiles) data offset;
    mret ({| frame_number := 0; changed_tiles := tiles;
             full_frame_fallback := false |}, timestamp).

(** [ClientNetworkManager._receive_loop]: the first byte is the message
    type, the decoder gets the rest, and only type [0x01] is decoded. *)
Definition client_receive (message : bytes) : result (option (DeltaFrame * Q)) :=
  match message with
  | msg_type :: payload =>
      if bool_decide (msg_type = Byte.x01)
      then decoded ← decode payload; mret (Some decoded)
      else mret None
  | [] => Raise IndexError
  end.
End Wire.


(** ** The tile partitioner ([core/tile_partitioner.py]) *)

(** The fields of [TilePartitioner] that its methods read or write
    ([_last_full_frame_data], [_full_frame_counter], [_full_frame_interval]
    and [_force_full_frame] are initialised and never used). *)
Record TilePartitioner : Type := {
  _tile_size : Z;
  _last_frame_np : option ndarray;
  _frame_number : Z
}.

(** [TilePartitioner.__init__] *)
Definition new_partitioner (tile_size : Z) : TilePartitioner :=
  {| _tile_size := tile_size; _last_frame_np := None; _frame_number := 0 |}.

(** The [tile_size] setter. *)
Definition set_tile_size (tp : TilePartitioner) (value : Z) : TilePartitioner :=
  {| _tile_size := value; _last_frame_np := _last_frame_np tp;
     _frame_number := _frame_number tp |}.

(** [range(0, stop, step)]: [ValueError] for a zero step. *)
Definition py_range0 (stop step : Z) : result (list Z) :=
  if step =? 0 then Raise ValueError
  else
    let count :=
      if 0 <? step then (stop + step - 1) / step
      else (- stop + - step - 1) / - step in
    mret ((λ k, Z.of_nat k * step) <$> seq 0 (Z.to_nat count)).

(** The body of the inner loop: the tile at [(x, y)], if it changed. *)
Definition detect_tile (tile_size : Z) (current_frame : ScreenFrame)
    (curr_np last_np : ndarray) (y x : Z) : list Tile :=
  let tile_width := Z.min tile_size (frame_width current_frame - x) in
  let tile_height := Z.min tile_size (frame_height current_frame - y) in
  if (tile_width <=? 0) || (tile_height <=? 0) then []
  else if negb (array_equal
                  (nd_slice curr_np y (y + tile_height) x (x + tile_width))
                  (nd_slice last_np y (y + tile_height) x (x + tile_width)))
  then [get_tile current_frame x y tile_width tile_height]
  else [].

(** [for x in range(0, current_frame.width, self._tile_size)] *)
Definition scan_row (tile_size : Z) (current_frame : ScreenFrame)
    (curr_np last_np : ndarray) (y : Z) : result (list Tile) :=
  xs ← py_range0 (frame_width current_frame) tile_size;
  mret (concat (detect_tile tile_size current_frame curr_np last_np y <$> xs)).

Fixpoint scan_rows (tile_size : Z) (current_frame : ScreenFrame)
    (curr_np last_np : ndarray) (ys : list Z) : result (list Tile) :=
  match ys with
  | [] => mret []
  | y :: ys' =>
      row ← scan_row tile_size current_frame curr_np last_np y;
      rows ← scan_rows tile_size current_frame curr_np last_np ys';
      mret (row ++ rows)
  end.

(** [for y in range(0, current_frame.height, self._tile_size)] *)
Definition scan_grid (tile_size : Z) (current_frame : ScreenFrame)
    (curr_np last_np : ndarray) : result (list Tile) :=
  ys ← py_range0 (frame_height current_frame) tile_size;
  scan_rows tile_size current_frame curr_np last_np ys.

(** [TilePartitioner.partition_and_detect_changes]: the result and the
    partitioner afterwards.  The frame counter is bumped first, so it is
    bumped even when the scan raises. *)
Definition partition_and_detect_changes (tp : TilePartitioner)
    (current_frame : ScreenFrame) : result DeltaFrame * TilePartitioner :=
  let frame_number' := _frame_number tp + 1 in
  let curr_np := get_np_array current_frame in
  let full :=
    (Ok {| frame_number := frame_number';
           changed_tiles :=
             [get_tile current_frame 0 0 (frame_width current_frame)
                (frame_height current_frame)];
           full_frame_fallback := true |},
     {| _tile_size := _tile_size tp; _last_frame_np := Some curr_np;
        _frame_number := frame_number' |}) in
  match _last_frame_np tp with
  | None => full
  | Some last_np =>
      if negb (bool_decide (shape last_np = shape curr_np)) then full
      else
        match scan_grid (_tile_size tp) current_frame curr_np last_np with
        | Raise e =>
            (Raise e,
             {| _tile_size := _tile_size tp; _last_frame_np := Some last_np;
                _frame_number := frame_number' |})
        | Ok tiles =>
            (Ok {| frame_number := frame_number'; changed_tiles := tiles;
                   full_frame_fallback := false |},
             {| _tile_size := _tile_size tp; _last_frame_np := Some curr_np;
                _frame_number := frame_number' |})
        end
  end.

(** [TilePartitioner.create_full_frame_delta]: "Frame number 0 for initial
    frame"; the counter is left alone, the reference frame is replaced. *)
Definition create_full_frame_delta (tp : TilePartitioner)
    (screen_frame : ScreenFrame) : DeltaFrame * TilePartitioner :=
  let full_screen_tile :=
    get_tile screen_frame 0 0 (frame_width screen_frame) (frame_height screen_frame) in
  ({| frame_number := 0; changed_tiles := [full_screen_tile];
      full_frame_fallback := true |},
   {| _tile_size := _tile_size tp;
      _last_frame_np := Some (get_np_array screen_frame);
      _frame_number := _frame_number tp |}).

(** [TilePartitioner.reset] *)
Definition reset (tp : TilePartitioner) : TilePartitioner :=
  {| _tile_size := _tile_size tp; _last_frame_np := None; _frame_number := 0 |}.


(** ** Vocabulary for the partitioner's contract *)

(** The pixel of [a] at row [r], column [c]. *)
Definition pixel_at (a : ndarray) (r c : Z) : option pixel :=
  row ← nd_rows a !! Z.to_nat r; row !! Z.to_nat c.

(** Some pixel of the rectangle at [(x, y)] of size [w × h] differs
    between the two arrays. *)
Definition region_differs (cur prev : ndarray) (x y w h : Z) : Prop :=
  ∃ r c, y ≤ r < y + h ∧ x ≤ c < x + w ∧ pixel_at cur r c ≠ pixel_at prev r c.

(** [t] sits on the grid of step [tile_size] over a [W × H] frame; the
    last column and the last row are cut at the frame's edge. *)
Definition grid_tile (tile_size W H : Z) (t : Tile) : Prop :=
  (∃ i, 0 ≤ i ∧ tile_x t = i * tile_size) ∧
  (∃ j, 0 ≤ j ∧ tile_y t = j * tile_size) ∧
  tile_x t < W ∧ tile_y t < H ∧
  tile_width t = Z.min tile_size (W - tile_x t) ∧
  tile_height t = Z.min tile_size (H - tile_y t).

(** The single tile of a full-frame delta. *)
Definition full_frame_tile (f : ScreenFrame) : Tile :=
  get_tile f 0 0 (frame_width f) (frame_height f).


(** ** Sample frames used to exercise the partitioner *)

Definition gray (n : Z) : pixel := (byte_of_Z n, byte_of_Z n, byte_of_Z n).

Definition demo_array (rows : list (list Z)) : ndarray :=
  {| nd_h := Z.of_nat (length rows);
     nd_w := Z.of_nat (length (default [] (head rows)));
     nd_rows := (λ r : list Z, gray <$> r) <$> rows |}.

Definition demo_prev : ScreenFrame := {| frame_np := demo_array [[0;0;0];[0;0;0];[0;0;0]] |}.
Definition demo_next : ScreenFrame := {| frame_np := demo_array [[0;0;0];[0;0;0];[0;0;9]] |}.
Definition demo_partitioner : TilePartitioner :=
  {| _tile_size := 2; _last_frame_np := Some (frame_np demo_prev); _frame_number := 7 |}.


(** ** Sequences of partitioner calls made by one engine *)

(** The engine calls its partitioner in two ways: [get_next_payload]
    calls [partition_and_detect_changes] (or [create_full_frame_delta]
    when forced), [get_initial_payload] calls [create_full_frame_delta]. *)
Inductive partitioner_call : Type :=
  | CallPartition (f : ScreenFrame)
  | CallFullFrame (f : ScreenFrame).

(** The delta frames produced by a sequence of calls, in order, each
    tagged with [true] when it came from [create_full_frame_delta].  A
    call that raises produces no delta frame. *)
Fixpoint run_calls (tp : TilePartitioner) (calls : list partitioner_call)
  : list (bool * DeltaFrame) :=
  match calls with
  | [] => []
  | CallPartition f :: rest =>
      let '(r, tp') := partition_and_detect_changes tp f in
      match r with
      | Ok d => (false, d) :: run_calls tp' rest
      | Raise _ => run_calls tp' rest
      end
  | CallFullFrame f :: rest =>
      let '(d, tp') := create_full_frame_delta tp f in
      (true, d) :: run_calls tp' rest
  end.

Definition produced_frame_numbers (tp : TilePartitioner)
    (calls : list partitioner_call) : list Z :=
  (λ o : bool * DeltaFrame, frame_number o.2) <$> run_calls tp calls.

Definition partition_frame_numbers (tp : TilePartitioner)
    (calls : list partitioner_call) : list Z :=
  (λ o : bool * DeltaFrame, frame_number o.2)
    <$> filter (λ o : bool * DeltaFrame, o.1 = false) (run_calls tp calls).


(** ** Vocabulary for the wire round trip *)

Definition tile_geometry (t : Tile) : Z * Z * Z * Z :=
  (tile_x t, tile_y t, tile_width t, tile_height t).

(** The geometry a tile of [d] has on the wire: the full-frame record
    carries only the size, and the decoder places the tile at the origin. *)
Definition wire_geometry (d : DeltaFrame) (t : Tile) : Z * Z * Z * Z :=
  if full_frame_fallback d then (0, 0, tile_width t, tile_height t)
  else tile_geometry t.

(** The codec reads back what it wrote ([Image.open] succeeds on the
    output of [save]); the pixels may differ, the codec being lossy. *)
Definition codec_opens_saved `{ImageCodec} : Prop :=
  ∀ quality method lossless a, is_Some (image_open (webp_save quality method lossless a)).

(** A toy stand-in for PIL's codec, used to run the embedding on concrete
    inputs: it writes the pixels row by row and reads any data back as a
    one-row image. *)
Definition raw_save (a : ndarray) : bytes :=
  concat ((λ row : list pixel, concat ((λ p : pixel, [p.1.1; p.1.2; p.2]) <$> row))
            <$> nd_rows a).

Fixpoint raw_pixels (n : nat) (data : bytes) : list pixel :=
  match n, data with
  | S n', r :: g :: b :: rest => (r, g, b) :: raw_pixels n' rest
  | _, _ => []
  end.

Definition raw_open (data : bytes) : option ndarray :=
  let row := raw_pixels (length data) data in
  Some {| nd_h := 1; nd_w := Z.of_nat (length row); nd_rows := [row] |}.

Definition raw_codec : ImageCodec :=
  {| webp_save := λ _ _ _ a, raw_save a; image_open := raw_open |}.

Definition demo_tile : Tile := get_tile demo_next 2 2 1 1.

Definition demo_delta : DeltaFrame :=
  {| frame_number := 8; changed_tiles := [demo_tile]; full_frame_fallback := false |}.

Definition demo_full_delta : DeltaFrame :=
  {| frame_number := 0; changed_tiles := [full_frame_tile demo_next];
     full_frame_fallback := true |}.

(** A wall-clock reading in milliseconds. *)
Definition demo_timestamp_ms : Z := 1700000000000.


(** Everything [encode] packs for [d] fits its field: the coordinates,
    sizes and data lengths in [i32], as does the tile count. *)
Definition tile_fits `{ImageCodec} (enc : WebPEncoder) (t : Tile) : Prop :=
  in_signed 4 (tile_x t) ∧ in_signed 4 (tile_y t) ∧
  in_signed 4 (tile_width t) ∧ in_signed 4 (tile_height t) ∧
  in_signed 4 (Z.of_nat (length (_encode_tile enc t))).

Definition delta_fits `{ImageCodec} (enc : WebPEncoder) (d : DeltaFrame) : Prop :=
  in_signed 4 (Z.of_nat (length (changed_tiles d))) ∧
  Forall (tile_fits enc) (changed_tiles d).

(** The deltas the engine hands to the encoder: a full-frame delta has
    exactly one tile, any other delta has at least one
    ([if delta_frame.changed_tiles or delta_frame.full_frame_fallback]). *)
Definition delta_well_formed (d : DeltaFrame) : Prop :=
  if full_frame_fallback d then length (changed_tiles d) = 1%nat
  else changed_tiles d ≠ [].


(** ** The adaptive governor ([core/adaptive_governor.py]) *)

(** Floats are idealised as rationals.  Python's [a < b] and [a == b] on
    numbers: *)
Definition Qltb (a b : Q) : bool := negb (Qle_bool b a).

(** Python's two-argument [max] returns its first argument unless the
    second is greater; [min] returns its first argument unless the second
    is smaller. *)
Definition py_max (a b : Q) : Q := if Qltb a b then b else a.
Definition py_min (a b : Q) : Q := if Qltb b a then b else a.

Record ModeConfig : Type := {
  cfg_fps : Z;
  cfg_min_q : Z;
  cfg_max_q : Z;
  cfg_target_q : Z
}.

(** [AdaptiveGovernor.MODES] *)
Definition MODES (mode : string) : option ModeConfig :=
  if bool_decide (mode = "GAMING"%string) then
    Some {| cfg_fps := 60; cfg_min_q := 30; cfg_max_q := 80; cfg_target_q := 65 |}
  else if bool_decide (mode = "BALANCED"%string) then
    Some {| cfg_fps := 45; cfg_min_q := 20; cfg_max_q := 90; cfg_target_q := 75 |}
  else if bool_decide (mode = "STUDIO"%string) then
    Some {| cfg_fps := 30; cfg_min_q := 50; cfg_max_q := 100; cfg_target_q := 95 |}
  else None.

Record AdaptiveGovernor : Type := {
  gov_mode : string;
  gov_tier : string;
  target_fps : Z;
  target_frame_time : Q;
  current_quality : Q;
  min_quality : Z;
  max_quality : Z;
  current_tile_size : Z;
  last_update_time : Q;
  last_applied_quality : Q;
  quality_deadband : Q;
  last_mode : string;
  last_battery : Q;
  last_is_charging : bool;
  last_fps : Q;
  _cursor_pos : Z * Z;
  _foveated_radius : Z;
  _min_foveated_radius : Z;
  _max_foveated_radius : Z
}.

(** [str.upper] on ASCII letters. *)
Definition upper_char (c : ascii) : ascii :=
  let n := nat_of_ascii c in
  if (97 <=? n)%nat && (n <=? 122)%nat then ascii_of_nat (n - 32) else c.

Fixpoint upper (s : string) : string :=
  match s with
  | EmptyString => EmptyString
  | String c s' => String (upper_char c) (upper s')
  end.

(** [AdaptiveGovernor.__init__]; [now] is the [time.time()] it reads. *)
Definition new_governor (now : Q) (mode tier : string) : AdaptiveGovernor :=
  let mode := match MODES mode with Some _ => mode | None => "BALANCED"%string end in
  let tier := upper tier in
  let cfg := default {| cfg_fps := 45; cfg_min_q := 20; cfg_max_q := 90;
                        cfg_target_q := 75 |} (MODES mode) in
  let fps := if bool_decide (tier = "AIR"%string) then 20 else cfg_fps cfg in
  {| gov_mode := mode;
     gov_tier := tier;
     target_fps := fps;
     target_frame_time := (1000 / inject_Z fps)%Q;
     current_quality := inject_Z (cfg_target_q cfg);
     min_quality := cfg_min_q cfg;
     max_quality := cfg_max_q cfg;
     current_tile_size := 128;
     last_update_time := now;
     last_applied_quality := inject_Z (cfg_target_q cfg);
     quality_deadband := 5%Q;
     last_mode := "NORMAL"%string;
     last_battery := 100%Q;
     last_is_charging := true;
     last_fps := 0%Q;
     _cursor_pos := (0, 0);
     _foveated_radius := 200;
     _min_foveated_radius := 80;
     _max_foveated_radius := 400 |}.

(** The [CLIENT_STATS] dictionary: a key may be absent, and [update]
    reads each with [dict.get] and a default. *)
Record ClientStats : Type := {
  cs_fps : option Q;
  cs_avg_decode_ms : option Q;
  cs_pending_tiles : option Q;
  cs_mode : option string;
  cs_battery : option Q;
  cs_is_charging : option bool;
  cs_bandwidth_kbps : option Q;
  cs_backpressure : option string
}.

(** The pressures [update] computes ("1. Calculate Error Metric"):
    [(queue_pressure, decode_pressure)]. *)
Definition update_pressures (client_stats : ClientStats) : Q * Q :=
  let decode_ms := default 0%Q (cs_avg_decode_ms client_stats) in
  let pending := default 0%Q (cs_pending_tiles client_stats) in
  let queue_pressure := (py_max 0 (pending - 20) / 50)%Q in
  let decode_pressure := (py_max 0 (decode_ms - 10) / 20)%Q in
  let bandwidth_kbps := default 0%Q (cs_bandwidth_kbps client_stats) in
  let decode_pressure :=
    if Qltb 5000 bandwidth_kbps then (decode_pressure + 0.3)%Q else decode_pressure in
  let decode_pressure :=
    if bool_decide (cs_backpressure client_stats = Some "heavy"%string)
    then (decode_pressure + 0.5)%Q else decode_pressure in
  (queue_pressure, decode_pressure).

(** "3. Update Quality": the clamped candidate. *)
Definition update_new_quality (g : AdaptiveGovernor) (total_pressure : Q) : Q :=
  let new_quality := current_quality g in
  let new_quality :=
    if Qltb 0.1 total_pressure then
      let drop_factor := (1 + py_min total_pressure 0.5)%Q in
      (new_quality / drop_factor)%Q
    else (new_quality + 2)%Q in
  py_max (inject_Z (min_quality g)) (py_min (inject_Z (max_quality g)) new_quality).

(** "3. Hysteresis Check": the condition of the [if]. *)
Definition update_hysteresis (g : AdaptiveGovernor) (new_quality : Q) : bool :=
  Qltb (quality_deadband g) (Qabs (new_quality - last_applied_quality g))
  || (Qeq_bool new_quality (inject_Z (min_quality g))
      && negb (Qeq_bool (last_applied_quality g) (inject_Z (min_quality g))))
  || (Qeq_bool new_quality (inject_Z (max_quality g))
      && negb (Qeq_bool (last_applied_quality g) (inject_Z (max_quality g)))).

(** [AdaptiveGovernor.update]; [now] is the [time.time()] it reads. *)
Definition update (g : AdaptiveGovernor) (client_stats : ClientStats) (now : Q)
  : AdaptiveGovernor :=
  if Qltb (now - last_update_time g) 0.5 then g
  else
    let fps := default 60%Q (cs_fps client_stats) in
    let mode := default "NORMAL"%string (cs_mode client_stats) in
    let battery := default 100%Q (cs_battery client_stats) in
    let is_charging := default true (cs_is_charging client_stats) in
    (* 1. target fps *)
    let target_fps' :=
      if bool_decide (gov_tier g = "AIR"%string) then
        if bool_decide (mode = "SUPER_ECO"%string) then 10 else 20
      else target_fps g in
    let target_frame_time' := (1000 / inject_Z target_fps')%Q in
    let '(queue_pressure, decode_pressure) := update_pressures client_stats in
    let total_pressure := (queue_pressure + decode_pressure)%Q in
    (* 2. foveated radius *)
    let foveated_radius' :=
      if bool_decide (gov_tier g = "FLOW"%string) then
        if Qltb 0.3 total_pressure then
          Z.max (_min_foveated_radius g) (_foveated_radius g - 40)
        else if Qltb total_pressure 0.05 then
          Z.min (_max_foveated_radius g) (_foveated_radius g + 10)
        else _foveated_radius g
      else _foveated_radius g in
    (* 3. quality and hysteresis *)
    let new_quality := update_new_quality g total_pressure in
    let apply := update_hysteresis g new_quality in
    (* 4. tile size *)
    let tile_size' :=
      if Qltb 0.5 decode_pressure then
        (if Qltb 0.8 decode_pressure then 512 else 256)
      else if Qltb total_pressure 0.05 then 128
      else current_tile_size g in
    {| gov_mode := gov_mode g;
       gov_tier := gov_tier g;
       target_fps := target_fps';
       target_frame_time := target_frame_time';
       current_quality := if apply then new_quality else current_quality g;
       min_quality := min_quality g;
       max_quality := max_quality g;
       current_tile_size := tile_size';
       last_update_time := now;
       last_applied_quality := if apply then new_quality else last_applied_quality g;
       quality_deadband := quality_deadband g;
       last_mode := mode;
       last_battery := battery;
       last_is_charging := is_charging;
       last_fps := fps;
       _cursor_pos := _cursor_pos g;
       _foveated_radius := foveated_radius';
       _min_foveated_radius := _min_foveated_radius g;
       _max_foveated_radius := _max_foveated_radius g |}.

(** [get_quality]: [int(self.current_quality)] truncates towards zero. *)
Definition get_quality (g : AdaptiveGovernor) : Z :=
  Z.quot (Qnum (current_quality g)) (Zpos (Qden (current_quality g))).

Definition get_tile_size (g : AdaptiveGovernor) : Z := current_tile_size g.
Definition get_target_fps (g : AdaptiveGovernor) : Z := target_fps g.

(** ** The control law as the specification words it *)







(** The governor the Air server attaches to an engine created at time 0,
    and telemetry used to exercise it. *)
Definition demo_governor : AdaptiveGovernor := new_governor 0 "BALANCED" "AIR".

Definition calm_stats : ClientStats :=
  {| cs_fps := Some 20%Q; cs_avg_decode_ms := Some 5%Q; cs_pending_tiles := Some 5%Q;
     cs_mode := None; cs_battery := None; cs_is_charging := None;
     cs_bandwidth_kbps := None; cs_backpressure := None |}.

Definition heavy_stats : ClientStats :=
  {| cs_fps := Some 8%Q; cs_avg_decode_ms := Some 30%Q; cs_pending_tiles := Some 80%Q;
     cs_mode := None; cs_battery := None; cs_is_charging := None;
     cs_bandwidth_kbps := None; cs_backpressure := Some "heavy"%string |}.


(** ** Capture backends and the engine ([core/capture.py], [core/engine.py]) *)

Inductive CaptureBackend : Type :=
  | VeloxRustCapture   (* the native backend *)
  | MSSCapture.        (* the portable CPU backend *)

#[global] Instance CaptureBackend_eq_dec : EqDecision CaptureBackend.
Proof. solve_decision. Defined.

(** The [name] attribute each backend sets in its constructor. *)
Definition capture_name (c : CaptureBackend) : string :=
  match c with
  | VeloxRustCapture => "VeloxRust (Native)"
  | MSSCapture => "MSS (CPU)"
  end.

(** What the host answers when a capture backend is constructed:
    whether [import velox_core] and [VeloxRustCapture(...)] succeed, and
    whether [MSSCapture(...)] succeeds. *)
Record DriverEnv : Type := {
  native_ok : bool;
  mss_ok : bool
}.

(** [CaptureFactory.create]: the native backend is tried first, whatever
    [optimize_pipeline] and [enable_dxcam] say (both are only passed on),
    and any failure falls back to MSS. *)
Definition CaptureFactory_create (env : DriverEnv) (monitor_id : Z)
    (optimize_pipeline enable_dxcam : bool) : result CaptureBackend :=
  if native_ok env then Ok VeloxRustCapture
  else if mss_ok env then Ok MSSCapture
  else Raise EngineInitError.

(** The keys of [config['server']] the server core reads; a key may be
    absent. *)
Record ServerConfig : Type := {
  cfg_monitor_id : option Z;
  optimize_capture_pipeline : option bool;
  enable_dxcam_fallback : option bool;
  cfg_mode : option string;
  cfg_language : option string;
  webp_quality : option Z
}.

Record StreamEngine : Type := {
  eng_config : ServerConfig;
  capture : CaptureBackend;
  partitioner : TilePartitioner;
  encoder : WebPEncoder;
  eng_tile_size : Z;
  last_frame : option ScreenFrame;
  stopped : bool
}.

(** [StreamEngine.__init__] *)
Definition StreamEngine_new (env : DriverEnv) (config : ServerConfig)
  : result StreamEngine :=
  capture ← CaptureFactory_create env
              (default 0 (cfg_monitor_id config))
              (default true (optimize_capture_pipeline config))
              (default false (enable_dxcam_fallback config));
  mret {| eng_config := config;
          capture := capture;
          partitioner := new_partitioner 64;
          encoder := default_encoder (default 70 (webp_quality config));
          eng_tile_size := 128;
          last_frame := None;
          stopped := false |}.

(** [StreamEngine.stop] *)
Definition engine_stop (e : StreamEngine) : StreamEngine :=
  {| eng_config := eng_config e; capture := capture e; partitioner := partitioner e;
     encoder := encoder e; eng_tile_size := eng_tile_size e;
     last_frame := last_frame e; stopped := true |}.

(** [StreamEngine.get_initial_payload].  [grab] is what [_get_frame]
    returns or raises, [timestamp_ms] the clock the encoder samples. *)
Definition get_initial_payload `{ImageCodec} (e : StreamEngine)
    (grab : result ScreenFrame) (timestamp_ms : Z) : result bytes * StreamEngine :=
  match grab with
  | Raise err => (Raise err, e)
  | Ok frame =>
      let '(delta, partitioner') := create_full_frame_delta (partitioner e) frame in
      (encode (encoder e) timestamp_ms delta,
       {| eng_config := eng_config e; capture := capture e;
          partitioner := partitioner'; encoder := encoder e;
          eng_tile_size := eng_tile_size e; last_frame := Some frame;
          stopped := stopped e |})
  end.

(** ** The server core ([air_server_app.py]) *)

(** A viewer is its websocket object; tasks are numbered as they are
    created. *)
Abbreviation Viewer := nat.
Abbreviation task_id := nat.

(** The [engine_data] dictionary of one monitor. *)
Record Slot : Type := {
  slot_engine : StreamEngine;
  clients : gset Viewer;
  governor : AdaptiveGovernor;
  force_enhancement : bool;
  video_task : task_id;
  audio_task : task_id
}.

Inductive TextMessage : Type :=
  | VERSION (version : option string) (monitor_id : Z) (tier : string)
            (language : option string)
  | SYS_EVENT (message level : string).

Inductive Frame : Type :=
  | TextFrame (msg : TextMessage)
  | BinaryFrame (payload : bytes).

(** The attributes of [VeloxAirServerApp] the core reads and writes,
    followed by what the run time holds: the wall clock, the task
    counter, the cancelled tasks, the guarded sends still running, the
    viewers whose channel was closed and the events queued for the
    dashboards. *)
Record Server : Type := {
  config : ServerConfig;
  engines : gmap Z Slot;
  _backend_blacklist : gmap Z Q;
  _clients_sending : gmap Viewer task_id;
  _dashboards : gset Viewer;
  clock : Q;
  next_task : task_id;
  cancelled : gset task_id;
  running_sends : gmap task_id Viewer;
  closed : gset Viewer;
  outbox : list (Viewer * TextMessage)
}.

Definition with_engines (st : Server) (e : gmap Z Slot) : Server :=
  {| config := config st; engines := e;
     _backend_blacklist := _backend_blacklist st;
     _clients_sending := _clients_sending st; _dashboards := _dashboards st;
     clock := clock st; next_task := next_task st; cancelled := cancelled st;
     running_sends := running_sends st; closed := closed st; outbox := outbox st |}.

Definition with_blacklist (st : Server) (b : gmap Z Q) : Server :=
  {| config := config st; engines := engines st;
     _backend_blacklist := b;
     _clients_sending := _clients_sending st; _dashboards := _dashboards st;
     clock := clock st; next_task := next_task st; cancelled := cancelled st;
     running_sends := running_sends st; closed := closed st; outbox := outbox st |}.

Definition with_sending (st : Server) (s : gmap Viewer task_id)
    (r : gmap task_id Viewer) (n : task_id) : Server :=
  {| config := config st; engines := engines st;
     _backend_blacklist := _backend_blacklist st;
     _clients_sending := s; _dashboards := _dashboards st;
     clock := clock st; next_task := n; cancelled := cancelled st;
     running_sends := r; closed := closed st; outbox := outbox st |}.

Definition with_next_task (st : Server) (n : task_id) : Server :=
  with_sending st (_clients_sending st) (running_sends st) n.

(** [await asyncio.sleep(seconds)] *)
Definition sleep (st : Server) (seconds : Q) : Server :=
  {| config := config st; engines := engines st;
     _backend_blacklist := _backend_blacklist st;
     _clients_sending := _clients_sending st; _dashboards := _dashboards st;
     clock := (clock st + seconds)%Q; next_task := next_task st;
     cancelled := cancelled st; running_sends := running_sends st;
     closed := closed st; outbox := outbox st |}.

(** [task.cancel()] on both tasks of a slot. *)
Definition cancel_tasks (st : Server) (slot : Slot) : Server :=
  {| config := config st; engines := engines st;
     _backend_blacklist := _backend_blacklist st;
     _clients_sending := _clients_sending st; _dashboards := _dashboards st;
     clock := clock st; next_task := next_task st;
     cancelled := {[video_task slot; audio_task slot]} ∪ cancelled st;
     running_sends := running_sends st; closed := closed st; outbox := outbox st |}.

(** [_broadcast_event]: one [SYS_EVENT] queued for every dashboard. *)
Definition _broadcast_event (st : Server) (message level : string) : Server :=
  {| config := config st; engines := engines st;
     _backend_blacklist := _backend_blacklist st;
     _clients_sending := _clients_sending st; _dashboards := _dashboards st;
     clock := clock st; next_task := next_task st; cancelled := cancelled st;
     running_sends := running_sends st; closed := closed st;
     outbox := outbox st
               ++ ((λ ws, (ws, SYS_EVENT message level)) <$> elements (_dashboards st)) |}.

(** How a call into the server ends.  [Deadlocked]: the coroutine waits
    for ever, which is what re-entering the non-reentrant
    [asyncio.Lock] it already holds does. *)
Inductive outcome (A : Type) : Type :=
  | Returned (a : A)
  | Raised (e : exn)
  | Deadlocked.
Arguments Returned {A} a.
Arguments Raised {A} e.
Arguments Deadlocked {A}.

(** [time.time() - self._backend_blacklist[monitor_id] < 60], when
    [force_compat] is not set and the monitor has an entry. *)
Definition in_cool_down (st : Server) (monitor_id : Z) : bool :=
  match _backend_blacklist st !! monitor_id with
  | Some since => Qltb (clock st - since) 60
  | None => false
  end.

(** The [try] block of [get_or_create_engine]: build the engine from
    [cfg], blacklist on a silent downgrade, attach governor and tasks,
    register the slot.  In the [except] branch the monitor is blacklisted;
    the retry with [force_compat=True] is awaited while [_engine_lock] is
    still held, so it never acquires the lock. *)
Definition build_engine (env : DriverEnv) (st : Server) (monitor_id : Z)
    (force_compat : bool) (cfg : ServerConfig) : outcome Slot * Server :=
  match StreamEngine_new env cfg with
  | Ok engine =>
      let st :=
        if negb force_compat
           && default false (optimize_capture_pipeline cfg)
           && String.prefix "MSS" (capture_name (capture engine))
        then with_blacklist st (<[monitor_id := clock st]> (_backend_blacklist st))
        else st in
      let gov :=
        new_governor (clock st) (upper (default "BALANCED"%string (cfg_mode (config st))))
          "AIR" in
      let engine_data :=
        {| slot_engine := engine; clients := ∅; governor := gov;
           force_enhancement := true;
           video_task := next_task st; audio_task := S (next_task st) |} in
      let st := with_next_task st (S (S (next_task st))) in
      let st := with_engines st (<[monitor_id := engine_data]> (engines st)) in
      (Returned engine_data, st)
  | Raise e =>
      let st := with_blacklist st (<[monitor_id := clock st]> (_backend_blacklist st)) in
      if negb force_compat then (Deadlocked, sleep st 0.5)
      else (Raised e, st)
  end.

(** [VeloxAirServerApp.get_or_create_engine].  [env] is what the host
    answers to the engine construction the call performs. *)
Definition get_or_create_engine (env : DriverEnv) (st : Server) (monitor_id : Z)
    (force_compat : bool) : outcome Slot * Server :=
  (* Check Blacklist (Cool-down period for failed native backends) *)
  let force_compat :=
    if negb force_compat && in_cool_down st monitor_id then true else force_compat in
  match engines st !! monitor_id, force_compat with
  | Some existing, false => (Returned existing, st)
  | old, _ =>
      (* cfg = copy.deepcopy(self.config), then the three assignments *)
      let cfg :=
        {| cfg_monitor_id := Some monitor_id;
           optimize_capture_pipeline :=
             if force_compat then Some false
             else optimize_capture_pipeline (config st);
           enable_dxcam_fallback := Some false;
           cfg_mode := cfg_mode (config st);
           cfg_language := cfg_language (config st);
           webp_quality := webp_quality (config st) |} in
      let st :=
        match old with
        | Some old =>
            (* old = self.engines.pop(monitor_id); cancel both tasks;
               stop the engine; driver settling time *)
            let st := with_engines st (delete monitor_id (engines st)) in
            let st := cancel_tasks st old in
            sleep st 0.5
        | None => st
        end in
      build_engine env st monitor_id force_compat cfg
  end.

Definition with_closed (st : Server) (c : gset Viewer) : Server :=
  {| config := config st; engines := engines st;
     _backend_blacklist := _backend_blacklist st;
     _clients_sending := _clients_sending st; _dashboards := _dashboards st;
     clock := clock st; next_task := next_task st; cancelled := cancelled st;
     running_sends := running_sends st; closed := c; outbox := outbox st |}.

Definition clear_clients (slot : Slot) : Slot :=
  {| slot_engine := slot_engine slot; clients := ∅;
     governor := governor slot; force_enhancement := force_enhancement slot;
     video_task := video_task slot; audio_task := audio_task slot |}.

(** [list(self.engines.keys())] *)
Definition engine_keys (st : Server) : list Z := elements (dom (engines st)).

(** Step 1 of the reset, for one monitor: close the channel of every
    viewer with code 1001, then [self.engines[mid]["clients"].clear()]. *)
Definition close_clients_of (st : Server) (mid : Z) : Server :=
  match engines st !! mid with
  | Some slot =>
      with_closed
        (with_engines st (<[mid := clear_clients slot]> (engines st)))
        (clients slot ∪ closed st)
  | None => st
  end.

(** Step 2 of the reset, for one monitor: pop the slot, cancel its tasks,
    stop its engine ([except: pass] when anything raises). *)
Definition stop_engine_of (st : Server) (mid : Z) : Server :=
  match engines st !! mid with
  | Some ed => cancel_tasks (with_engines st (delete mid (engines st))) ed
  | None => st
  end.

(** [VeloxAirServerApp._perform_software_reset] *)
Definition _perform_software_reset (env : DriverEnv) (st : Server)
  : outcome unit * Server :=
  let st := _broadcast_event st "SOFTWARE RESET INITIATED" "error" in
  (* 0. Remember current monitor before clearing *)
  let current_mon := default 0 (cfg_monitor_id (config st)) in
  (* 1. HARD DISCONNECT all clients *)
  let st := foldl close_clients_of st (engine_keys st) in
  (* 2. Force clear all engines and tasks *)
  let st := foldl stop_engine_of st (engine_keys st) in
  (* 3. Clear the sending task tracking *)
  let st := with_sending st ∅ (running_sends st) (next_task st) in
  (* 4. Clear backend blacklist *)
  let st := with_blacklist st ∅ in
  (* 5. Settling delay *)
  let st := sleep st 2 in
  (* 6. Re-initialize primary engine *)
  match get_or_create_engine env st current_mon false with
  | (Returned _, st) => (Returned (), _broadcast_event st "SYSTEM RECOVERED" "info")
  | (Raised e, st) => (Raised e, st)
  | (Deadlocked, st) => (Deadlocked, st)
  end.

Definition add_client (slot : Slot) (ws : Viewer) : Slot :=
  {| slot_engine := slot_engine slot; clients := {[ws]} ∪ clients slot;
     governor := governor slot; force_enhancement := force_enhancement slot;
     video_task := video_task slot; audio_task := audio_task slot |}.

Definition with_engine (slot : Slot) (e : StreamEngine) : Slot :=
  {| slot_engine := e; clients := clients slot;
     governor := governor slot; force_enhancement := force_enhancement slot;
     video_task := video_task slot; audio_task := audio_task slot |}.

(** Step 3 of [_ws_handler]: [await websocket.send(init_frame)], or a
    logged warning when [get_initial_payload] raised or timed out. *)
Definition send_initial_frame (init_frame : result bytes) : list Frame :=
  match init_frame with
  | Ok payload => [BinaryFrame payload]
  | Raise _ => []
  end.

(** [VeloxAirServerApp._ws_handler], from the connection up to the
    message loop: the frames sent to [websocket], how the prefix ends,
    and the server afterwards.  [PROTOCOL_VERSION] is the constant of
    [core/constants.py]; [grab] is what the engine's [_get_frame] yields
    within the 2 s allowed, [timestamp_ms] the encoder's clock. *)
Definition _ws_handler_join `{ImageCodec} (PROTOCOL_VERSION : string)
    (env : DriverEnv) (st : Server) (websocket : Viewer)
    (grab : result ScreenFrame) (timestamp_ms : Z)
  : list Frame * outcome unit * Server :=
  let curr_mon := default 0 (cfg_monitor_id (config st)) in
  let lang := default "zh_TW"%string (cfg_language (config st)) in
  (* 1. Complete handshake and send version/config immediately *)
  let sent := [TextFrame (VERSION (Some PROTOCOL_VERSION) curr_mon "AIR" (Some lang))] in
  (* 2. Register first, then get engine *)
  match get_or_create_engine env st curr_mon false with
  | (Returned ed, st) =>
      let ed := add_client ed websocket in
      (* 3. Send Initial Keyframe immediately *)
      let '(init_frame, engine') := get_initial_payload (slot_engine ed) grab timestamp_ms in
      let st := with_engines st (<[curr_mon := with_engine ed engine']> (engines st)) in
      (sent ++ send_initial_frame init_frame, Returned (), st)
  | (Raised e, st) => (sent, Raised e, st)
  | (Deadlocked, st) => (sent, Deadlocked, st)
  end.

Definition with_config (st : Server) (c : ServerConfig) : Server :=
  {| config := c; engines := engines st;
     _backend_blacklist := _backend_blacklist st;
     _clients_sending := _clients_sending st; _dashboards := _dashboards st;
     clock := clock st; next_task := next_task st; cancelled := cancelled st;
     running_sends := running_sends st; closed := closed st; outbox := outbox st |}.

(** Step 1 of the switch, for one monitor:
    [all_clients.extend(list(ed["clients"])); ed["clients"].clear()].
    The source collects into a list; the viewers are kept as a set here,
    the order of the [VERSION] sends being left open. *)
Definition collect_clients_of (acc : gset Viewer * Server) (mid : Z)
  : gset Viewer * Server :=
  match engines acc.2 !! mid with
  | Some ed =>
      (clients ed ∪ acc.1,
       with_engines acc.2 (<[mid := clear_clients ed]> (engines acc.2)))
  | None => acc
  end.

(** Step 2 of the switch, for one monitor: [if mid != new_mon:] pop the
    slot, cancel its tasks, stop its engine. *)
Definition stop_other_engine (new_mon : Z) (st : Server) (mid : Z) : Server :=
  if bool_decide (mid ≠ new_mon) then stop_engine_of st mid else st.

(** [VeloxAirServerApp._perform_switch]: the [VERSION] records sent, how
    the call ends, the server afterwards ([_save_runtime_state] writes
    [runtime_state.json] and touches nothing here). *)
Definition _perform_switch (env : DriverEnv) (st : Server) (new_mon : Z)
  : list (Viewer * TextMessage) * outcome unit * Server :=
  (* 1. Collect all clients from all active engines *)
  let '(all_clients, st) := foldl collect_clients_of (∅, st) (engine_keys st) in
  (* 2. Stop only engines that are NOT the new target monitor *)
  let st := foldl (stop_other_engine new_mon) st (engine_keys st) in
  (* 3. Ensure the target monitor engine exists *)
  let st :=
    with_config st
      {| cfg_monitor_id := Some new_mon;
         optimize_capture_pipeline := optimize_capture_pipeline (config st);
         enable_dxcam_fallback := enable_dxcam_fallback (config st);
         cfg_mode := cfg_mode (config st);
         cfg_language := cfg_language (config st);
         webp_quality := webp_quality (config st) |} in
  match get_or_create_engine env st new_mon false with
  | (Returned new_data, st) =>
      (* 4. Reassign all clients to the target monitor *)
      let new_data :=
        {| slot_engine := slot_engine new_data;
           clients := all_clients ∪ clients new_data;
           governor := governor new_data;
           force_enhancement := force_enhancement new_data;
           video_task := video_task new_data; audio_task := audio_task new_data |} in
      ((λ ws, (ws, VERSION None new_mon "AIR" None)) <$> elements all_clients,
       Returned (),
       with_engines st (<[new_mon := new_data]> (engines st)))
  | (Raised e, st) => ([], Raised e, st)
  | (Deadlocked, st) => ([], Deadlocked, st)
  end.

(** ** The broadcast loop and the send guard *)

(** [x in s] on strings. *)
Fixpoint contains (x s : string) : bool :=
  String.prefix x s
  || match s with
     | EmptyString => false
     | String _ s' => contains x s'
     end.

(** The test of the loop's [except] branch. *)
Definition is_known_driver_fault (msg : string) : bool :=
  existsb (λ x, contains x msg)
    ["Access is denied"; "0x80070005"; "The parameter is incorrect"]%string.

Inductive LoopAction : Type := LoopContinue | LoopExit.

(** The [except Exception as e] branch of [_engine_broadcast_loop]: on a
    known driver fault the rebuild is scheduled and the loop returns;
    [env] is what the host answers to the rebuild. *)
Definition on_broadcast_exception (env : DriverEnv) (st : Server) (monitor_id : Z)
    (msg : string) : LoopAction * Server :=
  if is_known_driver_fault msg
  then (LoopExit, (get_or_create_engine env st monitor_id true).2)
  else (LoopContinue, sleep st 0.1).






(** The congestion check at the top of a loop iteration:
    [any(ws in self._clients_sending for ws in clients)]. *)
Definition congested (st : Server) (viewers : gset Viewer) : bool :=
  bool_decide (∃ ws, ws ∈ viewers ∧ is_Some (_clients_sending st !! ws)).

(** What the operations on the registry (joining, creating or rebuilding
    an engine, switching monitors) do to the sends: the map and the
    running guarded sends stay as they are, tasks may have been created. *)
Definition same_sends (st st' : Server) : Prop :=
  _clients_sending st' = _clients_sending st ∧
  running_sends st' = running_sends st ∧
  (next_task st ≤ next_task st')%nat.



(** The server as [__init__] leaves it. *)
Definition new_server (cfg : ServerConfig) (now : Q) : Server :=
  {| config := cfg; engines := ∅; _backend_blacklist := ∅; _clients_sending := ∅;
     _dashboards := ∅; clock := now; next_task := 0%nat; cancelled := ∅;
     running_sends := ∅; closed := ∅; outbox := [] |}.

Definition demo_config : ServerConfig :=
  {| cfg_monitor_id := Some 0; optimize_capture_pipeline := Some true;
     enable_dxcam_fallback := None; cfg_mode := Some "balanced"%string;
     cfg_language := None; webp_quality := None |}.

Definition native_env : DriverEnv := {| native_ok := true; mss_ok := true |}.
Definition portable_env : DriverEnv := {| native_ok := false; mss_ok := true |}.


(** ** Reading the fields of a payload (§4.4 of the specification) *)

Definition payload_tag (p : bytes) : option byte := p !! 0%nat.
Definition payload_timestamp (p : bytes) : result Z := unpack_q (py_slice p 1 9).
Definition payload_num_tiles (p : bytes) : result Z := unpack_i (py_slice p 9 13).
Definition payload_full_size (p : bytes) : result (Z * Z) := unpack_ii (py_slice p 13 21).

(** A server with one engine on monitor 0 and viewer 7 attached to it. *)
Definition demo_joined : Server :=
  (@_ws_handler_join raw_codec "1.0" native_env (new_server demo_config 0) 7%nat
     (Ok demo_next) demo_timestamp_ms).2.





(** ** The rest of the governor ([core/adaptive_governor.py]) *)

(** [AdaptiveGovernor.update_cursor] *)
Definition update_cursor (g : AdaptiveGovernor) (x y : Z) : AdaptiveGovernor :=
  {| gov_mode := gov_mode g; gov_tier := gov_tier g; target_fps := target_fps g;
     target_frame_time := target_frame_time g; current_quality := current_quality g;
     min_quality := min_quality g; max_quality := max_quality g;
     current_tile_size := current_tile_size g; last_update_time := last_update_time g;
     last_applied_quality := last_applied_quality g;
     quality_deadband := quality_deadband g; last_mode := last_mode g;
     last_battery := last_battery g; last_is_charging := last_is_charging g;
     last_fps := last_fps g;
     _cursor_pos := (x, y);
     _foveated_radius := _foveated_radius g;
     _min_foveated_radius := _min_foveated_radius g;
     _max_foveated_radius := _max_foveated_radius g |}.

Definition get_foveated_radius (g : AdaptiveGovernor) : Z := _foveated_radius g.

(** [AdaptiveGovernor.is_in_foveated_region]: "Check if tile overlaps
    with the foveated box". *)
Definition is_in_foveated_region (g : AdaptiveGovernor) (tx ty tw th : Z) : bool :=
  let '(cx, cy) := _cursor_pos g in
  negb ((tx + tw <? cx - _foveated_radius g)
        || (cx + _foveated_radius g <? tx)
        || (ty + th <? cy - _foveated_radius g)
        || (cy + _foveated_radius g <? ty)).

(** The governors a server can hold: built by [__init__], then driven by
    [update] and [update_cursor] only. *)
Inductive governor_reachable : AdaptiveGovernor → Prop :=
  | reachable_init now mode tier :
      governor_reachable (new_governor now mode tier)
  | reachable_update g client_stats now :
      governor_reachable g → governor_reachable (update g client_stats now)
  | reachable_cursor g x y :
      governor_reachable g → governor_reachable (update_cursor g x y).

(** The point [(px, py)] lies in the closed rectangle at [(x, y)] of size
    [w × h]. *)
Definition in_rect (x y w h px py : Z) : Prop :=
  x ≤ px ≤ x + w ∧ y ≤ py ≤ y + h.

(** The foveated box: the closed square of half-side [_foveated_radius]
    around the cursor. *)
Definition in_foveated_box (g : AdaptiveGovernor) (px py : Z) : Prop :=
  Z.abs (px - (_cursor_pos g).1) ≤ _foveated_radius g ∧
  Z.abs (py - (_cursor_pos g).2) ≤ _foveated_radius g.


Definition pressed_governor : AdaptiveGovernor := update demo_governor heavy_stats 1.

(** What every reachable governor satisfies. *)
Definition governor_inv (g : AdaptiveGovernor) : Prop :=
  (quality_deadband g == 5)%Q ∧
  current_quality g = last_applied_quality g ∧
  (min_quality g, max_quality g) ∈ [(30, 80); (20, 90); (50, 100)] ∧
  (inject_Z (min_quality g) <= current_quality g)%Q ∧
  (current_quality g <= inject_Z (max_quality g))%Q ∧
  current_tile_size g ∈ [128; 256; 512] ∧
  0 < target_fps g ∧
  (gov_tier g = "AIR"%string → target_fps g = 10 ∨ target_fps g = 20) ∧
  _min_foveated_radius g = 80 ∧ _max_foveated_radius g = 400 ∧
  80 ≤ _foveated_radius g ≤ 400.


(** ** The client's screen buffer ([core/client_ui.py]) *)

Definition black : pixel := (Byte.x00, Byte.x00, Byte.x00).

(** [Image.new("RGB", (width, height), color='black')]; PIL refuses a
    negative size with [ValueError]. *)
Definition Image_new (width height : Z) : result ndarray :=
  if (width <? 0) || (height <? 0) then Raise ValueError
  else mret {| nd_h := height; nd_w := width;
               nd_rows := replicate (Z.to_nat height) (replicate (Z.to_nat width) black) |}.

(** [buf.paste(img, (x, y))]: the pixels of [img] land on the box of its
    own size whose upper left corner is [(x, y)]; PIL clips the box at
    the edges of [buf]. *)
Definition paste (buf img : ndarray) (x y : Z) : ndarray :=
  {| nd_h := nd_h buf; nd_w := nd_w buf;
     nd_rows :=
       imap (λ r row,
               imap (λ c p,
                       if (y <=? Z.of_nat r) && (Z.of_nat r <? y + nd_h img)
                          && (x <=? Z.of_nat c) && (Z.of_nat c <? x + nd_w img)
                       then default p (pixel_at img (Z.of_nat r - y) (Z.of_nat c - x))
                       else p)
                    row)
            (nd_rows buf) |}.

(** The body of the loop "2. merge tiles" of [ClientUI._decode_worker]
    (the tile's image is already RGB, frames being RGB pixel arrays). *)
Definition paste_tile (screen_buffer : ndarray) (tile : Tile) : ndarray :=
  if (tile_x tile + tile_width tile <=? nd_w screen_buffer)
     && (tile_y tile + tile_height tile <=? nd_h screen_buffer)
  then paste screen_buffer (tile_data tile) (tile_x tile) (tile_y tile)
  else screen_buffer.

(** One turn of [ClientUI._decode_worker] on the delta frame it took from
    [decode_queue]: the screen buffer afterwards and the snapshot put on
    the render queue, if any.  An exception is logged and ends the turn
    with the buffer as it was. *)
Definition _decode_worker (screen_buffer : ndarray) (render_queue_full : bool)
    (delta_frame : DeltaFrame) : ndarray * option ndarray :=
  (* 1. resolution change (full-frame fallback) *)
  let resized : result ndarray :=
    if full_frame_fallback delta_frame
       && bool_decide (length (changed_tiles delta_frame) = 1%nat) then
      match changed_tiles delta_frame !! 0%nat with
      | Some tile =>
          if negb (bool_decide ((nd_w screen_buffer, nd_h screen_buffer)
                                = (tile_width tile, tile_height tile)))
          then Image_new (tile_width tile) (tile_height tile)
          else mret screen_buffer
      | None => Raise IndexError
      end
    else mret screen_buffer in
  match resized with
  | Raise _ => (screen_buffer, None)
  | Ok screen_buffer =>
      (* 2. merge tiles *)
      let screen_buffer := foldl paste_tile screen_buffer (changed_tiles delta_frame) in
      (* 3. submit a snapshot to the render queue *)
      (screen_buffer, if render_queue_full then None else Some screen_buffer)
  end.

(** [ClientUI.update_frame]: a delta frame without tiles is ignored, and
    so is any delta frame while [decode_queue] (of size 5) is full. *)
Definition update_frame (decode_queue : list DeltaFrame) (delta_frame : DeltaFrame)
  : list DeltaFrame :=
  match changed_tiles delta_frame with
  | [] => decode_queue
  | _ :: _ =>
      if (5 <=? Z.of_nat (length decode_queue)) then decode_queue
      else decode_queue ++ [delta_frame]
  end.

(** The point [(r, c)] lies in the rectangle a tile claims. *)
Definition covers (t : Tile) (r c : Z) : Prop :=
  tile_y t ≤ r < tile_y t + tile_height t ∧ tile_x t ≤ c < tile_x t + tile_width t.

#[global] Instance covers_dec t r c : Decision (covers t r c).
Proof. unfold covers. apply _. Defined.

(** [t] is a tile cut from the array [cur]: its rectangle lies inside the
    array and its data are the pixels of that rectangle. *)
Definition tile_of_frame (cur : ndarray) (t : Tile) : Prop :=
  0 ≤ tile_x t ∧ 0 ≤ tile_y t ∧ 0 ≤ tile_width t ∧ 0 ≤ tile_height t ∧
  tile_x t + tile_width t ≤ nd_w cur ∧ tile_y t + tile_height t ≤ nd_h cur ∧
  tile_data t = nd_slice cur (tile_y t) (tile_y t + tile_height t)
                         (tile_x t) (tile_x t + tile_width t).

(** Row-major order of tiles: top to bottom, and left to right within a
    row. *)
Definition row_major (t1 t2 : Tile) : Prop :=
  tile_y t1 < tile_y t2 ∨ (tile_y t1 = tile_y t2 ∧ tile_x t1 < tile_x t2).

(** ** Vocabulary for the payload layout *)

(** The bytes the tile records of a delta payload take: sixteen for the
    geometry, four for the length, then the image data. *)
Definition tile_records_length `{ImageCodec} (enc : WebPEncoder) (tiles : list Tile) : Z :=
  foldr (λ t acc, 20 + Z.of_nat (length (_encode_tile enc t)) + acc) 0 tiles.

(** A delta frame without tiles, as [partition_and_detect_changes] returns
    it for an unchanged frame. *)
Definition empty_delta (n : Z) : DeltaFrame :=
  {| frame_number := n; changed_tiles := []; full_frame_fallback := false |}.

(** The payload of the sample delta as the client's decoder gets it, the
    type tag removed. *)
Definition demo_delta_payload : bytes :=
  match @encode raw_codec (default_encoder 70) demo_timestamp_ms demo_delta with
  | Ok (_ :: payload) => payload
  | _ => []
  end.

(** ** The rest of the engine ([core/engine.py]) *)

Definition with_partitioner (e : StreamEngine) (p : TilePartitioner) : StreamEngine :=
  {| eng_config := eng_config e; capture := capture e; partitioner := p;
     encoder := encoder e; eng_tile_size := eng_tile_size e;
     last_frame := last_frame e; stopped := stopped e |}.

Definition with_last_frame (e : StreamEngine) (f : ScreenFrame) : StreamEngine :=
  {| eng_config := eng_config e; capture := capture e; partitioner := partitioner e;
     encoder := encoder e; eng_tile_size := eng_tile_size e;
     last_frame := Some f; stopped := stopped e |}.

(** The [tile_size] setter of [StreamEngine]: the value goes to the
    engine's own field and to the partitioner's. *)
Definition set_engine_tile_size (e : StreamEngine) (value : Z) : StreamEngine :=
  {| eng_config := eng_config e; capture := capture e;
     partitioner := set_tile_size (partitioner e) value;
     encoder := encoder e; eng_tile_size := value;
     last_frame := last_frame e; stopped := stopped e |}.

(** [engine.encoder._quality = value] *)
Definition set_encoder_quality (e : StreamEngine) (value : Z) : StreamEngine :=
  {| eng_config := eng_config e; capture := capture e; partitioner := partitioner e;
     encoder := {| enc_quality := value; enc_method := enc_method (encoder e);
                   enc_lossless := enc_lossless (encoder e) |};
     eng_tile_size := eng_tile_size e;
     last_frame := last_frame e; stopped := stopped e |}.

(** Python's truth value of a payload that may be [None]. *)
Definition truthy (payload : option bytes) : bool :=
  match payload with
  | Some (_ :: _) => true
  | _ => false
  end.

(** "2. LEGACY PATH" of [StreamEngine.get_next_payload]: grab, partition
    (or build a keyframe when forced), encode when there is something to
    send, read the timestamp back for the telemetry log. *)
Definition legacy_path `{ImageCodec} (e : StreamEngine) (force_full : bool)
    (grab : result ScreenFrame) (timestamp_ms : Z)
  : result (option bytes) * StreamEngine :=
  match grab with
  | Raise err => (Raise err, e)
  | Ok frame =>
      let e := with_last_frame e frame in
      let '(delta_frame, partitioner') :=
        if force_full then
          let '(d, p) := create_full_frame_delta (partitioner e) frame in (Ok d, p)
        else partition_and_detect_changes (partitioner e) frame in
      let e := with_partitioner e partitioner' in
      match delta_frame with
      | Raise err => (Raise err, e)
      | Ok delta_frame =>
          if negb (bool_decide (changed_tiles delta_frame = []))
             || full_frame_fallback delta_frame
          then
            match encode (encoder e) timestamp_ms delta_frame with
            | Raise err => (Raise err, e)
            | Ok payload =>
                (* ts = struct.unpack('<q', payload[1:9])[0] *)
                match unpack_q (py_slice payload 1 9) with
                | Raise err => (Raise err, e)
                | Ok _ => (Ok (Some payload), e)
                end
            end
          else (Ok None, e)
      end
  end.

(** [StreamEngine.get_next_payload].  [native] is what the native
    capturer answers on the fast path ([force_full_refresh] and
    [capture_delta_payload] together): a payload, nothing, or an
    exception, which is logged and leads to the legacy path; [grab] is
    what [_get_frame] yields there, [timestamp_ms] the encoder's clock. *)
Definition get_next_payload `{ImageCodec} (e : StreamEngine) (force_full : bool)
    (native : result (option bytes)) (grab : result ScreenFrame) (timestamp_ms : Z)
  : result (option bytes) * StreamEngine :=
  match capture e with
  | VeloxRustCapture =>
      match native with
      | Ok payload =>
          if truthy payload then
            match unpack_q (py_slice (default [] payload) 1 9) with
            | Ok _ => (Ok payload, e)
            | Raise _ => legacy_path e force_full grab timestamp_ms
            end
          else (Ok None, e)
      | Raise _ => legacy_path e force_full grab timestamp_ms
      end
  | MSSCapture => legacy_path e force_full grab timestamp_ms
  end.

(** [struct.pack] of one unsigned field of [n] bytes ([B] for 1, [I] for
    4): [struct.error] when the value does not fit. *)
Definition struct_pack_unsigned (n : nat) (z : Z) : result bytes :=
  if (0 <=? z) && (z <? 2 ^ (8 * Z.of_nat n)) then Ok (pack_le n z)
  else Raise StructError.

(** [struct.pack('<BI', a, b)] *)
Definition pack_BI (a b : Z) : result bytes :=
  pa ← struct_pack_unsigned 1 a; pb ← struct_pack_unsigned 4 b; mret (pa ++ pb).

(** [self.audio] when the native audio engine is there: whether the
    object has [get_audio_packet_raw], and what its two calls answer. *)
Record VeloxAudio : Type := {
  has_get_audio_packet_raw : bool;
  get_audio_packet_raw : result (option bytes);
  get_audio_packet : result (option bytes)
}.

(** [StreamEngine.get_audio_payload]; [tier] is
    [config['server'].get('tier')], [audio] is [self.audio]. *)
Definition get_audio_payload (tier : option string) (audio : option VeloxAudio)
  : option bytes :=
  match audio with
  | None => None
  | Some audio =>
      let tier := upper (default "WARP"%string tier) in
      let packet :=
        if bool_decide (tier = "WARP"%string) && has_get_audio_packet_raw audio
        then get_audio_packet_raw audio
        else get_audio_packet audio in
      match packet with
      | Raise _ => None
      | Ok packet =>
          if truthy packet then
            (* [Type(1)] [Size(4)] [Data(N)] *)
            match pack_BI 5 (Z.of_nat (length (default [] packet))) with
            | Ok header => Some (header ++ default [] packet)
            | Raise _ => None
            end
          else None
      end
  end.

(** An engine on the portable backend, as [StreamEngine.__init__] builds
    it when the native core is missing. *)
Definition demo_engine : StreamEngine :=
  {| eng_config := demo_config; capture := MSSCapture;
     partitioner := new_partitioner 64; encoder := default_encoder 70;
     eng_tile_size := 128; last_frame := None; stopped := false |}.

(** A native audio engine that answers one chunk of three bytes. *)
Definition demo_audio : VeloxAudio :=
  {| has_get_audio_packet_raw := true;
     get_audio_packet_raw := Ok (Some [Byte.x10; Byte.x20; Byte.x30]);
     get_audio_packet := Ok None |}.

(** ** The rest of the server core ([air_server_app.py]) *)

Definition with_dashboards (st : Server) (d : gset Viewer) : Server :=
  {| config := config st; engines := engines st;
     _backend_blacklist := _backend_blacklist st;
     _clients_sending := _clients_sending st; _dashboards := d;
     clock := clock st; next_task := next_task st; cancelled := cancelled st;
     running_sends := running_sends st; closed := closed st; outbox := outbox st |}.

(** The [CLIENT_STATS] branch of the message loop of [_ws_handler], on
    the slot [ed] the connection got when it joined: the slot afterwards
    and the value stored in [engine.frame_rate].  ([websocket.device_name]
    is kept for the dashboard's statistics only.) *)
Definition on_client_stats (ed : Slot) (data : ClientStats) (now : Q) : Slot * Z :=
  let g := update (governor ed) data now in
  (* Apply to Engine *)
  let engine := slot_engine ed in
  let engine := set_encoder_quality engine (get_quality g) in
  let engine := set_engine_tile_size engine (get_tile_size g) in
  ({| slot_engine := engine; clients := clients ed; governor := g;
      force_enhancement := force_enhancement ed;
      video_task := video_task ed; audio_task := audio_task ed |},
   get_target_fps g).

(** [e["clients"].discard(websocket)] *)
Definition discard_client (websocket : Viewer) (slot : Slot) : Slot :=
  {| slot_engine := slot_engine slot; clients := clients slot ∖ {[websocket]};
     governor := governor slot; force_enhancement := force_enhancement slot;
     video_task := video_task slot; audio_task := audio_task slot |}.

(** The [finally] clause of [_ws_handler]: the socket leaves the viewer
    set of every engine and the set of dashboards. *)
Definition _ws_handler_finally (st : Server) (websocket : Viewer) : Server :=
  let st := with_engines st (discard_client websocket <$> engines st) in
  with_dashboards st (_dashboards st ∖ {[websocket]}).

(** A slot as [get_or_create_engine] registers it on the portable
    backend. *)
Definition demo_slot : Slot :=
  {| slot_engine := demo_engine; clients := {[7%nat]}; governor := demo_governor;
     force_enhancement := true; video_task := 0%nat; audio_task := 1%nat |}.

(** ** The client's jitter buffer ([core/jitter_buffer.py]) *)

(** [bisect.bisect_left(a, x)]: the binary search of the standard
    library, [lo] and [hi] closing in on the insertion point; the search
    needs at most [hi - lo] turns. *)
Fixpoint bisect_left_loop (turns : nat) (a : list Q) (x : Q) (lo hi : nat) : nat :=
  match turns with
  | O => lo
  | S turns' =>
      if (lo <? hi)%nat then
        let mid := ((lo + hi) / 2)%nat in
        match a !! mid with
        | Some v =>
            if Qltb v x then bisect_left_loop turns' a x (mid + 1) hi
            else bisect_left_loop turns' a x lo mid
        | None => lo
        end
      else lo
  end.

Definition bisect_left (a : list Q) (x : Q) : nat :=
  bisect_left_loop (length a) a x 0 (length a).

(** [deque.insert(i, x)] for [0 ≤ i]; an index past the end appends. *)
Definition deque_insert {A} (l : list A) (i : nat) (x : A) : list A :=
  take i l ++ x :: drop i l.

(** [deque(maxlen=n).append(x)]: a full deque drops its oldest item. *)
Definition append_maxlen {A} (n : nat) (l : list A) (x : A) : list A :=
  if (n <=? length l)%nat then tail l ++ [x] else l ++ [x].

(** [int(q)]: truncation towards zero. *)
Definition Q_to_int (q : Q) : Z := Z.quot (Qnum q) (Zpos (Qden q)).

Record JitterBuffer (A : Type) : Type := {
  _frames : list (Q * A);
  _last_playback_time : Q;
  _last_played_frame_data : option (Q * A);
  _current_buffer_size_ms : Z;
  _target_fps : Z;
  _max_frames : Z;
  _arrival_times : list Q;
  _playback_times : list Q
}.
Arguments _frames {A} _.
Arguments _last_playback_time {A} _.
Arguments _last_played_frame_data {A} _.
Arguments _current_buffer_size_ms {A} _.
Arguments _target_fps {A} _.
Arguments _max_frames {A} _.
Arguments _arrival_times {A} _.
Arguments _playback_times {A} _.

(** [JitterBuffer.__init__] *)
Definition new_jitter_buffer {A} (target_fps current_buffer_size_ms max_frames : Z)
  : JitterBuffer A :=
  {| _frames := []; _last_playback_time := 0; _last_played_frame_data := None;
     _current_buffer_size_ms := current_buffer_size_ms;
     _target_fps := target_fps;
     _max_frames := Z.max 1 max_frames;
     _arrival_times := []; _playback_times := [] |}.

(** [JitterBuffer._calculate_max_frames] *)
Definition _calculate_max_frames {A} (b : JitterBuffer A) (buffer_ms : Z) : Z :=
  if _target_fps b =? 0 then 1
  else Z.max 1 (Q_to_int (inject_Z buffer_ms / (1000 / inject_Z (_target_fps b)))).

(** [JitterBuffer.add_frame]; [now] is the [time.time()] recorded as the
    arrival time. *)
Definition add_frame {A} (b : JitterBuffer A) (frame_data : A) (timestamp now : Q)
  : JitterBuffer A :=
  let new_frame_tuple := (timestamp, frame_data) in
  (* Find insertion point *)
  let insert_index := bisect_left (fst <$> _frames b) timestamp in
  let frames := deque_insert (_frames b) insert_index new_frame_tuple in
  let arrival_times := append_maxlen 10 (_arrival_times b) now in
  (* If buffer exceeds max_frames + margin, drop the oldest frame *)
  let overflow_margin := 2 in
  let frames :=
    if _max_frames b + overflow_margin <? Z.of_nat (length frames)
    then tail frames else frames in
  {| _frames := frames; _last_playback_time := _last_playback_time b;
     _last_played_frame_data := _last_played_frame_data b;
     _current_buffer_size_ms := _current_buffer_size_ms b;
     _target_fps := _target_fps b; _max_frames := _max_frames b;
     _arrival_times := arrival_times; _playback_times := _playback_times b |}.

(** [[xs[i] - xs[i-1] for i in range(1, len(xs))]] *)
Definition consecutive_differences (xs : list Q) : list Q :=
  zip_with (λ previous next, (next - previous)%Q) xs (tail xs).

(** [JitterBuffer._adjust_buffer_size] *)
Definition _adjust_buffer_size {A} (b : JitterBuffer A) : JitterBuffer A :=
  if (length (_arrival_times b) <? 5)%nat then b
  else
    let intervals := consecutive_differences (_arrival_times b) in
    let jitter :=
      if (1 <? length intervals)%nat then
        (foldr Qplus 0 (Qabs <$> consecutive_differences intervals)
         / inject_Z (Z.of_nat (length intervals) - 1))%Q
      else 0%Q in
    let target_buffer_ms := Z.max 50 (Q_to_int (jitter * 4 * 1000)) in
    let target_buffer_ms := Z.min target_buffer_ms 400 in
    let new_max_frames := _calculate_max_frames b target_buffer_ms in
    if negb (new_max_frames =? _max_frames b) then
      {| _frames := _frames b; _last_playback_time := _last_playback_time b;
         _last_played_frame_data := _last_played_frame_data b;
         _current_buffer_size_ms := target_buffer_ms;
         _target_fps := _target_fps b; _max_frames := new_max_frames;
         _arrival_times := _arrival_times b; _playback_times := _playback_times b |}
    else b.

(** What a call of [get_frame] yields: a frame, [None], or the
    [ZeroDivisionError] of [1.0 / self._target_fps]. *)
Inductive get_frame_result (A : Type) : Type :=
  | GotFrame (frame_tuple : Q * A)
  | GotNone
  | RaisedZeroDivisionError.
Arguments GotFrame {A} frame_tuple.
Arguments GotNone {A}.
Arguments RaisedZeroDivisionError {A}.

(** The four lines that release the oldest frame:
    [frame_tuple = self._frames.popleft()] and the book-keeping. *)
Definition release {A} (b : JitterBuffer A) (frame_tuple : Q * A) (rest : list (Q * A))
    (current_time : Q) : get_frame_result A * JitterBuffer A :=
  (GotFrame frame_tuple,
   {| _frames := rest; _last_playback_time := current_time;
      _last_played_frame_data := Some frame_tuple;
      _current_buffer_size_ms := _current_buffer_size_ms b;
      _target_fps := _target_fps b; _max_frames := _max_frames b;
      _arrival_times := _arrival_times b;
      _playback_times := append_maxlen 10 (_playback_times b) current_time |}).

(** [JitterBuffer.get_frame]; [current_time] is the [time.time()] it
    reads. *)
Definition get_frame {A} (b : JitterBuffer A) (current_time : Q)
  : get_frame_result A * JitterBuffer A :=
  (* Adaptive buffer adjustment logic *)
  let b := _adjust_buffer_size b in
  match _frames b with
  | [] => (GotNone, b)
  | frame_tuple :: rest =>
      (* If this is the very first frame, play it immediately *)
      if Qeq_bool (_last_playback_time b) 0 then release b frame_tuple rest current_time
      else if _target_fps b =? 0 then (RaisedZeroDivisionError, b)
      else
        let expected_next_playback_time :=
          (_last_playback_time b + 1 / inject_Z (_target_fps b))%Q in
        (* Priority 1: Buffer is nearly full *)
        if _max_frames b <=? Z.of_nat (length (_frames b))
        then release b frame_tuple rest current_time
        (* Priority 2: It is time for the next frame *)
        else if Qle_bool expected_next_playback_time current_time
        then release b frame_tuple rest current_time
        else (GotNone, b)
  end.

(** [JitterBuffer.is_ready] *)
Definition is_ready {A} (b : JitterBuffer A) : bool :=
  _max_frames b / 2 <=? Z.of_nat (length (_frames b)).

(** [JitterBuffer.clear] *)
Definition clear {A} (b : JitterBuffer A) : JitterBuffer A :=
  {| _frames := []; _last_playback_time := 0; _last_played_frame_data := None;
     _current_buffer_size_ms := _current_buffer_size_ms b;
     _target_fps := _target_fps b; _max_frames := _max_frames b;
     _arrival_times := []; _playback_times := [] |}.

(** The frames of a buffer are in the order of their timestamps. *)
Definition in_timestamp_order {A} (frames : list (Q * A)) : Prop :=
  StronglySorted (λ f1 f2 : Q * A, (f1.1 <= f2.1)%Q) frames.

(** The buffer of the Python client ([client_app.py]): 15 frames per
    second, at most 5 frames. *)
Definition client_jitter_buffer : JitterBuffer nat := new_jitter_buffer 15 100 5.

(** A buffer of at most one frame that already holds three: the next
    frame overflows it. *)
Definition full_jitter_buffer : JitterBuffer nat :=
  add_frame (add_frame (add_frame (new_jitter_buffer 15 100 1) 1%nat 0.2 10)
               2%nat 0.3 11) 3%nat 0.4 12.

(** ** Vocabulary for the whole pipeline *)

(** The codec reads the image of [t] back as it was saved (a lossless
    setting). *)
Definition reads_back `{ImageCodec} (enc : WebPEncoder) (t : Tile) : Prop :=
  image_open (_encode_tile enc t) = Some (tile_data t).

(** The enhancement packet of [_engine_broadcast_loop]:
    [if lossless: pkt = bytearray(lossless); pkt[0] = 0x02], sent as
    [bytes(pkt)]; an empty payload is not sent. *)
Definition enhancement_packet (lossless : bytes) : option bytes :=
  match lossless with
  | [] => None
  | _ :: rest => Some (Byte.x02 :: rest)
  end.

(* ===================================================================== *)
(** * Part II: lemmas and theorems                                        *)
(* ===================================================================== *)

Lemma Z_of_byte_of_Z z : Z_of_byte (byte_of_Z z) = z mod 256.
Proof.
  unfold Z_of_byte, byte_of_Z.
  assert (Hr : 0 ≤ z mod 256 < 256) by (apply Z.mod_pos_bound; lia).
  destruct (Byte.of_N (Z.to_N (z mod 256))) as [b|] eqn:E.
  - apply Byte.to_of_N in E. rewrite E. lia.
  - apply Byte.of_N_None_iff in E. lia.
Qed.

Lemma Z_of_byte_range b : 0 ≤ Z_of_byte b < 256.
Proof.
  unfold Z_of_byte. pose proof (Byte.to_N_bounded b). lia.
Qed.

Lemma length_pack_le n z : length (pack_le n z) = n.
Proof. revert z. induction n as [|n IH]; intros z; simpl; [done | by rewrite IH]. Qed.

Lemma unpack_pack_le n z : unpack_le (pack_le n z) = z mod 2 ^ (8 * Z.of_nat n).
Proof.
  revert z. induction n as [|n IH]; intros z.
  - simpl. by rewrite Z.mod_1_r.
  - cbn [pack_le unpack_le]. rewrite Z_of_byte_of_Z, IH.
    replace (8 * Z.of_nat (S n)) with (8 + 8 * Z.of_nat n) by lia.
    rewrite Z.pow_add_r by lia. change (2 ^ 8) with 256.
    rewrite (Z.rem_mul_r z 256 (2 ^ (8 * Z.of_nat n))) by lia. lia.
Qed.

(** ** Python ranges and slices *)

Lemma py_range0_pos stop step :
  0 < step →
  ∃ l, py_range0 stop step = Ok l ∧ NoDup l ∧
       ∀ x, x ∈ l ↔ ∃ k, 0 ≤ k ∧ x = k * step ∧ x < stop.
Proof.
  intros Hstep. unfold py_range0.
  destruct (Z.eqb_spec step 0) as [->|_]; [lia|].
  destruct (Z.ltb_spec 0 step) as [_|?]; [|lia].
  eexists; split; [reflexivity|]. split.
  - apply NoDup_fmap_2_strong; [|apply NoDup_seq].
    intros a b _ _ Hab. nia.
  - intros x. rewrite list_elem_of_fmap. split.
    + intros (k & -> & Hk). apply elem_of_seq in Hk.
      exists (Z.of_nat k). split; [lia|]. split; [done|].
      destruct (Z.le_gt_cases stop 0) as [Hs|Hs].
      * assert ((stop + step - 1) / step ≤ 0)
          by (apply Z.lt_succ_r, Z.div_lt_upper_bound; lia). lia.
      * assert (Z.of_nat k < (stop + step - 1) / step) by lia.
        assert (step * ((stop + step - 1) / step) ≤ stop + step - 1)
          by (apply Z.mul_div_le; lia). nia.
    + intros (k & Hk & -> & Hlt). exists (Z.to_nat k). split; [lia|].
      apply elem_of_seq. split; [lia|]. simpl.
      assert (k < (stop + step - 1) / step); [|lia].
      apply Z.div_le_lower_bound with (a := stop + step - 1) (b := step) (q := k + 1) in Hstep as Hq;
        [lia | nia].
Qed.

Lemma py_slice_in_range {A} (l : list A) (s e : Z) :
  0 ≤ s ≤ e → e ≤ Z.of_nat (length l) →
  py_slice l s e = take (Z.to_nat (e - s)) (drop (Z.to_nat s) l).
Proof.
  intros Hs He. unfold py_slice, py_index.
  destruct (Z.ltb_spec s 0); [lia|]. destruct (Z.ltb_spec e 0); [lia|].
  by rewrite !Z.min_l by lia.
Qed.

Lemma length_py_slice_in_range {A} (l : list A) (s e : Z) :
  0 ≤ s ≤ e → e ≤ Z.of_nat (length l) →
  length (py_slice l s e) = Z.to_nat (e - s).
Proof.
  intros Hs He. rewrite py_slice_in_range by done.
  rewrite length_take, length_drop. lia.
Qed.

Lemma lookup_py_slice_in_range {A} (l : list A) (s e : Z) (i : nat) :
  0 ≤ s ≤ e → e ≤ Z.of_nat (length l) → (i < Z.to_nat (e - s))%nat →
  py_slice l s e !! i = l !! (Z.to_nat s + i)%nat.
Proof.
  intros Hs He Hi. rewrite py_slice_in_range by done.
  by rewrite lookup_take_lt, lookup_drop.
Qed.

Lemma lists_differ_at {A} `{EqDecision A} (l1 l2 : list A) :
  length l1 = length l2 → l1 ≠ l2 →
  ∃ i, (i < length l1)%nat ∧ l1 !! i ≠ l2 !! i.
Proof.
  revert l2. induction l1 as [|a l1 IH]; intros [|b l2] Hlen Hne; simplify_eq/=.
  destruct (decide (a = b)) as [->|Hab].
  - destruct (IH l2) as (i & Hi & Hd); [done | congruence |].
    exists (S i). split; [lia | done].
  - exists 0%nat. split; [lia|]. simpl. congruence.
Qed.

(** ** Slices of arrays *)

Section Slices.
Variables (a : ndarray) (x y tw th : Z).
Hypothesis Hwf : nd_wf a.
Hypothesis Hx : 0 ≤ x ∧ 0 ≤ tw ∧ x + tw ≤ nd_w a.
Hypothesis Hy : 0 ≤ y ∧ 0 ≤ th ∧ y + th ≤ nd_h a.

Lemma nd_slice_shape :
  shape (nd_slice a y (y + th) x (x + tw)) = (th, tw).
Proof.
  unfold shape, nd_slice, slice_len, py_index; simpl.
  destruct Hwf as (Hh & Hw & _).
  repeat match goal with |- context [?u <? 0] => destruct (Z.ltb_spec u 0); [lia|] end.
  f_equal; lia.
Qed.

Lemma nd_slice_pixel (i j : nat) :
  Z.of_nat i < th → Z.of_nat j < tw →
  (row ← nd_rows (nd_slice a y (y + th) x (x + tw)) !! i; row !! j)
  = pixel_at a (y + Z.of_nat i) (x + Z.of_nat j).
Proof.
  intros Hi Hj. destruct Hwf as (Hh & Hw & Hrows). unfold pixel_at. simpl.
  rewrite list_lookup_fmap.
  rewrite lookup_py_slice_in_range by lia.
  replace (Z.to_nat y + i)%nat with (Z.to_nat (y + Z.of_nat i)) by lia.
  destruct (nd_rows a !! Z.to_nat (y + Z.of_nat i)) as [row|] eqn:E; simpl; [|done].
  assert (Z.of_nat (length row) = nd_w a) as Hlen.
  { eapply (proj1 (Forall_lookup _ _) Hrows); eauto. }
  rewrite lookup_py_slice_in_range by lia.
  f_equal. lia.
Qed.
End Slices.

Section Slices2.
Variables (a : ndarray) (x y tw th : Z).
Hypothesis Hwf : nd_wf a.
Hypothesis Hx : 0 ≤ x ∧ 0 ≤ tw ∧ x + tw ≤ nd_w a.
Hypothesis Hy : 0 ≤ y ∧ 0 ≤ th ∧ y + th ≤ nd_h a.

Lemma nd_slice_wf : nd_wf (nd_slice a y (y + th) x (x + tw)).
Proof.
  pose proof (nd_slice_shape a x y tw th Hwf Hx Hy) as Hs.
  unfold shape in Hs. simpl in Hs. injection Hs as Hh Hw.
  destruct Hwf as (Hh0 & Hw0 & Hrows).
  unfold nd_wf. simpl. rewrite Hh, Hw.
  split; [|split].
  - rewrite length_fmap, length_py_slice_in_range by lia. lia.
  - lia.
  - apply Forall_fmap, Forall_forall. intros row Hrow. simpl.
    assert (row ∈ nd_rows a) as Hin.
    { rewrite py_slice_in_range in Hrow by lia.
      apply elem_of_take in Hrow as (i & Hi & _).
      rewrite lookup_drop in Hi. eapply list_elem_of_lookup_2, Hi. }
    pose proof (proj1 (Forall_forall _ _) Hrows row Hin) as Hlen. simpl in Hlen.
    rewrite length_py_slice_in_range by lia. lia.
Qed.
End Slices2.

Lemma array_equal_slices (a b : ndarray) (x y tw th : Z) :
  nd_wf a → nd_wf b → shape a = shape b →
  0 ≤ x ∧ 0 ≤ tw ∧ x + tw ≤ nd_w a →
  0 ≤ y ∧ 0 ≤ th ∧ y + th ≤ nd_h a →
  array_equal (nd_slice a y (y + th) x (x + tw))
              (nd_slice b y (y + th) x (x + tw)) = false
  ↔ region_differs a b x y tw th.
Proof.
  intros Ha Hb Hsh Hx Hy.
  assert (nd_h b = nd_h a ∧ nd_w b = nd_w a) as [Hhb Hwb]
    by (unfold shape in Hsh; by simplify_eq).
  assert (Hxb : 0 ≤ x ∧ 0 ≤ tw ∧ x + tw ≤ nd_w b) by lia.
  assert (Hyb : 0 ≤ y ∧ 0 ≤ th ∧ y + th ≤ nd_h b) by lia.
  pose proof (nd_slice_shape a x y tw th Ha Hx Hy) as Hsa.
  pose proof (nd_slice_shape b x y tw th Hb Hxb Hyb) as Hsb.
  pose proof (nd_slice_wf a x y tw th Ha Hx Hy) as Hwa.
  pose proof (nd_slice_wf b x y tw th Hb Hxb Hyb) as Hwb'.
  remember (nd_slice a y (y + th) x (x + tw)) as sa eqn:Esa.
  remember (nd_slice b y (y + th) x (x + tw)) as sb eqn:Esb.
  assert (nd_h sa = th ∧ nd_w sa = tw) as [Hsa1 Hsa2]
    by (unfold shape in Hsa; by simplify_eq).
  assert (nd_h sb = th ∧ nd_w sb = tw) as [Hsb1 Hsb2]
    by (unfold shape in Hsb; by simplify_eq).
  unfold array_equal. rewrite Hsa, Hsb, bool_decide_eq_true_2 by done.
  rewrite andb_true_l, bool_decide_eq_false. split.
  - intros Hne.
    destruct Hwa as (Hha & _ & Hra), Hwb' as (Hhb' & _ & Hrb).
    destruct (lists_differ_at (nd_rows sa) (nd_rows sb)) as (i & Hi & Hd); [lia | done |].
    destruct (nd_rows sa !! i) as [ra|] eqn:Era;
      [|apply lookup_ge_None in Era; lia].
    destruct (nd_rows sb !! i) as [rb|] eqn:Erb;
      [|apply lookup_ge_None in Erb; lia].
    pose proof (proj1 (Forall_lookup _ _) Hra i ra Era) as Hla.
    pose proof (proj1 (Forall_lookup _ _) Hrb i rb Erb) as Hlb. simpl in Hla, Hlb.
    destruct (lists_differ_at ra rb) as (j & Hj & Hdj); [lia | congruence |].
    exists (y + Z.of_nat i), (x + Z.of_nat j).
    split; [lia|]. split; [lia|].
    rewrite <- (nd_slice_pixel a x y tw th) by (done || lia).
    rewrite <- (nd_slice_pixel b x y tw th) by (done || lia).
    rewrite <- Esa, <- Esb, Era, Erb. simpl. done.
  - intros (r & c & Hr & Hc & Hd) Heq. apply Hd.
    replace r with (y + Z.of_nat (Z.to_nat (r - y))) by lia.
    replace c with (x + Z.of_nat (Z.to_nat (c - x))) by lia.
    rewrite <- (nd_slice_pixel a x y tw th) by (done || lia).
    rewrite <- (nd_slice_pixel b x y tw th) by (done || lia).
    rewrite <- Esa, <- Esb. by rewrite Heq.
Qed.

(** ** The tile partitioner *)

Lemma elem_of_concat_fmap {A B} (g : A → list B) (l : list A) (t : B) :
  t ∈ concat (g <$> l) ↔ ∃ a, a ∈ l ∧ t ∈ g a.
Proof.
  induction l as [|a l IH]; simpl.
  - split; [by intros ?%elem_of_nil | by intros (? & ?%elem_of_nil & _)].
  - rewrite elem_of_app, IH. split.
    + intros [Ht | (b & Hb & Ht)]; [exists a | exists b]; split; auto; by constructor.
    + intros (b & Hb & Ht). apply elem_of_cons in Hb as [-> | Hb]; eauto.
Qed.

Lemma NoDup_concat_fmap {A B} (g : A → list B) (l : list A) :
  NoDup l →
  (∀ a, a ∈ l → NoDup (g a)) →
  (∀ a b t, a ∈ l → b ∈ l → t ∈ g a → t ∈ g b → a = b) →
  NoDup (concat (g <$> l)).
Proof.
  induction 1 as [|a l Ha Hl IH]; intros Hg Hdisj; simpl; [constructor|].
  apply NoDup_app. split; [|split].
  - apply Hg. by constructor.
  - intros t Hta (b & Hb & Htb)%elem_of_concat_fmap.
    assert (a = b) as -> by (eapply Hdisj; eauto; by constructor). done.
  - apply IH.
    + intros b Hb. apply Hg. by constructor.
    + intros b c t Hb Hc. apply Hdisj; by constructor.
Qed.

Section Scan.
Variables (tile_size : Z) (f : ScreenFrame) (last : ndarray).
Hypothesis Hts : 0 < tile_size.
Hypothesis Hwf : nd_wf (frame_np f).
Hypothesis Hlast : nd_wf last.
Hypothesis Hshape : shape last = shape (frame_np f).

Local Abbreviation cur := (frame_np f).
Local Abbreviation W := (frame_width f).
Local Abbreviation H := (frame_height f).

(** One grid position yields at most one tile, and yields it exactly
    when the region changed. *)
Lemma detect_tile_spec (x y : Z) (t : Tile) :
  0 ≤ x < W → 0 ≤ y < H →
  t ∈ detect_tile tile_size f cur last y x ↔
    t = get_tile f x y (Z.min tile_size (W - x)) (Z.min tile_size (H - y)) ∧
    region_differs cur last x y (Z.min tile_size (W - x)) (Z.min tile_size (H - y)).
Proof.
  intros Hx Hy. unfold detect_tile.
  remember (Z.min tile_size (W - x)) as tw eqn:Etw.
  remember (Z.min tile_size (H - y)) as th eqn:Eth.
  assert (0 < tw ∧ x + tw ≤ W) as Htw by lia.
  assert (0 < th ∧ y + th ≤ H) as Hth by lia.
  destruct (Z.leb_spec tw 0); [lia|]. destruct (Z.leb_spec th 0); [lia|]. simpl.
  pose proof (array_equal_slices cur last x y tw th Hwf Hlast (eq_sym Hshape)) as Heq.
  destruct (array_equal _ _) eqn:E; simpl.
  - split; [by intros ?%elem_of_nil|]. intros [_ Hd].
    apply Heq in Hd; [done | unfold frame_width in *; lia
                            | unfold frame_height in *; lia].
  - rewrite list_elem_of_singleton. split; [|by intros [-> _]].
    intros ->. split; [done|]. apply Heq;
      [unfold frame_width in *; lia | unfold frame_height in *; lia | done].
Qed.

Lemma detect_tile_NoDup (x y : Z) : NoDup (detect_tile tile_size f cur last y x).
Proof.
  unfold detect_tile. repeat case_match; try constructor;
    [by intros ?%elem_of_nil | constructor].
Qed.

Lemma detect_tile_pos (x y : Z) t :
  t ∈ detect_tile tile_size f cur last y x → tile_x t = x ∧ tile_y t = y.
Proof.
  unfold detect_tile. repeat case_match; try by intros ?%elem_of_nil.
  by intros ->%list_elem_of_singleton.
Qed.

Lemma scan_rows_eq (xs ys : list Z) :
  py_range0 W tile_size = Ok xs →
  scan_rows tile_size f cur last ys
  = Ok (concat ((λ y, concat (detect_tile tile_size f cur last y <$> xs)) <$> ys)).
Proof.
  intros Hxs. induction ys as [|y ys IH]; [done|].
  cbn [scan_rows]. unfold scan_row. rewrite Hxs. simpl.
  rewrite IH. done.
Qed.

Lemma scan_grid_spec :
  ∃ tiles, scan_grid tile_size f cur last = Ok tiles ∧ NoDup tiles ∧
    ∀ t, t ∈ tiles ↔
      grid_tile tile_size W H t ∧
      tile_data t = nd_slice cur (tile_y t) (tile_y t + tile_height t)
                             (tile_x t) (tile_x t + tile_width t) ∧
      region_differs cur last (tile_x t) (tile_y t) (tile_width t) (tile_height t).
Proof.
  destruct (py_range0_pos W tile_size Hts) as (xs & Hxs & Hnx & Hex).
  destruct (py_range0_pos H tile_size Hts) as (ys & Hys & Hny & Hey).
  unfold scan_grid. rewrite Hys. simpl.
  rewrite (scan_rows_eq xs ys Hxs).
  eexists; split; [reflexivity|]. split.
  - apply NoDup_concat_fmap; [done | |].
    + intros y _. apply NoDup_concat_fmap; [done | |].
      * intros x _. apply detect_tile_NoDup.
      * intros x x' t _ _ [? _]%detect_tile_pos [? _]%detect_tile_pos. congruence.
    + intros y y' t _ _ (x & _ & [_ ?]%detect_tile_pos)%elem_of_concat_fmap
                        (x' & _ & [_ ?]%detect_tile_pos)%elem_of_concat_fmap.
      congruence.
  - intros t. rewrite elem_of_concat_fmap. split.
    + intros (y & Hy & (x & Hx & Ht)%elem_of_concat_fmap).
      apply Hey in Hy as (j & Hj & -> & HjH).
      apply Hex in Hx as (i & Hi & -> & HiW).
      apply detect_tile_spec in Ht as [-> Hd]; [|nia|nia].
      split; [|split]; [|done|done].
      unfold grid_tile; simpl. repeat split; eauto.
    + intros (((i & Hi & Hxi) & (j & Hj & Hyj) & HxW & HyH & Hw & Hh) & Hdata & Hd).
      exists (tile_y t). split; [apply Hey; eauto|].
      apply elem_of_concat_fmap. exists (tile_x t). split; [apply Hex; eauto|].
      apply detect_tile_spec; [nia | nia |].
      rewrite <- Hw, <- Hh. split; [|done].
      destruct t; unfold get_tile; simpl in *. by rewrite Hdata.
Qed.
End Scan.

(** C3.  With a positive tile size and a stored reference frame of the
    same shape, [partition_and_detect_changes] returns a non-fallback
    delta whose tiles are exactly (and once each) the tiles of the grid of
    step [tile_size], the last row and column cut at the frame's edge,
    in which some pixel differs from the reference frame; with no
    reference frame, or one of another shape, it returns the single
    full-frame tile with [full_frame_fallback = true]; in every case the
    reference frame afterwards is the current frame. *)
Theorem partition_detects_changed_grid_tiles (tp : TilePartitioner) (f : ScreenFrame) :
  0 < _tile_size tp →
  nd_wf (frame_np f) →
  (∀ last, _last_frame_np tp = Some last → nd_wf last) →
  let full := {| frame_number := _frame_number tp + 1;
                 changed_tiles := [full_frame_tile f];
                 full_frame_fallback := true |} in
  let r := partition_and_detect_changes tp f in
  _last_frame_np r.2 = Some (frame_np f) ∧
  match _last_frame_np tp with
  | Some last =>
      if decide (shape last = shape (frame_np f)) then
        ∃ d, r.1 = Ok d ∧ full_frame_fallback d = false ∧
             NoDup (changed_tiles d) ∧
             ∀ t, t ∈ changed_tiles d ↔
               grid_tile (_tile_size tp) (frame_width f) (frame_height f) t ∧
               tile_data t = nd_slice (frame_np f) (tile_y t) (tile_y t + tile_height t)
                                      (tile_x t) (tile_x t + tile_width t) ∧
               region_differs (frame_np f) last
                 (tile_x t) (tile_y t) (tile_width t) (tile_height t)
      else r.1 = Ok full
  | None => r.1 = Ok full
  end.
Proof.
  intros Hts Hwf Hlast full r. subst r full.
  unfold partition_and_detect_changes, full_frame_tile, get_np_array.
  destruct (_last_frame_np tp) as [last|] eqn:El; [|done].
  destruct (decide (shape last = shape (frame_np f))) as [Hs|Hs].
  - rewrite bool_decide_eq_true_2 by done. simpl.
    destruct (scan_grid_spec (_tile_size tp) f last Hts Hwf (Hlast _ eq_refl) Hs)
      as (tiles & -> & Hnd & Htiles).
    simpl. split; [done|]. exists {| frame_number := _frame_number tp + 1;
                                     changed_tiles := tiles;
                                     full_frame_fallback := false |}.
    done.
  - rewrite bool_decide_eq_false_2 by done. done.
Qed.

(** C3 at a concrete input: a 3 × 3 frame whose last pixel changed,
    tiles of size 2. *)
Lemma partition_detects_changed_grid_tiles_witness :
  0 < _tile_size demo_partitioner ∧ nd_wf (frame_np demo_next) ∧
  ∃ d, (partition_and_detect_changes demo_partitioner demo_next).1 = Ok d ∧
       full_frame_fallback d = false ∧
       (tile_x <$> changed_tiles d, tile_y <$> changed_tiles d) = ([2], [2]) ∧
       ∀ t, t ∈ changed_tiles d →
         region_differs (frame_np demo_next) (frame_np demo_prev)
           (tile_x t) (tile_y t) (tile_width t) (tile_height t).
Proof.
  assert (Hwf : nd_wf (frame_np demo_next))
    by (vm_compute; repeat split; try discriminate; repeat constructor).
  split; [reflexivity|]. split; [exact Hwf|].
  pose proof (partition_detects_changed_grid_tiles demo_partitioner demo_next) as Hspec.
  destruct Hspec as [_ (d & Hd & Hfb & _ & Ht)].
  - reflexivity.
  - exact Hwf.
  - intros last [= <-]. vm_compute. repeat split; try discriminate; repeat constructor.
  - exists d. split; [exact Hd|]. split; [exact Hfb|]. split.
    + vm_compute in Hd. injection Hd as <-. reflexivity.
    + intros t Hin. by apply Ht in Hin as (_ & _ & ?).
Defined.

(** ** Frame numbers *)

Lemma partition_bumps_counter tp f :
  _frame_number (partition_and_detect_changes tp f).2 = _frame_number tp + 1 ∧
  ∀ d, (partition_and_detect_changes tp f).1 = Ok d →
       frame_number d = _frame_number tp + 1.
Proof.
  unfold partition_and_detect_changes.
  destruct (_last_frame_np tp) as [last|]; [|split; [done | by intros d [= <-]]].
  destruct (negb _); [split; [done | by intros d [= <-]]|].
  destruct (scan_grid _ _ _ _); simpl; split; try done; by intros d [= <-].
Qed.

Lemma create_full_frame_delta_number tp f :
  frame_number (create_full_frame_delta tp f).1 = 0 ∧
  _frame_number (create_full_frame_delta tp f).2 = _frame_number tp.
Proof. done. Qed.

Lemma run_calls_numbers tp calls :
  Forall (λ o : bool * DeltaFrame,
            if o.1 then frame_number o.2 = 0
            else _frame_number tp < frame_number o.2) (run_calls tp calls) ∧
  StronglySorted Z.lt (partition_frame_numbers tp calls).
Proof.
  unfold partition_frame_numbers.
  revert tp. induction calls as [|[f|f] calls IH]; intros tp.
  - split; constructor.
  - cbn [run_calls].
    pose proof (partition_bumps_counter tp f) as [Hc Hd].
    destruct (partition_and_detect_changes tp f) as [r tp'] eqn:E. simpl in Hc, Hd.
    destruct (IH tp') as [Hall Hsorted].
    assert (Forall (λ o : bool * DeltaFrame,
              if o.1 then frame_number o.2 = 0
              else _frame_number tp < frame_number o.2) (run_calls tp' calls)) as Hall'.
    { eapply Forall_impl; [exact Hall|]. intros [[] d]; simpl; lia. }
    destruct r as [d|e]; [|done].
    split.
    + constructor; [simpl; rewrite (Hd d eq_refl); lia | done].
    + rewrite filter_cons_True by done. rewrite fmap_cons. constructor; [done|].
      simpl. rewrite (Hd d eq_refl).
      apply Forall_fmap, Forall_forall. intros [b d'] [Hb Hin]%list_elem_of_filter.
      simpl in Hb. subst b.
      apply (proj1 (Forall_forall _ _) Hall) in Hin. simpl in *. lia.
  - cbn [run_calls]. simpl.
    destruct (IH {| _tile_size := _tile_size tp;
                    _last_frame_np := Some (get_np_array f);
                    _frame_number := _frame_number tp |}) as [Hall Hsorted].
    split.
    + constructor; [done | done].
    + rewrite filter_cons_False by (simpl; congruence). done.
Qed.

(** C9, as amended.  Over any sequence of calls on one partitioner, the
    delta frames produced by [partition_and_detect_changes] carry
    strictly increasing frame numbers, and every delta frame produced by
    [create_full_frame_delta] carries frame number 0. *)
Theorem partition_frame_numbers_increase (tp : TilePartitioner)
    (calls : list partitioner_call) :
  StronglySorted Z.lt (partition_frame_numbers tp calls) ∧
  ∀ d, (true, d) ∈ run_calls tp calls → frame_number d = 0.
Proof.
  destruct (run_calls_numbers tp calls) as [Hall Hsorted].
  split; [done|]. intros d Hin.
  by apply (proj1 (Forall_forall _ _) Hall) in Hin.
Qed.

(** C9, counterexample.  A partition call followed by a full-frame
    keyframe yields the frame numbers 1 and then 0. *)
Lemma frame_numbers_not_increasing :
  produced_frame_numbers (new_partitioner 64)
    [CallPartition demo_prev; CallFullFrame demo_prev] = [1; 0] ∧
  ¬ StronglySorted Z.lt
      (produced_frame_numbers (new_partitioner 64)
         [CallPartition demo_prev; CallFullFrame demo_prev]).
Proof.
  split; [reflexivity|].
  intros Hs. vm_compute produced_frame_numbers in Hs.
  inversion Hs as [|? ? _ Hall]. inversion Hall as [|? ? Hlt _]. lia.
Qed.

(** ** The wire format *)

Lemma struct_pack_signed_Ok n z bs :
  struct_pack_signed n z = Ok bs → in_signed n z ∧ bs = pack_le n z.
Proof.
  unfold struct_pack_signed, in_signedb, in_signed.
  destruct (Z.leb_spec (- 2 ^ (8 * Z.of_nat n - 1)) z);
    destruct (Z.ltb_spec z (2 ^ (8 * Z.of_nat n - 1))); simpl; intros [= <-] || intros [=]; auto.
Qed.

Lemma struct_unpack_pack_signed n z bs :
  (0 < n)%nat → struct_pack_signed n z = Ok bs →
  length bs = n ∧ struct_unpack_signed n bs = Ok z.
Proof.
  intros Hn [[Hlo Hhi] ->]%struct_pack_signed_Ok.
  rewrite length_pack_le. split; [done|].
  unfold struct_unpack_signed. rewrite length_pack_le, bool_decide_eq_true_2 by done.
  rewrite unpack_pack_le. f_equal.
  assert (Hp : 2 ^ (8 * Z.of_nat n) = 2 * 2 ^ (8 * Z.of_nat n - 1)).
  { rewrite <- Z.pow_succ_r by lia. f_equal. lia. }
  assert (0 < 2 ^ (8 * Z.of_nat n - 1)) by (apply Z.pow_pos_nonneg; lia).
  destruct (Z.le_gt_cases 0 z).
  - rewrite Z.mod_small by lia. destruct (Z.ltb_spec z (2 ^ (8 * Z.of_nat n - 1))); lia.
  - replace (z mod 2 ^ (8 * Z.of_nat n)) with (z + 2 ^ (8 * Z.of_nat n)).
    + destruct (Z.ltb_spec (z + 2 ^ (8 * Z.of_nat n)) (2 ^ (8 * Z.of_nat n - 1))); lia.
    + apply Z.mod_unique with (q := -1); lia.
  Qed.

Lemma unpack_pack_i z bs : pack_i z = Ok bs → length bs = 4%nat ∧ unpack_i bs = Ok z.
Proof. apply struct_unpack_pack_signed. lia. Qed.

Lemma unpack_pack_q z bs : pack_q z = Ok bs → length bs = 8%nat ∧ unpack_q bs = Ok z.
Proof. apply struct_unpack_pack_signed. lia. Qed.

Lemma result_bind_Ok {A B} (r : result A) (k : A → result B) (b : B) :
  r ≫= k = Ok b → ∃ a, r = Ok a ∧ k a = Ok b.
Proof. destruct r as [a|e]; [eauto | done]. Qed.

Lemma unpack_pack_ii a b bs :
  pack_ii a b = Ok bs → length bs = 8%nat ∧ unpack_ii bs = Ok (a, b).
Proof.
  unfold pack_ii.
  intros (pa & [Hla Ha]%unpack_pack_i & (pb & [Hlb Hb]%unpack_pack_i & [= <-])%result_bind_Ok)%result_bind_Ok.
  rewrite length_app. split; [lia|].
  unfold unpack_ii. rewrite bool_decide_eq_true_2 by (rewrite length_app; lia).
  rewrite take_app_length' by done. rewrite Ha. simpl.
  rewrite drop_app_length' by done. rewrite take_ge by lia. by rewrite Hb.
Qed.

Lemma unpack_pack_iiii a b c d bs :
  pack_iiii a b c d = Ok bs → length bs = 16%nat ∧ unpack_iiii bs = Ok (a, b, c, d).
Proof.
  unfold pack_iiii.
  intros (pa & [Hla Ha]%unpack_pack_i & (pb & [Hlb Hb]%unpack_pack_i &
          (pc & [Hlc Hc]%unpack_pack_i & (pd & [Hld Hd]%unpack_pack_i & [= <-])
          %result_bind_Ok)%result_bind_Ok)%result_bind_Ok)%result_bind_Ok.
  rewrite !length_app. split; [lia|].
  unfold unpack_iiii. rewrite bool_decide_eq_true_2 by (rewrite !length_app; lia).
  rewrite (take_app_length' pa _ 4) by done. rewrite Ha. simpl.
  rewrite (drop_app_length' pa _ 4) by done.
  rewrite (take_app_length' pb _ 4) by done. rewrite Hb. simpl.
  replace (drop 8 (pa ++ pb ++ pc ++ pd)) with (pc ++ pd)
    by (rewrite (app_assoc pa pb), drop_app_length'; [done | rewrite length_app; lia]).
  rewrite (take_app_length' pc _ 4) by done. rewrite Hc. simpl.
  replace (drop 12 (pa ++ pb ++ pc ++ pd)) with pd
    by (rewrite (app_assoc pa pb), (app_assoc (pa ++ pb) pc), drop_app_length';
        [done | rewrite !length_app; lia]).
  rewrite take_ge by lia. by rewrite Hd.
Qed.

(** The slice of [pre ++ mid ++ post] that starts after [pre] and has
    the length of [mid] is [mid]. *)
Lemma py_slice_app_mid {A} (pre mid post : list A) (s e : Z) :
  s = Z.of_nat (length pre) → e = s + Z.of_nat (length mid) →
  py_slice (pre ++ mid ++ post) s e = mid.
Proof.
  intros -> ->. rewrite py_slice_in_range; [|lia | rewrite !length_app; lia].
  rewrite Nat2Z.id, drop_app_length.
  replace (Z.to_nat _) with (length mid) by lia. by rewrite take_app_length.
Qed.

Lemma py_slice_mid {A} (data pre mid post : list A) (s e : Z) :
  data = pre ++ mid ++ post →
  s = Z.of_nat (length pre) → e = s + Z.of_nat (length mid) →
  py_slice data s e = mid.
Proof. intros ->. apply py_slice_app_mid. Qed.

Section WireProofs.
Context `{ImageCodec}.
Hypothesis Hcodec : codec_opens_saved.

Lemma encode_tile_entry_Ok enc t part :
  encode_tile_entry enc t = Ok part →
  ∃ hdr len,
    part = hdr ++ len ++ _encode_tile enc t ∧
    length hdr = 16%nat ∧
    unpack_iiii hdr = Ok (tile_geometry t) ∧
    length len = 4%nat ∧
    unpack_i len = Ok (Z.of_nat (length (_encode_tile enc t))).
Proof.
  unfold encode_tile_entry.
  intros (hdr & [Hlh Hh]%unpack_pack_iiii &
          (len & [Hll Hl]%unpack_pack_i & [= <-])%result_bind_Ok)%result_bind_Ok.
  exists hdr, len. done.
Qed.

Lemma decode_tiles_entries enc tiles : ∀ data pre body,
  encode_tile_entries enc tiles = Ok body →
  data = pre ++ body →
  ∃ tiles',
    decode_tiles (length tiles) data (Z.of_nat (length pre)) = Ok tiles' ∧
    tile_geometry <$> tiles' = tile_geometry <$> tiles.
Proof.
  induction tiles as [|t tiles IH]; intros data pre body Henc Hdata.
  - exists []. done.
  - cbn [encode_tile_entries] in Henc.
    apply result_bind_Ok in Henc
      as (part & (hdr & len & -> & Hlh & Hh & Hll & Hl)%encode_tile_entry_Ok & Henc).
    apply result_bind_Ok in Henc as (parts & Hparts & [= <-]).
    set (img := _encode_tile enc t) in *.
    destruct (IH data (pre ++ hdr ++ len ++ img) parts Hparts) as (tiles' & Hdec & Hgeo).
    { rewrite Hdata. by rewrite <- !app_assoc. }
    cbn [length decode_tiles].
    set (off := Z.of_nat (length pre)).
    rewrite (py_slice_mid data pre hdr (len ++ img ++ parts) off (off + 16));
      [| rewrite Hdata; by rewrite <- !app_assoc | done | lia].
    rewrite Hh. cbn.
    rewrite (py_slice_mid data (pre ++ hdr) len (img ++ parts) (off + 16) (off + 16 + 4));
      [| rewrite Hdata; by rewrite <- !app_assoc | rewrite length_app; lia | lia].
    rewrite Hl. cbn.
    rewrite (py_slice_mid data (pre ++ hdr ++ len) img parts (off + 16 + 4)
               (off + 16 + 4 + Z.of_nat (length img)));
      [| rewrite Hdata; by rewrite <- !app_assoc | rewrite !length_app; lia | lia].
    replace (off + 16 + 4 + Z.of_nat (length img))
      with (Z.of_nat (length (pre ++ hdr ++ len ++ img)))
      by (rewrite !length_app; lia).
    rewrite Hdec. cbn.
    destruct (Hcodec (enc_quality enc) (enc_method enc) (enc_lossless enc) (tile_data t))
      as [decoded Hopen].
    unfold img, _encode_tile. rewrite Hopen.
    eexists; split; [reflexivity|]. rewrite !fmap_cons. by rewrite Hgeo.
Qed.
End WireProofs.

Lemma struct_pack_signed_fits n z :
  in_signed n z → struct_pack_signed n z = Ok (pack_le n z).
Proof.
  unfold struct_pack_signed, in_signedb, in_signed. intros [Hlo Hhi].
  destruct (Z.leb_spec (- 2 ^ (8 * Z.of_nat n - 1)) z); [|lia].
  destruct (Z.ltb_spec z (2 ^ (8 * Z.of_nat n - 1))); [done | lia].
Qed.

Lemma bind_Ok {A B} (a : A) (k : A → result B) : Ok a ≫= k = k a.
Proof. done. Qed.

Lemma in_signed_0 : in_signed 4 0.
Proof. unfold in_signed. simpl. lia. Qed.

Section WireTheorems.
Context `{ImageCodec}.

Lemma encode_tile_entries_fits enc tiles :
  Forall (tile_fits enc) tiles → ∃ body, encode_tile_entries enc tiles = Ok body.
Proof.
  induction 1 as [|t tiles (Hx & Hy & Hw & Hh & Hl) _ [body IH]]; [by eexists|].
  cbn [encode_tile_entries]. unfold encode_tile_entry, pack_iiii, pack_i.
  rewrite !struct_pack_signed_fits by done. cbn. rewrite IH. cbn. by eexists.
Qed.

(** C10.  When the clock reading fits an [i64], a delta frame flagged
    [full_frame_fallback] whose tile list does not have exactly one
    tile makes [WebPEncoder.encode] return the empty byte string, with
    no type tag and no timestamp, rather than raise; [_ws_handler],
    which forwards what it is given, then sends an empty binary frame. *)
Theorem encode_malformed_fallback_is_empty (enc : WebPEncoder) (timestamp_ms : Z)
    (d : DeltaFrame) :
  in_signed 8 timestamp_ms →
  full_frame_fallback d = true →
  length (changed_tiles d) ≠ 1%nat →
  encode enc timestamp_ms d = Ok [] ∧
  send_initial_frame (encode enc timestamp_ms d) = [BinaryFrame []].
Proof.
  intros Hts Hfb Hlen.
  assert (encode enc timestamp_ms d = Ok []) as ->; [|done].
  unfold encode, pack_q.
  rewrite struct_pack_signed_fits by done. cbn. rewrite Hfb.
  destruct (changed_tiles d) as [|t [|t' tiles]]; simpl in *; done.
Qed.

(** C2, as amended.  For a delta frame the engine can hand to the
    encoder (exactly one tile when flagged full-frame, at least one
    otherwise) whose fields fit the wire format, and a codec that reads
    back what it wrote: [encode] returns the tag byte [0x01] followed
    by a payload, and decoding that payload (the message without its
    tag byte, as [ClientNetworkManager] does) yields the same
    [full_frame_fallback] flag, the same number of tiles, in the same
    order the same width and height for each tile and the same position
    (the origin for a full-frame tile), and the timestamp sampled at
    encode time, in seconds. *)
Theorem wire_round_trip (enc : WebPEncoder) (timestamp_ms : Z) (d : DeltaFrame) :
  codec_opens_saved →
  in_signed 8 timestamp_ms →
  delta_fits enc d →
  delta_well_formed d →
  ∃ payload d',
    encode enc timestamp_ms d = Ok (Byte.x01 :: payload) ∧
    decode payload = Ok (d', (inject_Z timestamp_ms / 1000)%Q) ∧
    client_receive (Byte.x01 :: payload)
      = Ok (Some (d', (inject_Z timestamp_ms / 1000)%Q)) ∧
    full_frame_fallback d' = full_frame_fallback d ∧
    length (changed_tiles d') = length (changed_tiles d) ∧
    tile_geometry <$> changed_tiles d' = wire_geometry d <$> changed_tiles d.
Proof.
  intros Hcodec Hts [Hn Hfits] Hwf.
  assert (Hq : ∃ tsb, pack_q timestamp_ms = Ok tsb ∧ length tsb = 8%nat ∧
                      unpack_q tsb = Ok timestamp_ms).
  { exists (pack_le 8 timestamp_ms).
    assert (pack_q timestamp_ms = Ok (pack_le 8 timestamp_ms))
      by by apply struct_pack_signed_fits.
    split; [done|]. by apply unpack_pack_q. }
  destruct Hq as (tsb & Hq & Hlq & Huq).
  assert (Hrecv : ∀ payload r, decode payload = Ok r →
            client_receive (Byte.x01 :: payload) = Ok (Some r)).
  { intros payload r Hr. unfold client_receive.
    rewrite bool_decide_eq_true_2 by done. by rewrite Hr. }
  unfold delta_well_formed in Hwf. unfold encode, wire_geometry.
  rewrite Hq, bind_Ok.
  destruct (full_frame_fallback d) eqn:Hfb.
  - destruct (changed_tiles d) as [|t [|? ?]] eqn:Ht;
      [by simpl in Hwf | | by simpl in Hwf].
    rewrite bool_decide_eq_false_2 by done.
    rewrite bool_decide_eq_true_2 by done. cbn [negb orb].
    change ([t] !! 0%nat) with (Some t). cbv beta iota.
    apply Forall_inv in Hfits as (_ & _ & Hw & Hh & Hl).
    set (img := _encode_tile enc t) in *.
    destruct (unpack_pack_i 0 (pack_le 4 0)) as [Hl0 Hu0];
      [by apply struct_pack_signed_fits, in_signed_0|].
    assert (Hp0 : pack_i 0 = Ok (pack_le 4 0))
      by by apply struct_pack_signed_fits, in_signed_0.
    assert (Hwh : ∃ wh, pack_ii (tile_width t) (tile_height t) = Ok wh).
    { unfold pack_ii, pack_i. rewrite !struct_pack_signed_fits by done. by eexists. }
    destruct Hwh as [wh Hwh]. pose proof (unpack_pack_ii _ _ _ Hwh) as [Hlwh Huwh].
    assert (Hpl : pack_i (Z.of_nat (length img)) = Ok (pack_le 4 (Z.of_nat (length img))))
      by by apply struct_pack_signed_fits.
    pose proof (unpack_pack_i _ _ Hpl) as [Hll Hul].
    rewrite Hp0, bind_Ok, Hwh, bind_Ok, Hpl, bind_Ok.
    set (p0 := pack_le 4 0) in *. set (pl := pack_le 4 (Z.of_nat (length img))) in *.
    set (payload := tsb ++ p0 ++ wh ++ pl ++ img).
    assert (Hdec : ∃ d', decode payload =
              Ok (d', (inject_Z timestamp_ms / 1000)%Q) ∧
              full_frame_fallback d' = true ∧
              length (changed_tiles d') = 1%nat ∧
              tile_geometry <$> changed_tiles d' = [(0, 0, tile_width t, tile_height t)]).
    { unfold decode.
      rewrite (py_slice_mid payload [] tsb (p0 ++ wh ++ pl ++ img) 0 (0 + 8));
        [| done | done | lia].
      rewrite Huq. cbn.
      rewrite (py_slice_mid payload tsb p0 (wh ++ pl ++ img) (0 + 8) (0 + 8 + 4));
        [| done | lia | lia].
      rewrite Hu0. cbn.
      rewrite (py_slice_mid payload (tsb ++ p0) wh (pl ++ img) (0 + 8 + 4) (0 + 8 + 4 + 8));
        [| unfold payload; by rewrite <- !app_assoc | rewrite length_app; lia | lia].
      rewrite Huwh. cbn.
      rewrite (py_slice_mid payload (tsb ++ p0 ++ wh) pl img (0 + 8 + 4 + 8)
                 (0 + 8 + 4 + 8 + 4));
        [| unfold payload; by rewrite <- !app_assoc | rewrite !length_app; lia | lia].
      rewrite Hul. cbn.
      rewrite (py_slice_mid payload (tsb ++ p0 ++ wh ++ pl) img [] (0 + 8 + 4 + 8 + 4)
                 (0 + 8 + 4 + 8 + 4 + Z.of_nat (length img)));
        [| unfold payload; by rewrite <- !app_assoc, app_nil_r
         | rewrite !length_app; lia | lia].
      destruct (Hcodec (enc_quality enc) (enc_method enc) (enc_lossless enc) (tile_data t))
        as [decoded Hopen].
      unfold img, _encode_tile. rewrite Hopen.
      eexists; split; [reflexivity|]. done. }
    destruct Hdec as (d' & Hdec & Hfb' & Hlen' & Hgeo').
    exists payload, d'. split; [done|]. split; [done|]. split; [by apply Hrecv|].
    done.
  - destruct (encode_tile_entries_fits enc (changed_tiles d) Hfits) as [body Hbody].
    unfold pack_i at 1. rewrite struct_pack_signed_fits, bind_Ok by done.
    rewrite Hbody, bind_Ok.
    set (n := length (changed_tiles d)) in *.
    set (pn := pack_le 4 (Z.of_nat n)).
    assert (Hpn : pack_i (Z.of_nat n) = Ok pn) by by apply struct_pack_signed_fits.
    pose proof (unpack_pack_i _ _ Hpn) as [Hln Hun].
    set (payload := tsb ++ pn ++ body).
    destruct (decode_tiles_entries Hcodec enc (changed_tiles d) payload (tsb ++ pn) body
                Hbody) as (tiles' & Hdt & Hgeo).
    { unfold payload. by rewrite <- app_assoc. }
    assert (Hn0 : (Z.of_nat n =? 0) = false).
    { apply Z.eqb_neq. unfold n. destruct (changed_tiles d); simpl in *; [done | lia]. }
    exists payload, {| frame_number := 0; changed_tiles := tiles';
                       full_frame_fallback := false |}.
    assert (Hdec : decode payload =
              Ok ({| frame_number := 0; changed_tiles := tiles';
                     full_frame_fallback := false |},
                  (inject_Z timestamp_ms / 1000)%Q)).
    { unfold decode.
      rewrite (py_slice_mid payload [] tsb (pn ++ body) 0 (0 + 8));
        [| done | done | lia].
      rewrite Huq. cbn.
      rewrite (py_slice_mid payload tsb pn body (0 + 8) (0 + 8 + 4));
        [| done | lia | lia].
      rewrite Hun. cbn. rewrite Hn0. rewrite Nat2Z.id.
      rewrite length_app in Hdt.
      replace (0 + 8 + 4) with (Z.of_nat (length tsb + length pn)) by lia.
      fold n in Hdt. by rewrite Hdt. }
    split; [done|]. split; [done|]. split; [by apply Hrecv|]. split; [done|].
    split; [|done]. cbn.
    apply (f_equal length) in Hgeo. by rewrite !length_fmap in Hgeo.
Qed.
End WireTheorems.

Ltac solve_in_signed := vm_compute; split; [discriminate | reflexivity].

(** C10 at a concrete input: a full-frame delta without tiles. *)
Lemma encode_malformed_fallback_is_empty_witness :
  in_signed 8 demo_timestamp_ms ∧
  @encode raw_codec (default_encoder 70) demo_timestamp_ms
    {| frame_number := 0; changed_tiles := []; full_frame_fallback := true |} = Ok [] ∧
  send_initial_frame
    (@encode raw_codec (default_encoder 70) demo_timestamp_ms
       {| frame_number := 0; changed_tiles := []; full_frame_fallback := true |})
  = [BinaryFrame []].
Proof.
  split; [solve_in_signed|].
  apply (@encode_malformed_fallback_is_empty raw_codec);
    [solve_in_signed | reflexivity | simpl; lia].
Defined.

(** The amended C2 at a concrete input: a one-tile delta, the toy codec. *)
Lemma wire_round_trip_witness :
  in_signed 8 demo_timestamp_ms ∧ delta_well_formed demo_delta ∧
  ∃ payload d',
    @encode raw_codec (default_encoder 70) demo_timestamp_ms demo_delta
      = Ok (Byte.x01 :: payload) ∧
    @decode raw_codec payload = Ok (d', (inject_Z demo_timestamp_ms / 1000)%Q) ∧
    @client_receive raw_codec (Byte.x01 :: payload)
      = Ok (Some (d', (inject_Z demo_timestamp_ms / 1000)%Q)) ∧
    full_frame_fallback d' = full_frame_fallback demo_delta ∧
    length (changed_tiles d') = length (changed_tiles demo_delta) ∧
    tile_geometry <$> changed_tiles d' = wire_geometry demo_delta <$> changed_tiles demo_delta.
Proof.
  split; [solve_in_signed|]. split; [discriminate|].
  apply (@wire_round_trip raw_codec).
  - intros quality method lossless a. eexists. reflexivity.
  - solve_in_signed.
  - split; [solve_in_signed|].
    constructor; [|constructor]. repeat split; vm_compute; discriminate || reflexivity.
  - discriminate.
Defined.

(** C2, counterexample.  Decoding the encoder's output as it is, with the
    tag byte still in front, shifts every field by one byte: for a
    one-tile delta the decoder reads a tile count of 256 and raises
    [struct.error]; for a full-frame delta it returns a tile of another
    size and another timestamp. *)
Lemma decode_of_tagged_message_fails :
  (∃ msg, @encode raw_codec (default_encoder 70) demo_timestamp_ms demo_delta = Ok msg ∧
          @decode raw_codec msg = Raise StructError) ∧
  (∃ msg d' ts',
     @encode raw_codec (default_encoder 70) demo_timestamp_ms demo_full_delta = Ok msg ∧
     @decode raw_codec msg = Ok (d', ts') ∧
     tile_geometry <$> changed_tiles d' ≠ tile_geometry <$> changed_tiles demo_full_delta ∧
     ¬ (ts' == inject_Z demo_timestamp_ms / 1000)%Q).
Proof.
  split.
  - eexists. split; [vm_compute; reflexivity | vm_compute; reflexivity].
  - eexists _, _, _. split; [vm_compute; reflexivity|].
    split; [vm_compute; reflexivity|]. split; vm_compute; discriminate.
Qed.

(** ** The adaptive governor *)

Lemma Qltb_lt (a b : Q) : Qltb a b = true ↔ (a < b)%Q.
Proof.
  unfold Qltb. rewrite negb_true_iff, <- not_true_iff_false, Qle_bool_iff.
  split; [apply Qnot_le_lt | apply Qlt_not_le].
Qed.

Lemma Qltb_ge (a b : Q) : Qltb a b = false ↔ (b <= a)%Q.
Proof.
  unfold Qltb. rewrite negb_false_iff, Qle_bool_iff. done.
Qed.

#[local] Instance Qltb_proper : Proper (Qeq ==> Qeq ==> eq) Qltb.
Proof.
  intros a a' Ha b b' Hb.
  destruct (Qltb a b) eqn:E, (Qltb a' b') eqn:E'; try done.
  - apply Qltb_lt in E. apply Qltb_ge in E'. rewrite Ha, Hb in E. lra.
  - apply Qltb_lt in E'. apply Qltb_ge in E. rewrite Ha, Hb in E. lra.
Qed.








(** ** The engine registry *)

Lemma StreamEngine_new_ok env cfg :
  native_ok env = true ∨ mss_ok env = true →
  ∃ engine, StreamEngine_new env cfg = Ok engine ∧
            eng_config engine = cfg ∧
            capture engine = (if native_ok env then VeloxRustCapture else MSSCapture) ∧
            partitioner engine = new_partitioner 64.
Proof.
  intros Hok. unfold StreamEngine_new, CaptureFactory_create.
  destruct (native_ok env); [by eexists|].
  destruct Hok as [? | ->]; [done | by eexists].
Qed.

(** What [build_engine] leaves behind when the construction succeeds. *)
Lemma build_engine_returns env st m fc cfg :
  native_ok env = true ∨ mss_ok env = true →
  ∃ slot st',
    build_engine env st m fc cfg = (Returned slot, st') ∧
    clients slot = ∅ ∧
    force_enhancement slot = true ∧
    eng_config (slot_engine slot) = cfg ∧
    capture (slot_engine slot) = (if native_ok env then VeloxRustCapture else MSSCapture) ∧
    engines st' = <[m := slot]> (engines st) ∧
    _clients_sending st' = _clients_sending st ∧
    _backend_blacklist st' =
      (if negb fc && default false (optimize_capture_pipeline cfg) && negb (native_ok env)
       then <[m := clock st]> (_backend_blacklist st)
       else _backend_blacklist st).
Proof.
  intros Hok. destruct (StreamEngine_new_ok env cfg Hok) as (engine & He & Hcfg & Hcap & _).
  unfold build_engine. rewrite He. eexists _, _. split; [reflexivity|].
  cbn [clients force_enhancement slot_engine]. rewrite Hcfg, Hcap.
  repeat split.
  - by destruct (_ && _ && _).
  - by destruct (_ && _ && _).
  - destruct (negb fc), (default false (optimize_capture_pipeline cfg)),
      (native_ok env); reflexivity.
Qed.

(** A rebuild with [force_compat=True] registers a slot without viewers,
    whoever was a member of the slot it replaces. *)
Lemma forced_rebuild_slot env st m :
  native_ok env = true ∨ mss_ok env = true →
  ∃ slot st',
    get_or_create_engine env st m true = (Returned slot, st') ∧
    engines st' !! m = Some slot ∧
    clients slot = ∅ ∧
    optimize_capture_pipeline (eng_config (slot_engine slot)) = Some false ∧
    capture (slot_engine slot) = (if native_ok env then VeloxRustCapture else MSSCapture).
Proof.
  intros Hok. unfold get_or_create_engine. cbn [negb andb].
  destruct (engines st !! m) as [old|];
    match goal with |- context [build_engine env ?s m true ?c] =>
      destruct (build_engine_returns env s m true c Hok)
        as (slot & st' & -> & Hcl & _ & Hcfg & Hcap & Heng & _)
    end;
    exists slot, st'; rewrite Heng, lookup_insert_eq, Hcfg; done.
Qed.

Lemma get_or_create_engine_returns env st m fc :
  native_ok env = true ∨ mss_ok env = true →
  ∃ slot st', get_or_create_engine env st m fc = (Returned slot, st') ∧
              engines st' !! m = Some slot.
Proof.
  intros Hok. unfold get_or_create_engine.
  destruct (engines st !! m) as [old|] eqn:Eold;
    destruct (if negb fc && in_cool_down st m then true else fc) eqn:Efc;
    try (eexists _, _; split; [reflexivity | done]);
    match goal with |- context [build_engine env ?s m ?f ?c] =>
      destruct (build_engine_returns env s m f c Hok)
        as (slot & st' & -> & _ & _ & _ & _ & Heng & _)
    end;
    exists slot, st'; by rewrite Heng, lookup_insert_eq.
Qed.

(** C7.  The code at the failing input: viewer 7 is a member of the slot
    of monitor 0; the broadcast loop meets "Access is denied" and
    rebuilds the engine with [force_compat=True]; the rebuilt slot has no
    viewers. *)
Theorem driver_fault_rebuild_drops_viewers :
  clients <$> engines demo_joined !! 0 = Some {[7%nat]} ∧
  ∃ st', on_broadcast_exception native_env demo_joined 0
           "[WinError 5] Access is denied" = (LoopExit, st') ∧
         clients <$> engines st' !! 0 = Some ∅.
Proof.
  split; [vm_compute; reflexivity|].
  eexists. split; [vm_compute; reflexivity | vm_compute; reflexivity].
Qed.

(** The collecting loop of the switch gathers the viewers of every slot
    it visits. *)
Lemma collect_clients_loop mids : ∀ acc,
  NoDup mids →
  acc.1 ⊆ (foldl collect_clients_of acc mids).1 ∧
  ∀ mid slot ws, mid ∈ mids → engines acc.2 !! mid = Some slot → ws ∈ clients slot →
                 ws ∈ (foldl collect_clients_of acc mids).1.
Proof.
  induction mids as [|m mids IH]; intros acc Hnd.
  - split; [done|]. by intros ??? ?%elem_of_nil.
  - apply NoDup_cons in Hnd as [Hm Hnd]. cbn [foldl].
    destruct (IH (collect_clients_of acc m) Hnd) as [Hsub Hall].
    assert (Hacc : acc.1 ⊆ (collect_clients_of acc m).1).
    { unfold collect_clients_of. destruct (engines acc.2 !! m); [|done].
      cbn. clear. set_solver. }
    split; [clear -Hacc Hsub; set_solver|].
    intros mid slot ws Hin Hslot Hws. apply elem_of_cons in Hin as [-> | Hin].
    + apply Hsub. unfold collect_clients_of. rewrite Hslot. cbn.
      clear -Hws. set_solver.
    + apply (Hall mid slot ws Hin); [|done].
      unfold collect_clients_of. destruct (engines acc.2 !! m) as [ed|]; [|done].
      cbn. rewrite lookup_insert_ne; [done|]. intros ->. done.
Qed.

(** The sibling path: a monitor switch carries every viewer of every slot
    over to the slot of the target monitor. *)
Lemma switch_keeps_viewers env st new_mon :
  native_ok env = true ∨ mss_ok env = true →
  ∃ sent st' slot,
    _perform_switch env st new_mon = (sent, Returned (), st') ∧
    engines st' !! new_mon = Some slot ∧
    ∀ mid old ws, engines st !! mid = Some old → ws ∈ clients old → ws ∈ clients slot.
Proof.
  intros Henv. unfold _perform_switch.
  destruct (collect_clients_loop (engine_keys st) (∅, st)) as [_ Hall];
    [unfold engine_keys; apply NoDup_elements|].
  destruct (foldl collect_clients_of (∅, st) (engine_keys st)) as [all st1].
  match goal with |- context [get_or_create_engine env ?s new_mon false] =>
    destruct (get_or_create_engine_returns env s new_mon false Henv)
      as (slot & st' & -> & _)
  end.
  eexists _, _, _. split; [reflexivity|].
  cbn [engines with_engines]. rewrite lookup_insert_eq. split; [reflexivity|].
  intros mid old ws Hold Hws. cbn [clients]. apply elem_of_union. left.
  apply (Hall mid old ws); [|done..].
  unfold engine_keys. apply elem_of_elements. by apply elem_of_dom_2 in Hold.
Qed.

(** C6.  The code at the failing input: native capture is requested and
    fails once, so the engine of monitor 0 comes back on MSS and the
    monitor is blacklisted at time 0; ten seconds later, inside the
    cool-down, the engine is requested again while the native driver
    works: the call forces the portable configuration, and the engine it
    returns runs on the native backend. *)
Theorem cool_down_rebuild_uses_native_backend :
  ∃ slot1 st1 slot2 st2,
    get_or_create_engine portable_env (new_server demo_config 0) 0 false
      = (Returned slot1, st1) ∧
    capture (slot_engine slot1) = MSSCapture ∧
    _backend_blacklist st1 !! 0 = Some 0%Q ∧
    in_cool_down (sleep st1 10) 0 = true ∧
    get_or_create_engine native_env (sleep st1 10) 0 false = (Returned slot2, st2) ∧
    optimize_capture_pipeline (eng_config (slot_engine slot2)) = Some false ∧
    capture (slot_engine slot2) = VeloxRustCapture.
Proof.
  eexists _, _, _, _.
  split; [vm_compute; reflexivity|]. split; [reflexivity|].
  split; [vm_compute; reflexivity|]. split; [vm_compute; reflexivity|].
  split; [vm_compute; reflexivity|]. split; reflexivity.
Qed.

(** The two halves of the blacklist rule that the registry itself
    implements. *)
Lemma cool_down_forces_portable_config env st m slot st' :
  in_cool_down st m = true →
  get_or_create_engine env st m false = (Returned slot, st') →
  optimize_capture_pipeline (eng_config (slot_engine slot)) = Some false.
Proof.
  intros Hcd. unfold get_or_create_engine. rewrite Hcd. cbn [negb andb].
  destruct (engines st !! m) as [old|]; unfold build_engine, StreamEngine_new;
    destruct (CaptureFactory_create _ _ _ _) as [c|e]; cbn;
    intros [= <- _]; reflexivity.
Qed.

Lemma silent_downgrade_is_blacklisted env st m :
  engines st !! m = None →
  in_cool_down st m = false →
  optimize_capture_pipeline (config st) = Some true →
  native_ok env = false → mss_ok env = true →
  ∃ slot st',
    get_or_create_engine env st m false = (Returned slot, st') ∧
    capture (slot_engine slot) = MSSCapture ∧
    _backend_blacklist st' !! m = Some (clock st) ∧
    engines st' !! m = Some slot.
Proof.
  intros Hnone Hcd Hopt Hnat Hmss. unfold get_or_create_engine.
  rewrite Hcd, Hnone. cbn [negb andb]. rewrite Hopt.
  match goal with |- context [build_engine env ?s m ?f ?c] =>
    destruct (build_engine_returns env s m f c (or_intror Hmss))
      as (slot & st' & -> & _ & _ & _ & Hcap & Heng & _ & Hbl)
  end.
  exists slot, st'. rewrite Hbl, Heng, Hcap, Hnat. cbn.
  by rewrite !lookup_insert_eq.
Qed.

(** ** The software reset *)

(** The two loops of the reset leave the configuration and the clock
    alone; the first keeps the monitors of the registry, the second
    empties the registry. *)
Lemma close_clients_loop st mids :
  config (foldl close_clients_of st mids) = config st ∧
  clock (foldl close_clients_of st mids) = clock st ∧
  dom (engines (foldl close_clients_of st mids)) = dom (engines st).
Proof.
  revert st. induction mids as [|mid mids IH]; intros st; [done|].
  cbn [foldl]. destruct (IH (close_clients_of st mid)) as (-> & -> & ->).
  unfold close_clients_of. destruct (engines st !! mid) as [slot|] eqn:E; [|done].
  cbn. repeat split. rewrite dom_insert_L.
  apply elem_of_dom_2 in E. revert E. clear. set_solver.
Qed.

Lemma stop_engines_loop st mids :
  config (foldl stop_engine_of st mids) = config st ∧
  clock (foldl stop_engine_of st mids) = clock st ∧
  dom (engines (foldl stop_engine_of st mids)) = dom (engines st) ∖ list_to_set mids.
Proof.
  revert st. induction mids as [|mid mids IH]; intros st.
  - cbn. repeat split. clear. set_solver.
  - cbn [foldl]. destruct (IH (stop_engine_of st mid)) as (-> & -> & ->).
    unfold stop_engine_of. destruct (engines st !! mid) as [ed|] eqn:E.
    + cbn. repeat split. rewrite dom_delete_L. clear. set_solver.
    + repeat split. apply not_elem_of_dom in E. revert E. clear. set_solver.
Qed.

Lemma reset_loops_empty_registry st :
  let st1 := foldl close_clients_of st (engine_keys st) in
  let st2 := foldl stop_engine_of st1 (engine_keys st1) in
  config st2 = config st ∧ clock st2 = clock st ∧ engines st2 = ∅.
Proof.
  intros st1 st2.
  destruct (close_clients_loop st (engine_keys st)) as (Hc1 & Hk1 & Hd1).
  destruct (stop_engines_loop st1 (engine_keys st1)) as (Hc2 & Hk2 & Hd2).
  fold st1 in Hc1, Hk1, Hd1. fold st2 in Hc2, Hk2, Hd2.
  split; [congruence|]. split; [congruence|].
  apply dom_empty_inv_L. rewrite Hd2. unfold engine_keys.
  rewrite list_to_set_elements_L. clear. set_solver.
Qed.

Lemma software_reset_returns env st :
  native_ok env = true ∨ mss_ok env = true →
  let current_mon := default 0 (cfg_monitor_id (config st)) in
  ∃ st',
    _perform_software_reset env st = (Returned (), st') ∧
    _clients_sending st' = ∅ ∧
    dom (engines st') = {[current_mon]} ∧
    _backend_blacklist st' =
      (if default false (optimize_capture_pipeline (config st)) && negb (native_ok env)
       then {[current_mon := (clock st + 2)%Q]} else ∅).
Proof.
  intros Henv current_mon. unfold _perform_software_reset.
  destruct (reset_loops_empty_registry
              (_broadcast_event st "SOFTWARE RESET INITIATED" "error"))
    as (Hcfg & Hclock & Heng).
  cbv zeta in Hcfg, Hclock, Heng.
  set (st2 := foldl stop_engine_of _ _) in *.
  cbn [config _broadcast_event] in Hcfg. cbn [clock _broadcast_event] in Hclock.
  cbn [config _broadcast_event]. fold current_mon.
  unfold get_or_create_engine, in_cool_down.
  cbn [sleep with_blacklist with_sending _backend_blacklist engines config clock].
  rewrite Heng, !lookup_empty. cbn [negb andb]. rewrite Hcfg.
  match goal with |- context [build_engine env ?s ?m ?f ?c] =>
    destruct (build_engine_returns env s m f c Henv)
      as (slot & st' & -> & _ & _ & _ & _ & Hengs & Hsend & Hbl)
  end.
  eexists. split; [reflexivity|].
  cbn [_clients_sending engines _backend_blacklist _broadcast_event].
  rewrite Hsend, Hengs, Hbl. cbn. rewrite Heng, Hclock.
  split; [done|]. split.
  - rewrite insert_empty. apply dom_singleton_L.
  - destruct (default false _), (native_ok env); cbn; done.
Qed.

(** C5, as amended.  When the re-created engine can be built, the
    software reset completes; afterwards the in-flight-send map is empty
    and the registry holds exactly one engine, keyed by the monitor that
    was active when the reset started; the blacklist is empty, unless
    native capture is requested and the re-created engine came back on
    the MSS backend, in which case it holds exactly the entry that this
    re-creation recorded for that monitor. *)
Theorem software_reset_purges (env : DriverEnv) (st : Server) :
  native_ok env = true ∨ mss_ok env = true →
  let current_mon := default 0 (cfg_monitor_id (config st)) in
  ∃ st',
    _perform_software_reset env st = (Returned (), st') ∧
    _clients_sending st' = ∅ ∧
    dom (engines st') = {[current_mon]} ∧
    size (engines st') = 1%nat ∧
    _backend_blacklist st' =
      (if default false (optimize_capture_pipeline (config st)) && negb (native_ok env)
       then {[current_mon := (clock st + 2)%Q]} else ∅).
Proof.
  intros Henv current_mon.
  destruct (software_reset_returns env st Henv) as (st' & Hr & Hs & Hd & Hb).
  exists st'. repeat split; try done.
  rewrite <- size_dom, Hd. apply size_singleton.
Qed.

(** The amended C5 at a concrete input: the native driver works. *)
Lemma software_reset_purges_witness :
  (native_ok native_env = true ∨ mss_ok native_env = true) ∧
  ∃ st',
    _perform_software_reset native_env demo_joined = (Returned (), st') ∧
    _clients_sending st' = ∅ ∧
    dom (engines st') = {[0]} ∧
    size (engines st') = 1%nat ∧
    _backend_blacklist st' = ∅.
Proof.
  split; [left; reflexivity|].
  apply (software_reset_purges native_env demo_joined). left. reflexivity.
Defined.

(** C5, counterexample.  Native capture is requested, and while the
    reset re-creates the engine the native driver fails: the engine comes
    back on MSS and the reset completes with monitor 0 on the blacklist. *)
Lemma reset_leaves_blacklist_entry :
  ∃ st',
    _perform_software_reset portable_env demo_joined = (Returned (), st') ∧
    _backend_blacklist st' !! 0 = Some (0 + 2)%Q ∧
    _backend_blacklist st' ≠ ∅.
Proof.
  eexists. split; [vm_compute; reflexivity|].
  split; [vm_compute; reflexivity|].
  intros Hempty. apply (f_equal (λ m : gmap Z Q, m !! 0)) in Hempty.
  vm_compute in Hempty. discriminate.
Qed.

(** ** The keyframe on join *)

Section Join.
Context `{ImageCodec}.

(** The layout of the payload [encode] builds for a full-frame delta. *)
Lemma encode_full_frame_layout enc timestamp_ms n t :
  in_signed 8 timestamp_ms →
  in_signed 4 (tile_width t) → in_signed 4 (tile_height t) →
  in_signed 4 (Z.of_nat (length (_encode_tile enc t))) →
  ∃ payload,
    encode enc timestamp_ms
      {| frame_number := n; changed_tiles := [t]; full_frame_fallback := true |}
      = Ok payload ∧
    payload_tag payload = Some Byte.x01 ∧
    payload_timestamp payload = Ok timestamp_ms ∧
    payload_num_tiles payload = Ok 0 ∧
    payload_full_size payload = Ok (tile_width t, tile_height t).
Proof.
  intros Hts Hw Hh Hl.
  assert (Hq : pack_q timestamp_ms = Ok (pack_le 8 timestamp_ms))
    by by apply struct_pack_signed_fits.
  pose proof (unpack_pack_q _ _ Hq) as [Hlq Huq].
  assert (Hp0 : pack_i 0 = Ok (pack_le 4 0))
    by by apply struct_pack_signed_fits, in_signed_0.
  pose proof (unpack_pack_i _ _ Hp0) as [Hl0 Hu0].
  assert (Hwh : ∃ wh, pack_ii (tile_width t) (tile_height t) = Ok wh).
  { unfold pack_ii, pack_i. rewrite !struct_pack_signed_fits by done. by eexists. }
  destruct Hwh as [wh Hwh]. pose proof (unpack_pack_ii _ _ _ Hwh) as [Hlwh Huwh].
  set (img := _encode_tile enc t) in *.
  assert (Hpl : pack_i (Z.of_nat (length img)) = Ok (pack_le 4 (Z.of_nat (length img))))
    by by apply struct_pack_signed_fits.
  unfold encode. cbn [full_frame_fallback changed_tiles].
  rewrite Hq, bind_Ok.
  rewrite bool_decide_eq_false_2 by done.
  rewrite bool_decide_eq_true_2 by done. cbn [negb orb].
  change ([t] !! 0%nat) with (Some t). cbv beta iota. fold img.
  rewrite Hp0, bind_Ok, Hwh, bind_Ok, Hpl, bind_Ok.
  set (tsb := pack_le 8 timestamp_ms) in *. set (p0 := pack_le 4 0) in *.
  set (pl := pack_le 4 (Z.of_nat (length img))) in *.
  clearbody tsb p0 pl img.
  eexists. split; [reflexivity|]. split; [reflexivity|].
  unfold payload_timestamp, payload_num_tiles, payload_full_size.
  split; [|split].
  - rewrite (py_slice_mid _ [Byte.x01] tsb (p0 ++ wh ++ pl ++ img) 1 9);
      [done | done | done | lia].
  - rewrite (py_slice_mid _ (Byte.x01 :: tsb) p0 (wh ++ pl ++ img) 9 13);
      [done | by rewrite <- app_comm_cons | cbn [length]; lia | lia].
  - rewrite (py_slice_mid _ (Byte.x01 :: tsb ++ p0) wh (pl ++ img) 13 21);
      [done | by rewrite <- !app_comm_cons, <- !app_assoc
       | cbn [length]; rewrite length_app; lia | lia].
Qed.

(** C1, as amended.  When the engine can be built and the frame fits
    the wire format, [_ws_handler] sends the viewer the [VERSION] text
    frame (current monitor, tier [AIR], language), admits the viewer to
    the engine's viewer set and then sends, as its first binary frame,
    the payload of [get_initial_payload]: its first byte is [0x01], the
    tag the encoder writes, its [num_tiles] field is 0, and the
    [full_w × full_h] it carries is the size of the captured frame. *)
Theorem join_sends_version_then_full_frame (PROTOCOL_VERSION : string)
    (env : DriverEnv) (st : Server) (websocket : Viewer) (frame : ScreenFrame)
    (timestamp_ms : Z) :
  native_ok env = true ∨ mss_ok env = true →
  in_signed 8 timestamp_ms →
  in_signed 4 (frame_width frame) → in_signed 4 (frame_height frame) →
  (∀ enc, in_signed 4 (Z.of_nat (length (_encode_tile enc (full_frame_tile frame))))) →
  ∃ payload st',
    _ws_handler_join PROTOCOL_VERSION env st websocket (Ok frame) timestamp_ms
      = ([TextFrame (VERSION (Some PROTOCOL_VERSION)
                       (default 0 (cfg_monitor_id (config st))) "AIR"
                       (Some (default "zh_TW"%string (cfg_language (config st)))));
          BinaryFrame payload],
         Returned (), st') ∧
    (∃ slot, engines st' !! default 0 (cfg_monitor_id (config st)) = Some slot ∧
             websocket ∈ clients slot) ∧
    payload_tag payload = Some Byte.x01 ∧
    payload_num_tiles payload = Ok 0 ∧
    payload_full_size payload = Ok (frame_width frame, frame_height frame).
Proof.
  intros Henv Hts Hw Hh Hl. unfold _ws_handler_join.
  destruct (get_or_create_engine_returns env st
              (default 0 (cfg_monitor_id (config st))) false Henv)
    as (ed & st1 & -> & _).
  unfold get_initial_payload, create_full_frame_delta. cbn [slot_engine add_client].
  destruct (encode_full_frame_layout (encoder (slot_engine ed)) timestamp_ms 0
              (full_frame_tile frame) Hts Hw Hh (Hl _))
    as (payload & Henc & Htag & _ & Hn & Hsize).
  fold (full_frame_tile frame). rewrite Henc.
  eexists payload, _. split; [reflexivity|]. split; [|done].
  eexists. cbn [engines with_engines]. rewrite lookup_insert_eq. split; [reflexivity|].
  cbn [clients with_engine]. apply elem_of_union. left. by apply elem_of_singleton.
Qed.
End Join.

(** The amended C1 at a concrete input: viewer 7 joins a fresh server. *)
Lemma join_sends_version_then_full_frame_witness :
  (native_ok native_env = true ∨ mss_ok native_env = true) ∧
  in_signed 8 demo_timestamp_ms ∧
  ∃ payload st',
    @_ws_handler_join raw_codec "1.0" native_env (new_server demo_config 0) 7%nat
      (Ok demo_next) demo_timestamp_ms
    = ([TextFrame (VERSION (Some "1.0"%string) 0 "AIR" (Some "zh_TW"%string));
        BinaryFrame payload], Returned (), st') ∧
    (∃ slot, engines st' !! 0 = Some slot ∧ 7%nat ∈ clients slot) ∧
    payload_tag payload = Some Byte.x01 ∧
    payload_num_tiles payload = Ok 0 ∧
    payload_full_size payload = Ok (3, 3).
Proof.
  split; [left; reflexivity|]. split; [solve_in_signed|].
  apply (@join_sends_version_then_full_frame raw_codec "1.0"%string native_env
           (new_server demo_config 0) 7%nat demo_next demo_timestamp_ms).
  - left. reflexivity.
  - solve_in_signed.
  - solve_in_signed.
  - solve_in_signed.
  - intros enc. solve_in_signed.
Defined.

(** C1, counterexample.  The first binary frame a joining viewer gets
    from [_ws_handler] starts with [0x01], not with [0x02]: the handler
    sends the encoder's payload as it is. *)
Lemma join_payload_is_tagged_as_delta :
  ∃ payload st',
    @_ws_handler_join raw_codec "1.0" native_env (new_server demo_config 0) 7%nat
      (Ok demo_next) demo_timestamp_ms
    = ([TextFrame (VERSION (Some "1.0"%string) 0 "AIR" (Some "zh_TW"%string));
        BinaryFrame payload], Returned (), st') ∧
    payload_tag payload = Some Byte.x01 ∧
    payload_tag payload ≠ Some Byte.x02.
Proof.
  eexists _, _. split; [vm_compute; reflexivity|]. split; [reflexivity | discriminate].
Qed.

(** ** The in-flight-send map *)







Lemma same_sends_refl st : same_sends st st.
Proof. by repeat split. Qed.

Lemma same_sends_trans st1 st2 st3 :
  same_sends st1 st2 → same_sends st2 st3 → same_sends st1 st3.
Proof.
  intros (Hs & Hr & Hn) (Hs' & Hr' & Hn'). repeat split; [congruence.. | lia].
Qed.

(** The registry operations leave the sends alone. *)
Lemma build_engine_same_sends env st m fc cfg :
  same_sends st (build_engine env st m fc cfg).2.
Proof.
  unfold build_engine. destruct (StreamEngine_new env cfg) as [engine|e].
  - destruct (_ && _ && _); repeat split; cbn; lia.
  - destruct (negb fc); repeat split; cbn; lia.
Qed.

Lemma get_or_create_engine_same_sends env st m fc :
  same_sends st (get_or_create_engine env st m fc).2.
Proof.
  unfold get_or_create_engine.
  destruct (engines st !! m) as [old|];
    destruct (if negb fc && in_cool_down st m then true else fc);
    try apply same_sends_refl;
    (eapply same_sends_trans; [|apply build_engine_same_sends]);
    by repeat split.
Qed.

Lemma on_broadcast_exception_same_sends env st m msg :
  same_sends st (on_broadcast_exception env st m msg).2.
Proof.
  unfold on_broadcast_exception. destruct (is_known_driver_fault msg); cbn [snd].
  - apply get_or_create_engine_same_sends.
  - by repeat split.
Qed.


Lemma collect_clients_same_sends mids : ∀ acc,
  same_sends acc.2 (foldl collect_clients_of acc mids).2.
Proof.
  induction mids as [|m mids IH]; intros acc; [apply same_sends_refl|].
  cbn [foldl]. eapply same_sends_trans; [|apply IH].
  unfold collect_clients_of. destruct (engines acc.2 !! m); by repeat split.
Qed.

Lemma stop_engine_of_same_sends st mid : same_sends st (stop_engine_of st mid).
Proof. unfold stop_engine_of. destruct (engines st !! mid); by repeat split. Qed.

Lemma stop_other_engines_same_sends new_mon mids : ∀ st,
  same_sends st (foldl (stop_other_engine new_mon) st mids).
Proof.
  induction mids as [|m mids IH]; intros st; [apply same_sends_refl|].
  cbn [foldl]. eapply same_sends_trans; [|apply IH].
  unfold stop_other_engine. case_bool_decide;
    [apply stop_engine_of_same_sends | apply same_sends_refl].
Qed.

Lemma _perform_switch_same_sends env st new_mon :
  same_sends st (_perform_switch env st new_mon).2.
Proof.
  unfold _perform_switch.
  pose proof (collect_clients_same_sends (engine_keys st) (∅, st)) as H1.
  destruct (foldl collect_clients_of (∅, st) (engine_keys st)) as [all st1].
  cbn [snd] in H1.
  pose proof (stop_other_engines_same_sends new_mon (engine_keys st1) st1) as H2.
  set (st2 := foldl (stop_other_engine new_mon) st1 (engine_keys st1)) in *.
  match goal with |- context [get_or_create_engine env ?s new_mon false] =>
    pose proof (get_or_create_engine_same_sends env s new_mon false) as H3;
    destruct (get_or_create_engine env s new_mon false) as [[new_data| |] st3]
  end; cbn [snd] in *;
    (eapply same_sends_trans; [exact H1|]);
    (eapply same_sends_trans; [exact H2|]);
    (eapply same_sends_trans; [|eapply same_sends_trans; [exact H3|]]);
    by repeat split.
Qed.







(** After a negative congestion check no viewer of the engine has an
    entry, which is when the loop sends keyframes itself. *)
Lemma not_congested_no_entry st viewers ws :
  congested st viewers = false → ws ∈ viewers → _clients_sending st !! ws = None.
Proof.
  unfold congested. rewrite bool_decide_eq_false. intros Hno Hin.
  destruct (_clients_sending st !! ws) as [t|] eqn:E; [|done].
  exfalso. apply Hno. exists ws. by rewrite E.
Qed.



(** ** Reachable governors *)

Lemma py_max_case (a b : Q) : (py_max a b = a ∧ (b <= a)%Q) ∨ (py_max a b = b ∧ (a < b)%Q).
Proof.
  unfold py_max. destruct (Qltb a b) eqn:E.
  - right. split; [done|]. by apply Qltb_lt.
  - left. split; [done|]. by apply Qltb_ge.
Qed.

Lemma py_min_case (a b : Q) : (py_min a b = a ∧ (a <= b)%Q) ∨ (py_min a b = b ∧ (b < a)%Q).
Proof.
  unfold py_min. destruct (Qltb b a) eqn:E.
  - right. split; [done|]. by apply Qltb_lt.
  - left. split; [done|]. by apply Qltb_ge.
Qed.

Lemma elem_of_list_3 {A} (x a b c : A) : x ∈ [a; b; c] → x = a ∨ x = b ∨ x = c.
Proof. rewrite !elem_of_cons, elem_of_nil. tauto. Qed.

(** The clamp of step 3 lands between the bounds. *)
Lemma update_new_quality_bounds g total :
  min_quality g ≤ max_quality g →
  (inject_Z (min_quality g) <= update_new_quality g total)%Q ∧
  (update_new_quality g total <= inject_Z (max_quality g))%Q.
Proof.
  intros Hle. unfold update_new_quality.
  assert (Hq : (inject_Z (min_quality g) <= inject_Z (max_quality g))%Q)
    by (rewrite <- Zle_Qle; lia).
  match goal with |- context [py_min ?a ?b] =>
    destruct (py_min_case a b) as [[-> ?] | [-> ?]] end;
  match goal with |- context [py_max ?a ?b] =>
    destruct (py_max_case a b) as [[-> ?] | [-> ?]] end;
  split; try apply Qle_refl; try done; try (by apply Qlt_le_weak).
Qed.

Lemma new_governor_inv now mode tier : governor_inv (new_governor now mode tier).
Proof.
  unfold governor_inv, new_governor.
  assert (Hm : ∃ cfg, MODES (match MODES mode with Some _ => mode | None => "BALANCED"%string end)
                      = Some cfg ∧
                     (cfg_fps cfg, cfg_min_q cfg, cfg_max_q cfg, cfg_target_q cfg)
                       ∈ [(60, 30, 80, 65); (45, 20, 90, 75); (30, 50, 100, 95)]).
  { destruct (MODES mode) as [cfg|] eqn:E.
    - exists cfg. split; [done|]. unfold MODES in E.
      repeat case_bool_decide; simplify_eq; simpl; set_solver.
    - eexists. split; [reflexivity|]. simpl. set_solver. }
  destruct Hm as (cfg & -> & Hcfg). cbn [default].
  cbn [quality_deadband current_quality last_applied_quality min_quality max_quality
       current_tile_size target_fps gov_tier _min_foveated_radius _max_foveated_radius
       _foveated_radius].
  destruct cfg as [fps lo hi tq]; cbn in Hcfg |- *.
  apply elem_of_list_3 in Hcfg as Hc.
  split; [reflexivity|]. split; [done|].
  split; [destruct Hc as [[=]|[[=]|[=]]]; subst; set_solver|].
  split; [destruct Hc as [[=]|[[=]|[=]]]; subst; by rewrite <- Zle_Qle|].
  split; [destruct Hc as [[=]|[[=]|[=]]]; subst; by rewrite <- Zle_Qle|].
  split; [set_solver|].
  split; [case_bool_decide; [lia|]; destruct Hc as [[=]|[[=]|[=]]]; subst; lia|].
  split; [intros Ht; rewrite bool_decide_eq_true_2 by done; lia|].
  done.
Qed.

Lemma update_inv g s now : governor_inv g → governor_inv (update g s now).
Proof.
  intros (Hd & Heq & Hm & Hlo & Hhi & Hts & Hfps & Hair & Hmin & Hmax & Hr).
  unfold update. destruct (Qltb (now - last_update_time g) 0.5); [done|].
  destruct (update_pressures s) as [qp dp].
  assert (Hle : min_quality g ≤ max_quality g).
  { apply elem_of_list_3 in Hm as [Hc|[Hc|Hc]]; injection Hc as -> ->; lia. }
  destruct (update_new_quality_bounds g (qp + dp) Hle) as [Hnlo Hnhi].
  unfold governor_inv.
  cbn [quality_deadband current_quality last_applied_quality min_quality max_quality
       current_tile_size target_fps gov_tier _min_foveated_radius _max_foveated_radius
       _foveated_radius].
  split; [done|].
  split; [destruct (update_hysteresis g _); done|].
  split; [done|].
  split; [destruct (update_hysteresis g _); done|].
  split; [destruct (update_hysteresis g _); done|].
  split; [repeat case_match; set_solver|].
  split; [repeat case_bool_decide; lia|].
  split; [intros Ht; rewrite bool_decide_eq_true_2 by done; case_bool_decide; lia|].
  split; [done|]. split; [done|].
  repeat case_match; lia.
Qed.

Lemma governor_reachable_inv g : governor_reachable g → governor_inv g.
Proof.
  induction 1 as [now mode tier | g s now _ IH | g x y _ IH].
  - apply new_governor_inv.
  - by apply update_inv.
  - exact IH.
Qed.

(** [int(q)] of a quality between two integer bounds lies between them. *)
Lemma trunc_between (q : Q) (a b : Z) :
  0 ≤ a → (inject_Z a <= q)%Q → (q <= inject_Z b)%Q →
  a ≤ Z.quot (Qnum q) (Zpos (Qden q)) ≤ b.
Proof.
  intros Ha Hlo Hhi. unfold Qle in Hlo, Hhi. simpl in Hlo, Hhi.
  assert (0 ≤ Qnum q) by nia.
  rewrite Z.quot_div_nonneg by lia. split.
  - apply Z.div_le_lower_bound; lia.
  - apply Z.div_le_upper_bound; lia.
Qed.

(** X1.  The quality of a reachable governor never leaves the band of its
    mode, and neither does the integer [get_quality] hands to the
    encoder. *)
Theorem governor_quality_stays_in_band (g : AdaptiveGovernor) :
  governor_reachable g →
  (inject_Z (min_quality g) <= current_quality g)%Q ∧
  (current_quality g <= inject_Z (max_quality g))%Q ∧
  min_quality g ≤ get_quality g ≤ max_quality g ∧
  20 ≤ get_quality g ≤ 100.
Proof.
  intros (_ & _ & Hm & Hlo & Hhi & _)%governor_reachable_inv.
  split; [done|]. split; [done|].
  assert (0 ≤ min_quality g ∧ 20 ≤ min_quality g ∧ max_quality g ≤ 100) as (H0 & H20 & H100)
    by (apply elem_of_list_3 in Hm as [Hc|[Hc|Hc]]; injection Hc as -> ->; lia).
  pose proof (trunc_between _ _ _ H0 Hlo Hhi) as Hq. unfold get_quality. lia.
Qed.

(** X1 at a concrete input: the Air governor after one second of heavy
    telemetry holds quality 50, inside the band 20..90 of its mode. *)
Lemma governor_quality_stays_in_band_witness :
  governor_reachable pressed_governor ∧
  min_quality pressed_governor ≤ get_quality pressed_governor ≤ max_quality pressed_governor ∧
  get_quality pressed_governor = 50.
Proof.
  assert (Hr : governor_reachable pressed_governor)
    by (apply reachable_update, reachable_init).
  split; [exact Hr|]. split.
  - exact (proj1 (proj2 (proj2 (governor_quality_stays_in_band pressed_governor Hr)))).
  - reflexivity.
Defined.

(** X2.  The other control variables of a reachable governor stay in
    their ranges. *)
Theorem governor_parameters_stay_in_range (g : AdaptiveGovernor) :
  governor_reachable g →
  get_tile_size g ∈ [128; 256; 512] ∧
  0 < get_target_fps g ∧
  (gov_tier g = "AIR"%string → get_target_fps g = 10 ∨ get_target_fps g = 20) ∧
  80 ≤ get_foveated_radius g ≤ 400.
Proof.
  intros (_ & _ & _ & _ & _ & Hts & Hfps & Hair & _ & _ & Hr)%governor_reachable_inv.
  done.
Qed.

(** X2 at a concrete input: the same governor asks for tiles of 512 at 20
    frames per second. *)
Lemma governor_parameters_stay_in_range_witness :
  governor_reachable pressed_governor ∧
  get_tile_size pressed_governor = 512 ∧
  get_target_fps pressed_governor = 20 ∧
  80 ≤ get_foveated_radius pressed_governor ≤ 400.
Proof.
  assert (Hr : governor_reachable pressed_governor)
    by (apply reachable_update, reachable_init).
  split; [exact Hr|]. split; [reflexivity|]. split; [reflexivity|].
  exact (proj2 (proj2 (proj2 (governor_parameters_stay_in_range pressed_governor Hr)))).
Defined.








(** X5.  [is_in_foveated_region] answers whether the tile's rectangle and
    the foveated box around the cursor share a point. *)
Theorem foveated_region_is_box_overlap (g : AdaptiveGovernor) (tx ty tw th : Z) :
  governor_reachable g → 0 ≤ tw → 0 ≤ th →
  is_in_foveated_region g tx ty tw th = true ↔
  ∃ px py, in_rect tx ty tw th px py ∧ in_foveated_box g px py.
Proof.
  intros (_ & _ & _ & _ & _ & _ & _ & _ & _ & _ & Hr)%governor_reachable_inv Htw Hth.
  unfold is_in_foveated_region, in_rect, in_foveated_box.
  destruct (_cursor_pos g) as [cx cy]. cbn [fst snd].
  rewrite negb_true_iff, !orb_false_iff, !Z.ltb_ge. split.
  - intros (((H1 & H2) & H3) & H4).
    exists (Z.max tx (cx - _foveated_radius g)), (Z.max ty (cy - _foveated_radius g)). lia.
  - intros (px & py & ? & ?). lia.
Qed.

(** X5 at a concrete input: with the cursor at (500, 500) and radius 200, the
    tile at (640, 256) overlaps the box and the tile at (768, 256) does not. *)
Lemma foveated_region_is_box_overlap_witness :
  governor_reachable (update_cursor demo_governor 500 500) ∧
  is_in_foveated_region (update_cursor demo_governor 500 500) 640 256 128 128 = true ∧
  is_in_foveated_region (update_cursor demo_governor 500 500) 768 256 128 128 = false.
Proof.
  assert (Hr : governor_reachable (update_cursor demo_governor 500 500))
    by apply reachable_cursor, reachable_init.
  split; [exact Hr|]. split.
  - apply (foveated_region_is_box_overlap _ 640 256 128 128 Hr); [lia | lia |].
    exists 640, 384. unfold in_rect, in_foveated_box. simpl. lia.
  - reflexivity.
Defined.

(** ** Painting tiles on the client's screen buffer *)

Lemma paste_wf buf img x y : nd_wf buf → nd_wf (paste buf img x y).
Proof.
  intros (Hh & Hw & Hrows). unfold nd_wf, paste; simpl.
  rewrite length_imap. split; [done|]. split; [done|].
  apply Forall_lookup. intros i row. rewrite list_lookup_imap.
  destruct (nd_rows buf !! i) as [row0|] eqn:E; [|done]. intros [= <-].
  rewrite length_imap. eapply (proj1 (Forall_lookup _ _) Hrows); eauto.
Qed.

Lemma paste_tile_wf buf t : nd_wf buf → nd_wf (paste_tile buf t).
Proof. intros Hwf. unfold paste_tile. case_match; [by apply paste_wf | done]. Qed.

Lemma paste_tile_shape buf t : shape (paste_tile buf t) = shape buf.
Proof. unfold paste_tile. by case_match. Qed.

(** A pixel after [paste]: the image's pixel inside the box, the old
    pixel elsewhere. *)
Lemma pixel_at_paste buf img x y (r c : nat) :
  pixel_at (paste buf img x y) (Z.of_nat r) (Z.of_nat c)
  = p ← pixel_at buf (Z.of_nat r) (Z.of_nat c);
    Some (if (y <=? Z.of_nat r) && (Z.of_nat r <? y + nd_h img)
             && (x <=? Z.of_nat c) && (Z.of_nat c <? x + nd_w img)
          then default p (pixel_at img (Z.of_nat r - y) (Z.of_nat c - x))
          else p).
Proof.
  unfold pixel_at at 1 3, paste; simpl. rewrite !Nat2Z.id.
  rewrite list_lookup_imap.
  destruct (nd_rows buf !! r) as [row|]; simpl; [|done].
  rewrite list_lookup_imap. by destruct (row !! c).
Qed.

(** Two rectangular arrays of one shape with the same pixels are equal. *)
Lemma ndarray_ext (a b : ndarray) :
  nd_wf a → nd_wf b → shape a = shape b →
  (∀ r c : nat, pixel_at a (Z.of_nat r) (Z.of_nat c) = pixel_at b (Z.of_nat r) (Z.of_nat c)) →
  a = b.
Proof.
  intros (Hha & Hwa & Hra) (Hhb & Hwb & Hrb) [= Hh Hw] Hpx.
  destruct a as [ha wa ra], b as [hb wb rb]; simpl in *. subst hb wb.
  assert (ra = rb) as ->; [|f_equal; lia].
  apply list_eq. intros i.
  destruct (ra !! i) as [rowa|] eqn:Ea, (rb !! i) as [rowb|] eqn:Eb.
  - f_equal. apply list_eq. intros j.
    specialize (Hpx i j). unfold pixel_at in Hpx. simpl in Hpx.
    rewrite !Nat2Z.id, Ea, Eb in Hpx. done.
  - apply lookup_lt_Some in Ea. apply lookup_ge_None in Eb. lia.
  - apply lookup_lt_Some in Eb. apply lookup_ge_None in Ea. lia.
  - done.
Qed.

Lemma pixel_at_is_Some (a : ndarray) (r c : nat) :
  nd_wf a → Z.of_nat r < nd_h a → Z.of_nat c < nd_w a →
  is_Some (pixel_at a (Z.of_nat r) (Z.of_nat c)).
Proof.
  intros (Hh & Hw & Hrows) Hr Hc. unfold pixel_at. rewrite !Nat2Z.id.
  destruct (lookup_lt_is_Some_2 (nd_rows a) r) as [row Hrow]; [lia|].
  rewrite Hrow. simpl. apply lookup_lt_is_Some_2.
  assert (Z.of_nat (length row) = nd_w a)
    by (eapply (proj1 (Forall_lookup _ _) Hrows); eauto). lia.
Qed.

Lemma pixel_at_None_h (a : ndarray) (r c : nat) :
  nd_wf a → nd_h a ≤ Z.of_nat r → pixel_at a (Z.of_nat r) (Z.of_nat c) = None.
Proof.
  intros (Hh & _) Hr. unfold pixel_at. rewrite !Nat2Z.id.
  rewrite (proj2 (lookup_ge_None _ _)) by lia. done.
Qed.

Lemma pixel_at_None_w (a : ndarray) (r c : nat) :
  nd_wf a → nd_w a ≤ Z.of_nat c → pixel_at a (Z.of_nat r) (Z.of_nat c) = None.
Proof.
  intros (Hh & Hw & Hrows) Hc. unfold pixel_at. rewrite !Nat2Z.id.
  destruct (nd_rows a !! r) as [row|] eqn:Hrow; [|done]. simpl.
  apply lookup_ge_None.
  assert (Z.of_nat (length row) = nd_w a)
    by (eapply (proj1 (Forall_lookup _ _) Hrows); eauto). lia.
Qed.

Lemma pixel_at_paste_tile cur buf t (r c : nat) :
  nd_wf cur → nd_wf buf → shape buf = shape cur → tile_of_frame cur t →
  pixel_at (paste_tile buf t) (Z.of_nat r) (Z.of_nat c)
  = if decide (covers t (Z.of_nat r) (Z.of_nat c))
    then pixel_at cur (Z.of_nat r) (Z.of_nat c)
    else pixel_at buf (Z.of_nat r) (Z.of_nat c).
Proof.
  intros Hcur Hbuf [= Hh Hw] (Hx & Hy & Hwd & Hht & Hxw & Hyh & Hdata).
  unfold paste_tile.
  destruct (Z.leb_spec (tile_x t + tile_width t) (nd_w buf)); [|lia].
  destruct (Z.leb_spec (tile_y t + tile_height t) (nd_h buf)); [|lia]. simpl.
  rewrite pixel_at_paste.
  assert (Hs : shape (tile_data t) = (tile_height t, tile_width t))
    by (rewrite Hdata; apply nd_slice_shape; [done | lia | lia]).
  injection Hs as Hsh Hsw. rewrite Hsh, Hsw.
  destruct (decide (covers t (Z.of_nat r) (Z.of_nat c))) as [Hc|Hc].
  - destruct Hc as [Hr Hcc].
    destruct (Z.leb_spec (tile_y t) (Z.of_nat r)); [|lia].
    destruct (Z.ltb_spec (Z.of_nat r) (tile_y t + tile_height t)); [|lia].
    destruct (Z.leb_spec (tile_x t) (Z.of_nat c)); [|lia].
    destruct (Z.ltb_spec (Z.of_nat c) (tile_x t + tile_width t)); [|lia]. simpl.
    destruct (pixel_at_is_Some buf r c Hbuf) as [p Hp]; [lia | lia |].
    destruct (pixel_at_is_Some cur r c Hcur) as [q Hq]; [lia | lia |].
    rewrite Hp, Hq. simpl. f_equal.
    assert (pixel_at (tile_data t) (Z.of_nat r - tile_y t) (Z.of_nat c - tile_x t) = Some q)
      as ->; [|done].
    rewrite <- Hq, Hdata. unfold pixel_at at 1.
    rewrite (nd_slice_pixel cur (tile_x t) (tile_y t) (tile_width t) (tile_height t)
               Hcur) by lia.
    f_equal; lia.
  - assert ((tile_y t <=? Z.of_nat r) && (Z.of_nat r <? tile_y t + tile_height t)
            && (tile_x t <=? Z.of_nat c) && (Z.of_nat c <? tile_x t + tile_width t) = false)
      as ->.
    { apply not_true_iff_false. rewrite !andb_true_iff, !Z.leb_le, !Z.ltb_lt.
      unfold covers in Hc. lia. }
    by destruct (pixel_at buf _ _).
Qed.

Lemma pixel_at_paint cur tiles : ∀ buf,
  nd_wf cur → nd_wf buf → shape buf = shape cur → Forall (tile_of_frame cur) tiles →
  nd_wf (foldl paste_tile buf tiles) ∧
  shape (foldl paste_tile buf tiles) = shape cur ∧
  ∀ r c : nat,
    pixel_at (foldl paste_tile buf tiles) (Z.of_nat r) (Z.of_nat c)
    = if decide (Exists (λ t, covers t (Z.of_nat r) (Z.of_nat c)) tiles)
      then pixel_at cur (Z.of_nat r) (Z.of_nat c)
      else pixel_at buf (Z.of_nat r) (Z.of_nat c).
Proof.
  induction tiles as [|t tiles IH]; intros buf Hcur Hbuf Hs Hall.
  - cbn [foldl]. split; [done|]. split; [done|]. intros r c.
    destruct (decide (Exists (λ t, covers t (Z.of_nat r) (Z.of_nat c)) [])) as [He|_];
      [|done].
    by apply Exists_nil in He.
  - apply Forall_cons in Hall as [Ht Hall]. cbn [foldl].
    destruct (IH (paste_tile buf t) Hcur) as (Hwf & Hsh & Hpx);
      [by apply paste_tile_wf | by rewrite paste_tile_shape | done |].
    split; [done|]. split; [done|]. intros r c. rewrite Hpx.
    rewrite (pixel_at_paste_tile cur buf t r c) by done.
    destruct (decide (Exists (λ t, covers t (Z.of_nat r) (Z.of_nat c)) tiles)) as [He|He];
      destruct (decide (covers t (Z.of_nat r) (Z.of_nat c))) as [Hc|Hc];
      destruct (decide (Exists (λ t, covers t (Z.of_nat r) (Z.of_nat c)) (t :: tiles)))
        as [He'|He']; try done.
    + exfalso. apply He'. by apply Exists_cons_tl.
    + exfalso. apply He'. by apply Exists_cons_tl.
    + exfalso. apply He'. by apply Exists_cons_hd.
    + exfalso. apply Exists_cons in He' as [?|?]; done.
Qed.

(** Painting tiles cut from [cur] on a buffer of the same shape yields
    [cur] as soon as every pixel is covered or was already right. *)
Lemma paint_gives_frame cur buf tiles :
  nd_wf cur → nd_wf buf → shape buf = shape cur → Forall (tile_of_frame cur) tiles →
  (∀ r c : nat, Z.of_nat r < nd_h cur → Z.of_nat c < nd_w cur →
     Exists (λ t, covers t (Z.of_nat r) (Z.of_nat c)) tiles ∨
     pixel_at buf (Z.of_nat r) (Z.of_nat c) = pixel_at cur (Z.of_nat r) (Z.of_nat c)) →
  foldl paste_tile buf tiles = cur.
Proof.
  intros Hcur Hbuf Hs Hall Hcov.
  destruct (pixel_at_paint cur tiles buf Hcur Hbuf Hs Hall) as (Hwf & Hsh & Hpx).
  apply ndarray_ext; [done..|]. intros r c. rewrite Hpx.
  destruct (decide (Exists (λ t, covers t (Z.of_nat r) (Z.of_nat c)) tiles)) as [He|He];
    [done|].
  injection Hs as Hh Hw.
  destruct (Z.lt_ge_cases (Z.of_nat r) (nd_h cur)) as [Hr|Hr];
    [|rewrite !pixel_at_None_h by (done || lia); done].
  destruct (Z.lt_ge_cases (Z.of_nat c) (nd_w cur)) as [Hc|Hc];
    [|rewrite !pixel_at_None_w by (done || lia); done].
  destruct (Hcov r c Hr Hc); done.
Qed.

Lemma Image_new_ok (width height : Z) :
  0 ≤ width → 0 ≤ height →
  ∃ b, Image_new width height = Ok b ∧ nd_wf b ∧ shape b = (height, width).
Proof.
  intros Hw Hh. unfold Image_new.
  destruct (Z.ltb_spec width 0); [lia|]. destruct (Z.ltb_spec height 0); [lia|]. simpl.
  eexists. split; [reflexivity|]. split; [|done].
  unfold nd_wf; simpl. rewrite length_replicate. split; [lia|]. split; [done|].
  apply Forall_replicate. rewrite length_replicate. lia.
Qed.

Lemma full_frame_tile_of_frame (f : ScreenFrame) :
  nd_wf (frame_np f) →
  tile_of_frame (frame_np f) (get_tile f 0 0 (frame_width f) (frame_height f)).
Proof.
  intros (Hh & Hw & _). unfold tile_of_frame, get_tile, frame_width, frame_height; simpl.
  repeat split; lia.
Qed.

(** A full-frame delta repaints the whole buffer, whatever its size was. *)
Lemma full_frame_delta_repaints (f : ScreenFrame) (n : Z) (screen_buffer : ndarray)
    (render_queue_full : bool) :
  nd_wf (frame_np f) → nd_wf screen_buffer →
  (_decode_worker screen_buffer render_queue_full
     {| frame_number := n;
        changed_tiles := [get_tile f 0 0 (frame_width f) (frame_height f)];
        full_frame_fallback := true |}).1 = frame_np f.
Proof.
  intros Hcur Hbuf. unfold _decode_worker.
  cbn [full_frame_fallback changed_tiles length andb].
  rewrite bool_decide_eq_true_2 by done.
  change ([?t] !! 0%nat) with (Some t).
  cbn [tile_width tile_height get_tile].
  assert (Hpos : 0 ≤ frame_width f ∧ 0 ≤ frame_height f).
  { destruct Hcur as (Hh & Hw & _). unfold frame_width, frame_height. lia. }
  assert (∃ b, (if negb (bool_decide ((nd_w screen_buffer, nd_h screen_buffer)
                                     = (frame_width f, frame_height f)))
                then Image_new (frame_width f) (frame_height f)
                else mret screen_buffer) = Ok b
               ∧ nd_wf b ∧ shape b = shape (frame_np f)) as (b & -> & Hb & Hs).
  { case_bool_decide as Hsz; simpl.
    - exists screen_buffer. split; [done|]. split; [done|].
      injection Hsz as Hw Hh. unfold shape, frame_width, frame_height in *. congruence.
    - destruct (Image_new_ok (frame_width f) (frame_height f)) as (b & Hb & Hwf & Hs); [lia..|].
      exists b. done. }
  cbn [fst].
  apply paint_gives_frame; [done | done | done | |].
  - constructor; [|constructor]. by apply full_frame_tile_of_frame.
  - intros r c Hr Hc. left. apply Exists_cons_hd.
    unfold covers, get_tile, frame_width, frame_height; simpl. lia.
Qed.

(** The tiles of a scan are cut from the current frame, and together
    they cover every pixel that differs from the reference frame. *)
Lemma scan_tiles_cover (tile_size : Z) (f : ScreenFrame) (last : ndarray) (tiles : list Tile) :
  0 < tile_size → nd_wf (frame_np f) →
  (∀ t, t ∈ tiles ↔
     grid_tile tile_size (frame_width f) (frame_height f) t ∧
     tile_data t = nd_slice (frame_np f) (tile_y t) (tile_y t + tile_height t)
                            (tile_x t) (tile_x t + tile_width t) ∧
     region_differs (frame_np f) last (tile_x t) (tile_y t) (tile_width t) (tile_height t)) →
  Forall (tile_of_frame (frame_np f)) tiles ∧
  ∀ r c : nat, Z.of_nat r < frame_height f → Z.of_nat c < frame_width f →
    Exists (λ t, covers t (Z.of_nat r) (Z.of_nat c)) tiles ∨
    pixel_at last (Z.of_nat r) (Z.of_nat c) = pixel_at (frame_np f) (Z.of_nat r) (Z.of_nat c).
Proof.
  intros Hts Hwf Htiles. split.
  - apply Forall_forall. intros t Ht.
    apply Htiles in Ht as (((i & Hi & Hx) & (j & Hj & Hy) & HxW & HyH & Hw & Hh) & Hdata & _).
    unfold tile_of_frame, frame_width, frame_height in *. repeat split; try done; nia.
  - intros r c Hr Hc.
    destruct (decide (pixel_at last (Z.of_nat r) (Z.of_nat c)
                      = pixel_at (frame_np f) (Z.of_nat r) (Z.of_nat c))) as [Heq|Hne];
      [by right | left].
    set (x0 := Z.of_nat c / tile_size * tile_size).
    set (y0 := Z.of_nat r / tile_size * tile_size).
    assert (Hx0 : x0 ≤ Z.of_nat c < x0 + tile_size)
      by (unfold x0; pose proof (Z.div_mod (Z.of_nat c) tile_size);
          pose proof (Z.mod_pos_bound (Z.of_nat c) tile_size); lia).
    assert (Hy0 : y0 ≤ Z.of_nat r < y0 + tile_size)
      by (unfold y0; pose proof (Z.div_mod (Z.of_nat r) tile_size);
          pose proof (Z.mod_pos_bound (Z.of_nat r) tile_size); lia).
    assert (0 ≤ Z.of_nat c / tile_size) by (apply Z.div_pos; lia).
    assert (0 ≤ Z.of_nat r / tile_size) by (apply Z.div_pos; lia).
    set (t0 := get_tile f x0 y0 (Z.min tile_size (frame_width f - x0))
                 (Z.min tile_size (frame_height f - y0))).
    apply Exists_exists. exists t0. split.
    + apply Htiles. unfold t0, get_tile, grid_tile; simpl.
      split; [repeat split; eauto; lia|]. split; [done|].
      exists (Z.of_nat r), (Z.of_nat c). split; [lia|]. split; [lia|]. congruence.
    + unfold covers, t0, get_tile; simpl. lia.
Qed.

(** The delta of a scan painted on the reference frame gives the current
    frame; a fallback delta is the single full-frame tile. *)
Lemma partition_delta_paints_frame (tp : TilePartitioner) (f : ScreenFrame)
    (screen_buffer : ndarray) (render_queue_full : bool) :
  0 < _tile_size tp →
  nd_wf (frame_np f) → nd_wf screen_buffer →
  (∀ last, _last_frame_np tp = Some last → screen_buffer = last) →
  ∃ d, (partition_and_detect_changes tp f).1 = Ok d ∧
       (_decode_worker screen_buffer render_queue_full d).1 = frame_np f ∧
       (full_frame_fallback d = true →
        changed_tiles d = [get_tile f 0 0 (frame_width f) (frame_height f)]).
Proof.
  intros Hts Hcur Hbuf Hlast.
  unfold partition_and_detect_changes, get_np_array.
  destruct (_last_frame_np tp) as [last|];
    [|eexists; split; [reflexivity | split; [by apply full_frame_delta_repaints | done]]].
  specialize (Hlast last eq_refl). subst last.
  case_bool_decide as Hs; simpl;
    [|eexists; split; [reflexivity | split; [by apply full_frame_delta_repaints | done]]].
  destruct (scan_grid_spec (_tile_size tp) f screen_buffer Hts Hcur Hbuf Hs)
    as (tiles & -> & _ & Htiles).
  eexists. split; [reflexivity|]. split; [|done].
  destruct (scan_tiles_cover _ f screen_buffer tiles Hts Hcur Htiles) as [Hall Hcov].
  unfold _decode_worker. cbn [full_frame_fallback changed_tiles andb fst].
  by apply paint_gives_frame.
Qed.

(** X6.  Painting the delta of [partition_and_detect_changes] on a
    screen buffer that holds the partitioner's reference frame yields
    the current frame; when the partitioner holds no reference frame, or
    one of another size, the full-frame delta it returns repaints any
    buffer. *)
Theorem delta_repaints_current_frame (tp : TilePartitioner) (f : ScreenFrame)
    (screen_buffer : ndarray) (render_queue_full : bool) :
  0 < _tile_size tp →
  nd_wf (frame_np f) → nd_wf screen_buffer →
  (∀ last, _last_frame_np tp = Some last → screen_buffer = last) →
  ∃ d, (partition_and_detect_changes tp f).1 = Ok d ∧
       (_decode_worker screen_buffer render_queue_full d).1 = frame_np f.
Proof.
  intros Hts Hcur Hbuf Hlast.
  destruct (partition_delta_paints_frame tp f screen_buffer render_queue_full
              Hts Hcur Hbuf Hlast) as (d & Hd & Hpaint & _).
  by exists d.
Qed.

(** X6 at a concrete input: the sample frames, tiles of size 2. *)
Lemma delta_repaints_current_frame_witness :
  ∃ d, (partition_and_detect_changes demo_partitioner demo_next).1 = Ok d ∧
       (_decode_worker (frame_np demo_prev) false d).1 = frame_np demo_next.
Proof.
  apply (delta_repaints_current_frame demo_partitioner demo_next (frame_np demo_prev) false).
  - reflexivity.
  - vm_compute. repeat split; try discriminate; repeat constructor.
  - vm_compute. repeat split; try discriminate; repeat constructor.
  - intros last [= <-]. reflexivity.
Defined.

(** X7.  The keyframe of [create_full_frame_delta] repaints any
    screen buffer, whatever its size, into the captured frame. *)
Theorem keyframe_repaints_any_buffer (tp : TilePartitioner) (f : ScreenFrame)
    (screen_buffer : ndarray) (render_queue_full : bool) :
  nd_wf (frame_np f) → nd_wf screen_buffer →
  (_decode_worker screen_buffer render_queue_full (create_full_frame_delta tp f).1).1
  = frame_np f.
Proof. intros Hcur Hbuf. by apply full_frame_delta_repaints. Qed.

(** X7 at a concrete input: a buffer of 2 × 1 pixels becomes the 3 × 3 frame. *)
Lemma keyframe_repaints_any_buffer_witness :
  shape (demo_array [[0; 0]]) ≠ shape (frame_np demo_next) ∧
  (_decode_worker (demo_array [[0; 0]]) false
     (create_full_frame_delta demo_partitioner demo_next).1).1 = frame_np demo_next.
Proof.
  split; [discriminate|].
  apply (keyframe_repaints_any_buffer demo_partitioner demo_next (demo_array [[0; 0]]) false).
  - vm_compute. repeat split; try discriminate; repeat constructor.
  - vm_compute. repeat split; try discriminate; repeat constructor.
Defined.

(** ** More on the tile partitioner *)

(** X8.  A frame equal to the reference frame yields a delta
    without tiles and without the fallback flag; this is so right after
    [create_full_frame_delta] on the same frame. *)
Theorem unchanged_frame_gives_empty_delta (tp : TilePartitioner) (f : ScreenFrame) :
  0 < _tile_size tp → nd_wf (frame_np f) →
  let empty := {| frame_number := _frame_number tp + 1; changed_tiles := [];
                  full_frame_fallback := false |} in
  (_last_frame_np tp = Some (frame_np f) →
     (partition_and_detect_changes tp f).1 = Ok empty) ∧
  (partition_and_detect_changes (create_full_frame_delta tp f).2 f).1 = Ok empty.
Proof.
  intros Hts Hwf empty.
  assert (Hscan : scan_grid (_tile_size tp) f (frame_np f) (frame_np f) = Ok []).
  { destruct (scan_grid_spec (_tile_size tp) f (frame_np f) Hts Hwf Hwf eq_refl)
      as (tiles & -> & _ & Htiles).
    f_equal. apply elem_of_nil_inv. intros t (_ & _ & (r & c & _ & _ & Hne))%Htiles.
    done. }
  assert (Hsame : ∀ tp', _tile_size tp' = _tile_size tp →
            _last_frame_np tp' = Some (frame_np f) →
            (partition_and_detect_changes tp' f).1
            = Ok {| frame_number := _frame_number tp' + 1; changed_tiles := [];
                    full_frame_fallback := false |}).
  { intros tp' Hsz Hl. unfold partition_and_detect_changes, get_np_array.
    rewrite Hl, Hsz, bool_decide_eq_true_2 by done. simpl. by rewrite Hscan. }
  split.
  - intros Hl. by apply Hsame.
  - by apply Hsame.
Qed.

(** X8 at a concrete input: the sample frame scanned right after its own
    keyframe. *)
Lemma unchanged_frame_gives_empty_delta_witness :
  (partition_and_detect_changes
     (create_full_frame_delta demo_partitioner demo_next).2 demo_next).1
  = Ok {| frame_number := 8; changed_tiles := []; full_frame_fallback := false |}.
Proof.
  apply (unchanged_frame_gives_empty_delta demo_partitioner demo_next).
  - reflexivity.
  - vm_compute. repeat split; try discriminate; repeat constructor.
Defined.

(** The tiles of one scan: two tiles that share a pixel are the same
    tile. *)
Lemma grid_tiles_share_no_pixel (tile_size W H : Z) (t1 t2 : Tile) (r c : Z) :
  0 < tile_size →
  grid_tile tile_size W H t1 → grid_tile tile_size W H t2 →
  covers t1 r c → covers t2 r c →
  tile_x t1 = tile_x t2 ∧ tile_y t1 = tile_y t2.
Proof.
  intros Hts ((i1 & Hi1 & Hx1) & (j1 & Hj1 & Hy1) & _ & _ & Hw1 & Hh1)
             ((i2 & Hi2 & Hx2) & (j2 & Hj2 & Hy2) & _ & _ & Hw2 & Hh2)
             [Hr1 Hc1] [Hr2 Hc2].
  assert (i1 = i2) by nia. assert (j1 = j2) by nia. subst. lia.
Qed.

(** X9.  The tiles of a delta lie inside the frame, carry the
    frame's pixels of their rectangle, and no two of them overlap. *)
Theorem changed_tiles_tile_the_frame (tp : TilePartitioner) (f : ScreenFrame)
    (last : ndarray) (d : DeltaFrame) :
  0 < _tile_size tp → nd_wf (frame_np f) → nd_wf last →
  _last_frame_np tp = Some last → shape last = shape (frame_np f) →
  (partition_and_detect_changes tp f).1 = Ok d →
  Forall (tile_of_frame (frame_np f)) (changed_tiles d) ∧
  ∀ t1 t2 r c, t1 ∈ changed_tiles d → t2 ∈ changed_tiles d →
    covers t1 r c → covers t2 r c → t1 = t2.
Proof.
  intros Hts Hwf Hlwf Hl Hs Hd.
  unfold partition_and_detect_changes, get_np_array in Hd.
  rewrite Hl, bool_decide_eq_true_2 in Hd by done. simpl in Hd.
  destruct (scan_grid_spec (_tile_size tp) f last Hts Hwf Hlwf Hs)
    as (tiles & Hscan & _ & Htiles).
  rewrite Hscan in Hd. injection Hd as <-. cbn [changed_tiles].
  split; [by apply (scan_tiles_cover (_tile_size tp) f last)|].
  intros t1 t2 r c (Hg1 & Hd1 & _)%Htiles (Hg2 & Hd2 & _)%Htiles Hc1 Hc2.
  destruct (grid_tiles_share_no_pixel _ _ _ t1 t2 r c Hts Hg1 Hg2 Hc1 Hc2) as [Hx Hy].
  destruct Hg1 as (_ & _ & _ & _ & Hw1 & Hh1), Hg2 as (_ & _ & _ & _ & Hw2 & Hh2).
  destruct t1, t2; simpl in *. subst. done.
Qed.

(** X9 at a concrete input: the sample frames. *)
Lemma changed_tiles_tile_the_frame_witness :
  ∃ d, (partition_and_detect_changes demo_partitioner demo_next).1 = Ok d ∧
       Forall (tile_of_frame (frame_np demo_next)) (changed_tiles d).
Proof.
  eexists. split; [reflexivity|].
  apply (changed_tiles_tile_the_frame demo_partitioner demo_next (frame_np demo_prev)).
  - reflexivity.
  - vm_compute. repeat split; try discriminate; repeat constructor.
  - vm_compute. repeat split; try discriminate; repeat constructor.
  - reflexivity.
  - reflexivity.
  - reflexivity.
Defined.

(** X10.  A tile size that is not positive: with a reference frame
    of the same shape, tile size 0 makes the scan raise [ValueError]
    ([range] refuses a zero step) after the frame counter was bumped and
    before the reference frame is replaced; a negative tile size scans
    nothing, so the delta is empty whatever changed, and the reference
    frame is replaced. *)
Theorem partition_with_nonpositive_tile_size (tp : TilePartitioner) (f : ScreenFrame)
    (last : ndarray) :
  nd_wf (frame_np f) →
  _last_frame_np tp = Some last → shape last = shape (frame_np f) →
  (_tile_size tp = 0 →
     partition_and_detect_changes tp f
     = (Raise ValueError,
        {| _tile_size := 0; _last_frame_np := Some last;
           _frame_number := _frame_number tp + 1 |})) ∧
  (_tile_size tp < 0 →
     partition_and_detect_changes tp f
     = (Ok {| frame_number := _frame_number tp + 1; changed_tiles := [];
              full_frame_fallback := false |},
        {| _tile_size := _tile_size tp; _last_frame_np := Some (frame_np f);
           _frame_number := _frame_number tp + 1 |})).
Proof.
  intros (Hh & Hw & _) Hl Hs.
  unfold partition_and_detect_changes, get_np_array.
  rewrite Hl, bool_decide_eq_true_2 by done. cbn [negb]. split.
  - intros ->. done.
  - intros Hneg. unfold scan_grid, py_range0.
    destruct (Z.eqb_spec (_tile_size tp) 0); [lia|].
    destruct (Z.ltb_spec 0 (_tile_size tp)); [lia|].
    assert ((- frame_height f + - _tile_size tp - 1) / - _tile_size tp ≤ 0) as Hc.
    { unfold frame_height. apply Z.lt_succ_r, Z.div_lt_upper_bound; lia. }
    replace (Z.to_nat _) with 0%nat by lia. done.
Qed.

(** X10 at a concrete input: the sample partitioner with tile sizes 0 and -64. *)
Lemma partition_with_nonpositive_tile_size_witness :
  (partition_and_detect_changes (set_tile_size demo_partitioner 0) demo_next).1
    = Raise ValueError ∧
  (partition_and_detect_changes (set_tile_size demo_partitioner (-64)) demo_next).1
    = Ok {| frame_number := 8; changed_tiles := []; full_frame_fallback := false |}.
Proof.
  assert (Hwf : nd_wf (frame_np demo_next))
    by (vm_compute; repeat split; try discriminate; repeat constructor).
  split.
  - destruct (partition_with_nonpositive_tile_size (set_tile_size demo_partitioner 0)
                demo_next (frame_np demo_prev) Hwf eq_refl eq_refl) as [-> _]; reflexivity.
  - destruct (partition_with_nonpositive_tile_size (set_tile_size demo_partitioner (-64))
                demo_next (frame_np demo_prev) Hwf eq_refl eq_refl) as [_ ->]; reflexivity.
Defined.

Lemma seq_strongly_sorted (j n : nat) : StronglySorted lt (seq j n).
Proof.
  revert j. induction n as [|n IH]; intros j; simpl; constructor; [apply IH|].
  apply Forall_forall. intros k Hk%elem_of_seq. lia.
Qed.

Lemma py_range0_sorted (stop step : Z) (l : list Z) :
  0 < step → py_range0 stop step = Ok l → StronglySorted Z.lt l.
Proof.
  intros Hstep. unfold py_range0.
  destruct (Z.eqb_spec step 0); [lia|]. intros [= <-].
  apply (StronglySorted_fmap _ lt Z.lt); [|apply seq_strongly_sorted].
  intros a b Hab. nia.
Qed.

Lemma StronglySorted_concat_fmap {A B} (RA : relation A) (RB : relation B)
    (g : A → list B) (l : list A) :
  StronglySorted RA l →
  (∀ a, a ∈ l → StronglySorted RB (g a)) →
  (∀ a a' b b', RA a a' → b ∈ g a → b' ∈ g a' → RB b b') →
  StronglySorted RB (concat (g <$> l)).
Proof.
  intros Hl Hg Hcross. induction Hl as [|a l Hl IH Hal]; [constructor|].
  cbn [fmap list_fmap concat]. apply StronglySorted_app. split; [|split].
  - intros b b' Hb (a' & Ha' & Hb')%elem_of_concat_fmap.
    apply (Hcross a a'); [|done..].
    by apply (proj1 (Forall_forall _ _) Hal).
  - apply Hg. by left.
  - apply IH. intros a' Ha'. apply Hg. by right.
Qed.

(** X11.  The tiles of a delta come in row-major order: top to
    bottom, and left to right within a row of the grid. *)
Theorem changed_tiles_in_row_major_order (tp : TilePartitioner) (f : ScreenFrame)
    (last : ndarray) (d : DeltaFrame) :
  0 < _tile_size tp →
  _last_frame_np tp = Some last → shape last = shape (frame_np f) →
  (partition_and_detect_changes tp f).1 = Ok d →
  StronglySorted row_major (changed_tiles d).
Proof.
  intros Hts Hl Hs Hd.
  unfold partition_and_detect_changes, get_np_array in Hd.
  rewrite Hl, bool_decide_eq_true_2 in Hd by done. cbn [negb] in Hd.
  unfold scan_grid in Hd.
  destruct (py_range0_pos (frame_width f) (_tile_size tp) Hts) as (xs & Hxs & _).
  destruct (py_range0_pos (frame_height f) (_tile_size tp) Hts) as (ys & Hys & _).
  rewrite Hys in Hd. cbn [mbind result_bind] in Hd.
  rewrite (scan_rows_eq _ f last xs ys Hxs) in Hd. injection Hd as <-.
  cbn [changed_tiles].
  apply (StronglySorted_concat_fmap Z.lt); [by eapply py_range0_sorted | |].
  - intros y _. apply (StronglySorted_concat_fmap Z.lt); [by eapply py_range0_sorted | |].
    + intros x _. unfold detect_tile. repeat case_match; repeat constructor.
    + intros x x' t t' Hxx [Hx Hy]%detect_tile_pos [Hx' Hy']%detect_tile_pos.
      right. lia.
  - intros y y' t t' Hyy (x & _ & [_ Hy]%detect_tile_pos)%elem_of_concat_fmap
                         (x' & _ & [_ Hy']%detect_tile_pos)%elem_of_concat_fmap.
    left. lia.
Qed.

(** X11 at a concrete input: the four corners of a 3 × 3 frame changed; the
    tiles come as (0,0), (0,2), (2,0), (2,2), rows first. *)
Lemma changed_tiles_in_row_major_order_witness :
  ∃ d, (partition_and_detect_changes demo_partitioner
          {| frame_np := demo_array [[9; 0; 9]; [0; 0; 0]; [9; 0; 9]] |}).1 = Ok d ∧
       (λ t, (tile_y t, tile_x t)) <$> changed_tiles d = [(0, 0); (0, 2); (2, 0); (2, 2)] ∧
       StronglySorted row_major (changed_tiles d).
Proof.
  eexists. split; [reflexivity|]. split; [reflexivity|].
  apply (changed_tiles_in_row_major_order demo_partitioner
           {| frame_np := demo_array [[9; 0; 9]; [0; 0; 0]; [9; 0; 9]] |}
           (frame_np demo_prev)); reflexivity.
Defined.

(** ** More on the wire format *)

Lemma length_py_slice_nonneg {A} (l : list A) (s e : Z) :
  0 ≤ s ≤ e →
  Z.of_nat (length (py_slice l s e))
  = Z.min e (Z.of_nat (length l)) - Z.min s (Z.of_nat (length l)).
Proof.
  intros Hse. unfold py_slice, py_index.
  destruct (Z.ltb_spec s 0); [lia|]. destruct (Z.ltb_spec e 0); [lia|].
  rewrite length_take, length_drop. lia.
Qed.

Lemma struct_unpack_signed_short (n : nat) (bs : bytes) :
  length bs ≠ n → struct_unpack_signed n bs = Raise StructError.
Proof. intros Hne. unfold struct_unpack_signed. by rewrite bool_decide_eq_false_2. Qed.

Lemma struct_unpack_signed_Raise (n : nat) (bs : bytes) (e : exn) :
  struct_unpack_signed n bs = Raise e → e = StructError.
Proof. unfold struct_unpack_signed. case_bool_decide; congruence. Qed.

Lemma unpack_ii_Raise (bs : bytes) (e : exn) : unpack_ii bs = Raise e → e = StructError.
Proof.
  unfold unpack_ii, unpack_i. case_bool_decide; [|congruence].
  destruct (struct_unpack_signed 4 (take 4 bs)) eqn:E1; simpl;
    [|intros [= <-]; by eapply struct_unpack_signed_Raise].
  destruct (struct_unpack_signed 4 (take 4 (drop 4 bs))) eqn:E2; simpl;
    [done|intros [= <-]; by eapply struct_unpack_signed_Raise].
Qed.

Section WireLayout.
Context `{ImageCodec}.

Lemma encode_tile_entries_length enc tiles body :
  encode_tile_entries enc tiles = Ok body →
  Z.of_nat (length body) = tile_records_length enc tiles.
Proof.
  revert body. induction tiles as [|t tiles IH]; intros body Henc.
  - by injection Henc as <-.
  - cbn [encode_tile_entries] in Henc.
    apply result_bind_Ok in Henc
      as (part & (hdr & len & -> & Hlh & _ & Hll & _)%encode_tile_entry_Ok & Henc).
    apply result_bind_Ok in Henc as (parts & Hparts & [= <-]).
    cbn [tile_records_length foldr]. fold (tile_records_length enc tiles).
    rewrite <- (IH parts Hparts), !length_app. lia.
Qed.

(** X12.  The payload of a delta frame that is not a fallback
    starts with the tag [0x01], the timestamp in milliseconds and the
    number of tiles, and it is thirteen bytes of header followed by
    twenty bytes and the image data per tile. *)
Theorem encode_delta_layout (enc : WebPEncoder) (timestamp_ms : Z) (d : DeltaFrame) :
  full_frame_fallback d = false →
  in_signed 8 timestamp_ms → delta_fits enc d →
  ∃ payload,
    encode enc timestamp_ms d = Ok payload ∧
    payload_tag payload = Some Byte.x01 ∧
    payload_timestamp payload = Ok timestamp_ms ∧
    payload_num_tiles payload = Ok (Z.of_nat (length (changed_tiles d))) ∧
    Z.of_nat (length payload) = 13 + tile_records_length enc (changed_tiles d).
Proof.
  intros Hfb Hts [Hn Hfit].
  assert (Hq : pack_q timestamp_ms = Ok (pack_le 8 timestamp_ms))
    by by apply struct_pack_signed_fits.
  pose proof (unpack_pack_q _ _ Hq) as [Hlq Huq].
  assert (Hp0 : pack_i (Z.of_nat (length (changed_tiles d)))
                = Ok (pack_le 4 (Z.of_nat (length (changed_tiles d)))))
    by by apply struct_pack_signed_fits.
  pose proof (unpack_pack_i _ _ Hp0) as [Hl0 Hu0].
  destruct (encode_tile_entries_fits enc (changed_tiles d) Hfit) as [body Hbody].
  pose proof (encode_tile_entries_length enc _ _ Hbody) as Hlen.
  unfold encode. rewrite Hfb, Hq, bind_Ok, Hp0, bind_Ok, Hbody, bind_Ok.
  set (tsb := pack_le 8 timestamp_ms) in *.
  set (p0 := pack_le 4 (Z.of_nat (length (changed_tiles d)))) in *.
  clearbody tsb p0.
  eexists. split; [reflexivity|]. split; [reflexivity|].
  unfold payload_timestamp, payload_num_tiles. split; [|split].
  - rewrite (py_slice_mid _ [Byte.x01] tsb (p0 ++ body) 1 9);
      [done | done | done | lia].
  - rewrite (py_slice_mid _ (Byte.x01 :: tsb) p0 body 9 13);
      [done | by rewrite <- app_comm_cons | cbn [length]; lia | lia].
  - cbn [length]. rewrite !length_app. lia.
Qed.

Lemma decode_short_raises (data : bytes) :
  (length data < 12)%nat → decode data = Raise StructError.
Proof.
  unfold decode. intros Hlen.
  destruct (decide (length data < 8)%nat) as [H8|H8].
  - unfold unpack_q.
    rewrite (struct_unpack_signed_short 8 (py_slice data 0 (0 + 8))); [reflexivity|].
    pose proof (length_py_slice_nonneg data 0 (0 + 8)). lia.
  - destruct (unpack_q _) as [raw_ts|e] eqn:E;
      [|by apply struct_unpack_signed_Raise in E as ->].
    rewrite bind_Ok. unfold unpack_i.
    rewrite (struct_unpack_signed_short 4 (py_slice data (0 + 8) (0 + 8 + 4)));
      [reflexivity|].
    pose proof (length_py_slice_nonneg data (0 + 8) (0 + 8 + 4)). lia.
Qed.

Lemma decode_zero_tiles_short_raises (data : bytes) :
  (length data < 24)%nat → unpack_i (py_slice data 8 12) = Ok 0 →
  decode data = Raise StructError.
Proof.
  unfold decode. intros Hlen Hn.
  destruct (unpack_q _) as [raw_ts|e] eqn:E;
    [|by apply struct_unpack_signed_Raise in E as ->].
  rewrite bind_Ok.
  change (0 + 8 + 4) with 12. change (0 + 8) with 8. rewrite Hn, bind_Ok.
  change (0 =? 0) with true. cbv iota.
  destruct (decide (length data < 20)%nat) as [H20|H20].
  - unfold unpack_ii. rewrite bool_decide_eq_false_2; [reflexivity|].
    pose proof (length_py_slice_nonneg data 12 (12 + 8)). lia.
  - destruct (unpack_ii _) as [[w h]|e] eqn:E2;
      [|by apply unpack_ii_Raise in E2 as ->].
    rewrite bind_Ok. unfold unpack_i.
    rewrite (struct_unpack_signed_short 4 (py_slice data (12 + 8) (12 + 8 + 4)));
      [reflexivity|].
    pose proof (length_py_slice_nonneg data (12 + 8) (12 + 8 + 4)). lia.
Qed.

(** X13.  A payload of fewer than twelve bytes, the empty one
    included, cannot be decoded: [decode] raises [struct.error]; so does
    a payload that announces zero tiles and has fewer than twenty-four
    bytes. *)
Theorem decode_short_payload_raises (data : bytes) :
  ((length data < 12)%nat → decode data = Raise StructError) ∧
  ((length data < 24)%nat → unpack_i (py_slice data 8 12) = Ok 0 →
     decode data = Raise StructError).
Proof.
  split; [apply decode_short_raises | apply decode_zero_tiles_short_raises].
Qed.

(** X14.  A delta frame without tiles is encoded as thirteen
    bytes with a zero tile count, which the decoder takes for the
    full-frame record: the Python client raises [struct.error] on it. *)
Theorem empty_delta_payload_is_not_decodable (enc : WebPEncoder) (timestamp_ms n : Z) :
  in_signed 8 timestamp_ms →
  ∃ payload,
    encode enc timestamp_ms (empty_delta n) = Ok payload ∧
    length payload = 13%nat ∧
    payload_num_tiles payload = Ok 0 ∧
    client_receive payload = Raise StructError.
Proof.
  intros Hts.
  assert (Hq : pack_q timestamp_ms = Ok (pack_le 8 timestamp_ms))
    by by apply struct_pack_signed_fits.
  pose proof (unpack_pack_q _ _ Hq) as [Hlq Huq].
  assert (Hp0 : pack_i 0 = Ok (pack_le 4 0))
    by by apply struct_pack_signed_fits, in_signed_0.
  pose proof (unpack_pack_i _ _ Hp0) as [Hl0 Hu0].
  unfold encode, empty_delta. cbn [full_frame_fallback changed_tiles length].
  change (Z.of_nat 0) with 0.
  rewrite Hq, bind_Ok, Hp0, bind_Ok. cbn [encode_tile_entries].
  set (tsb := pack_le 8 timestamp_ms) in *. set (p0 := pack_le 4 0) in *.
  clearbody tsb p0.
  eexists. split; [reflexivity|].
  assert (Hslice : py_slice (tsb ++ p0 ++ []) 8 12 = p0)
    by (apply py_slice_app_mid; lia).
  split; [|split].
  - cbn [length]. rewrite !length_app. cbn [length]. lia.
  - unfold payload_num_tiles.
    rewrite (py_slice_mid _ (Byte.x01 :: tsb) p0 [] 9 13);
      [done | by rewrite <- app_comm_cons | cbn [length]; lia | lia].
  - unfold client_receive. rewrite bool_decide_eq_true_2 by done.
    rewrite decode_zero_tiles_short_raises; [done | |].
    + rewrite !length_app. cbn [length]. lia.
    + by rewrite Hslice.
Qed.

Lemma decode_tiles_length (n : nat) : ∀ (data : bytes) (offset : Z) (tiles : list Tile),
  decode_tiles n data offset = Ok tiles → (length tiles ≤ n)%nat.
Proof.
  induction n as [|n IH]; intros data offset tiles Hdec.
  - injection Hdec as <-. done.
  - cbn [decode_tiles] in Hdec.
    apply result_bind_Ok in Hdec as ([[[x y] w] h] & _ & Hdec).
    apply result_bind_Ok in Hdec as (len & _ & Hdec).
    apply result_bind_Ok in Hdec as (rest & Hrest%IH & [= <-]).
    destruct (image_open _); cbn [length]; lia.
Qed.

(** X15.  Whatever bytes arrive, a frame that [decode] returns has
    frame number 0 and the timestamp field divided by 1000; it is a
    fallback frame exactly when the tile count field is 0, with at most
    one tile, placed at the origin; otherwise it has at most as many
    tiles as the field announces, a tile whose image does not open being
    dropped. *)
Theorem decoded_frame_shape (data : bytes) (d : DeltaFrame) (timestamp : Q) :
  decode data = Ok (d, timestamp) →
  ∃ raw_ts num_tiles,
    unpack_q (py_slice data 0 8) = Ok raw_ts ∧
    unpack_i (py_slice data 8 12) = Ok num_tiles ∧
    timestamp = (inject_Z raw_ts / 1000)%Q ∧
    frame_number d = 0 ∧
    full_frame_fallback d = (num_tiles =? 0) ∧
    if full_frame_fallback d
    then (length (changed_tiles d) ≤ 1)%nat ∧
         ∀ t, t ∈ changed_tiles d → tile_x t = 0 ∧ tile_y t = 0
    else (length (changed_tiles d) ≤ Z.to_nat num_tiles)%nat.
Proof.
  unfold decode. intros Hdec.
  apply result_bind_Ok in Hdec as (raw_ts & Hts & Hdec).
  apply result_bind_Ok in Hdec as (num_tiles & Hn & Hdec).
  exists raw_ts, num_tiles. split; [done|]. split; [done|].
  destruct (num_tiles =? 0).
  - apply result_bind_Ok in Hdec as ([w h] & _ & Hdec).
    apply result_bind_Ok in Hdec as (len & _ & [= <- <-]).
    cbn [frame_number full_frame_fallback changed_tiles].
    split; [done|]. split; [done|]. split; [done|].
    destruct (image_open _); cbn [length]; (split; [lia|]).
    + intros t' ->%list_elem_of_singleton. done.
    + intros t' ?%elem_of_nil. done.
  - apply result_bind_Ok in Hdec as (tiles & Hlen%decode_tiles_length & [= <- <-]).
    cbn [frame_number full_frame_fallback changed_tiles]. done.
Qed.

End WireLayout.

(** X14 at a concrete input. *)
Lemma empty_delta_payload_is_not_decodable_witness :
  ∃ payload,
    @encode raw_codec (default_encoder 70) demo_timestamp_ms (empty_delta 8) = Ok payload ∧
    length payload = 13%nat ∧
    @client_receive raw_codec payload = Raise StructError.
Proof.
  destruct (@empty_delta_payload_is_not_decodable raw_codec (default_encoder 70)
              demo_timestamp_ms 8) as (payload & Henc & Hlen & _ & Hrecv).
  - vm_compute. split; [discriminate | reflexivity].
  - exists payload. done.
Defined.

(** X15 at a concrete input: the payload of the sample delta. *)
Lemma decoded_frame_shape_witness :
  ∃ d timestamp,
    @decode raw_codec demo_delta_payload = Ok (d, timestamp) ∧
    frame_number d = 0 ∧ full_frame_fallback d = false.
Proof.
  assert (Hd : ∃ d timestamp, @decode raw_codec demo_delta_payload = Ok (d, timestamp))
    by (vm_compute; eexists _, _; reflexivity).
  destruct Hd as (d & timestamp & Hd). exists d, timestamp. split; [exact Hd|].
  destruct (@decoded_frame_shape raw_codec _ _ _ Hd)
    as (raw_ts & num_tiles & _ & Hn & _ & Hnum & Hfb & _).
  split; [exact Hnum|]. rewrite Hfb. vm_compute in Hn. injection Hn as <-. reflexivity.
Defined.

(** X12 at a concrete input: the one-tile sample delta takes 13 + 20 + 3 bytes. *)
Lemma encode_delta_layout_witness :
  ∃ payload,
    @encode raw_codec (default_encoder 70) demo_timestamp_ms demo_delta = Ok payload ∧
    payload_tag payload = Some Byte.x01 ∧
    payload_num_tiles payload = Ok 1 ∧
    Z.of_nat (length payload) = 13 + 20 + 3.
Proof.
  destruct (@encode_delta_layout raw_codec (default_encoder 70) demo_timestamp_ms demo_delta)
    as (payload & Henc & Htag & _ & Hnum & Hlen).
  - reflexivity.
  - solve_in_signed.
  - split; [solve_in_signed|].
    constructor; [|constructor]. repeat split; vm_compute; discriminate || reflexivity.
  - exists payload. split; [exact Henc|]. split; [exact Htag|].
    split; [exact Hnum | exact Hlen].
Defined.

(** ** The capture-to-payload pipeline *)

Section Pipeline.
Context `{ImageCodec}.

(** What [encode] returns is empty or starts with the tag and the packed
    timestamp. *)
Lemma encode_Ok_shape enc timestamp_ms d payload :
  encode enc timestamp_ms d = Ok payload →
  payload = [] ∨
  ∃ tsb rest, pack_q timestamp_ms = Ok tsb ∧ payload = Byte.x01 :: tsb ++ rest.
Proof.
  unfold encode. intros Henc.
  apply result_bind_Ok in Henc as (tsb & Htsb & Henc).
  destruct (full_frame_fallback d).
  - destruct (_ || _); [left; by injection Henc as <-|].
    destruct (changed_tiles d !! 0%nat) as [t|]; [|done].
    apply result_bind_Ok in Henc as (p0 & _ & Henc).
    apply result_bind_Ok in Henc as (p1 & _ & Henc).
    apply result_bind_Ok in Henc as (p2 & _ & [= <-]).
    right. by eexists _, _.
  - apply result_bind_Ok in Henc as (p0 & _ & Henc).
    apply result_bind_Ok in Henc as (parts & _ & [= <-]).
    right. by eexists _, _.
Qed.

Lemma unpack_q_slice_length (payload : bytes) (z : Z) :
  unpack_q (py_slice payload 1 9) = Ok z → (9 ≤ length payload)%nat.
Proof.
  unfold unpack_q, struct_unpack_signed. case_bool_decide as Hlen; [|done]. intros _.
  pose proof (length_py_slice_nonneg payload 1 9). lia.
Qed.

(** A payload the legacy path returns carries the tag and the clock
    reading. *)
Lemma legacy_path_payload e force_full grab timestamp_ms payload e' :
  legacy_path e force_full grab timestamp_ms = (Ok (Some payload), e') →
  (9 ≤ length payload)%nat ∧
  payload_tag payload = Some Byte.x01 ∧ payload_timestamp payload = Ok timestamp_ms.
Proof.
  unfold legacy_path. destruct grab as [frame|]; [|done].
  destruct (if force_full then _ else _) as [[delta_frame|] partitioner']; [|done].
  destruct (_ || _); [|done].
  destruct (encode _ _ _) as [p|] eqn:Henc; [|done].
  destruct (unpack_q _) as [z|] eqn:Hts; [|done]. intros [= <- <-].
  split; [by eapply unpack_q_slice_length|].
  apply encode_Ok_shape in Henc as [-> | (tsb & rest & Htsb & ->)]; [done|].
  split; [done|]. unfold payload_timestamp.
  apply unpack_pack_q in Htsb as [Hlen Hunpack].
  rewrite (py_slice_mid _ [Byte.x01] tsb rest 1 9); [done | done | done | lia].
Qed.

(** X16.  A payload that [get_next_payload] returns has at
    least nine bytes, so the broadcast loop never sends a payload without
    the timestamp field; on the portable backend it starts with the tag
    [0x01] followed by the encoder's clock reading. *)
Theorem next_payload_carries_timestamp (e : StreamEngine) (force_full : bool)
    (native : result (option bytes)) (grab : result ScreenFrame) (timestamp_ms : Z)
    (payload : bytes) (e' : StreamEngine) :
  get_next_payload e force_full native grab timestamp_ms = (Ok (Some payload), e') →
  (9 ≤ length payload)%nat ∧
  (capture e = MSSCapture →
     payload_tag payload = Some Byte.x01 ∧ payload_timestamp payload = Ok timestamp_ms).
Proof.
  unfold get_next_payload. intros Hget. destruct (capture e).
  - split; [|done].
    destruct native as [[p|]|]; cbn [truthy] in Hget.
    + destruct p as [|b p]; [done|]. cbn [default] in Hget.
      destruct (unpack_q _) eqn:Hts.
      * injection Hget as <- <-. by eapply unpack_q_slice_length.
      * by apply legacy_path_payload in Hget as [? _].
    + done.
    + by apply legacy_path_payload in Hget as [? _].
  - apply legacy_path_payload in Hget as (? & ? & ?). done.
Qed.

(** X17.  On the portable backend, a grabbed frame equal to the
    partitioner's reference frame produces no payload: the call returns
    [None], having recorded the frame and consumed a frame number. *)
Theorem unchanged_frame_sends_nothing (e : StreamEngine) (f : ScreenFrame)
    (native : result (option bytes)) (timestamp_ms : Z) :
  capture e = MSSCapture →
  0 < _tile_size (partitioner e) → nd_wf (frame_np f) →
  _last_frame_np (partitioner e) = Some (frame_np f) →
  ∃ e', get_next_payload e false native (Ok f) timestamp_ms = (Ok None, e') ∧
        last_frame e' = Some f ∧
        _last_frame_np (partitioner e') = Some (frame_np f) ∧
        _frame_number (partitioner e') = _frame_number (partitioner e) + 1.
Proof.
  intros Hcap Hts Hwf Hlast. unfold get_next_payload, legacy_path. rewrite Hcap.
  cbn [with_last_frame partitioner].
  destruct (scan_grid_spec (_tile_size (partitioner e)) f (frame_np f) Hts Hwf Hwf eq_refl)
    as (tiles & Hscan & _ & Htiles).
  assert (tiles = []) as ->.
  { apply elem_of_nil_inv. intros t (_ & _ & (r & c & _ & _ & Hne))%Htiles. done. }
  unfold partition_and_detect_changes, get_np_array.
  rewrite Hlast, bool_decide_eq_true_2 by done. cbn [negb]. rewrite Hscan.
  cbn [changed_tiles full_frame_fallback].
  rewrite bool_decide_eq_true_2 by done. cbn [negb orb].
  eexists. split; [reflexivity|]. done.
Qed.
End Pipeline.

(** X16 at a concrete input: the portable engine on the sample frames. *)
Lemma next_payload_carries_timestamp_witness :
  ∃ payload e',
    @get_next_payload raw_codec
      (with_partitioner demo_engine demo_partitioner) false (Raise TimeoutError)
      (Ok demo_next) demo_timestamp_ms = (Ok (Some payload), e') ∧
    (9 ≤ length payload)%nat ∧ payload_timestamp payload = Ok demo_timestamp_ms.
Proof.
  assert (Hget : ∃ payload e',
    @get_next_payload raw_codec
      (with_partitioner demo_engine demo_partitioner) false (Raise TimeoutError)
      (Ok demo_next) demo_timestamp_ms = (Ok (Some payload), e'))
    by (vm_compute; eexists _, _; reflexivity).
  destruct Hget as (payload & e' & Hget). exists payload, e'. split; [exact Hget|].
  destruct (@next_payload_carries_timestamp raw_codec _ _ _ _ _ _ _ Hget) as [Hlen Hts].
  split; [exact Hlen|]. exact (proj2 (Hts eq_refl)).
Defined.

(** X17 at a concrete input: the reference frame grabbed again. *)
Lemma unchanged_frame_sends_nothing_witness :
  ∃ e', @get_next_payload raw_codec
          (with_partitioner demo_engine demo_partitioner) false (Raise TimeoutError)
          (Ok demo_prev) demo_timestamp_ms = (Ok None, e') ∧
        _frame_number (partitioner e') = 8.
Proof.
  destruct (@unchanged_frame_sends_nothing raw_codec
              (with_partitioner demo_engine demo_partitioner) demo_prev
              (Raise TimeoutError) demo_timestamp_ms)
    as (e' & Hget & _ & _ & Hnum).
  - reflexivity.
  - reflexivity.
  - vm_compute. repeat split; try discriminate; repeat constructor.
  - reflexivity.
  - exists e'. split; [exact Hget | exact Hnum].
Defined.

(** ** Audio frames *)

Lemma pack_BI_Ok (a b : Z) (header : bytes) :
  pack_BI a b = Ok header →
  0 ≤ b < 2 ^ 32 ∧ header = byte_of_Z a :: pack_le 4 b.
Proof.
  unfold pack_BI. intros Hp.
  apply result_bind_Ok in Hp as (pa & Ha & Hp).
  apply result_bind_Ok in Hp as (pb & Hb & [= <-]).
  unfold struct_pack_unsigned in Ha, Hb.
  destruct (_ && _) in Ha; [|done]. injection Ha as <-.
  destruct (Z.leb_spec 0 b); [|done].
  destruct (Z.ltb_spec b (2 ^ (8 * Z.of_nat 4))); [|done].
  injection Hb as <-. split; [|done].
  change (8 * Z.of_nat 4) with 32 in *. lia.
Qed.

(** X18.  An audio payload that [get_audio_payload] returns is
    framed: the type byte [0x05], the length of the chunk as four
    little-endian bytes, then the chunk itself, which is not empty. *)
Theorem audio_payload_is_framed (tier : option string) (audio : option VeloxAudio)
    (payload : bytes) :
  get_audio_payload tier audio = Some payload →
  ∃ size packet,
    payload = Byte.x05 :: size ++ packet ∧
    length size = 4%nat ∧
    unpack_le size = Z.of_nat (length packet) ∧
    packet ≠ [].
Proof.
  unfold get_audio_payload. destruct audio as [audio|]; [|done].
  destruct (if _ && _ then _ else _) as [[[|b packet]|]|]; cbn [truthy]; try done.
  cbn [default].
  destruct (pack_BI _ _) as [header|] eqn:Hh; [|done]. intros [= <-].
  apply pack_BI_Ok in Hh as [Hlen ->].
  exists (pack_le 4 (Z.of_nat (length (b :: packet)))), (b :: packet).
  split; [done|]. split; [apply length_pack_le|]. split; [|done].
  rewrite unpack_pack_le. apply Z.mod_small. exact Hlen.
Qed.

(** X18 at a concrete input: a chunk of three bytes. *)
Lemma audio_payload_is_framed_witness :
  get_audio_payload (Some "warp"%string) (Some demo_audio)
  = Some [Byte.x05; Byte.x03; Byte.x00; Byte.x00; Byte.x00; Byte.x10; Byte.x20; Byte.x30] ∧
  ∃ size packet,
    [Byte.x05; Byte.x03; Byte.x00; Byte.x00; Byte.x00; Byte.x10; Byte.x20; Byte.x30]
      = Byte.x05 :: size ++ packet ∧
    unpack_le size = Z.of_nat (length packet).
Proof.
  split; [reflexivity|].
  destruct (audio_payload_is_framed (Some "warp"%string) (Some demo_audio) _ eq_refl)
    as (size & packet & Heq & _ & Hlen & _).
  exists size, packet. split; [exact Heq | exact Hlen].
Defined.

(** ** Telemetry applied to the engine *)

(** X19.  After a [CLIENT_STATS] message the engine of the slot is in
    step with its governor: the encoder's quality is the governor's, inside
    the band of the mode; the engine's and the partitioner's tile size are
    the governor's, one of 128, 256 and 512, so the scan of the partitioner
    cannot raise; the frame rate is 10 or 20. *)
Theorem client_stats_keep_engine_in_step (ed : Slot) (data : ClientStats) (now : Q) :
  governor_reachable (governor ed) → gov_tier (governor ed) = "AIR"%string →
  let ed' := (on_client_stats ed data now).1 in
  let frame_rate := (on_client_stats ed data now).2 in
  enc_quality (encoder (slot_engine ed')) = get_quality (governor ed') ∧
  (min_quality (governor ed') ≤ enc_quality (encoder (slot_engine ed'))
     ≤ max_quality (governor ed')) ∧
  eng_tile_size (slot_engine ed') = get_tile_size (governor ed') ∧
  _tile_size (partitioner (slot_engine ed')) = get_tile_size (governor ed') ∧
  0 < _tile_size (partitioner (slot_engine ed')) ∧
  (frame_rate = 10 ∨ frame_rate = 20) ∧
  clients ed' = clients ed.
Proof.
  intros Hr Htier ed' frame_rate.
  assert (Hr' : governor_reachable (update (governor ed) data now))
    by by apply reachable_update.
  apply governor_reachable_inv in Hr' as (_ & _ & Hm & Hlo & Hhi & Hts & _ & Hair & _).
  subst ed' frame_rate. unfold on_client_stats.
  cbn [fst snd slot_engine governor clients set_engine_tile_size set_encoder_quality
       encoder enc_quality eng_tile_size partitioner set_tile_size _tile_size].
  split; [done|].
  assert (0 ≤ min_quality (update (governor ed) data now)) as H0
    by (apply elem_of_list_3 in Hm as [Hc|[Hc|Hc]]; injection Hc as Ha _; rewrite Ha; lia).
  split; [by apply trunc_between|].
  split; [done|]. split; [done|].
  split.
  - unfold get_tile_size. apply elem_of_list_3 in Hts as [->|[->| ->]]; lia.
  - split; [|done]. apply Hair.
    unfold update. destruct (Qltb _ _); [done|]. by destruct (update_pressures data).
Qed.

(** X19 at a concrete input: heavy telemetry on a fresh slot. *)
Lemma client_stats_keep_engine_in_step_witness :
  enc_quality (encoder (slot_engine (on_client_stats demo_slot heavy_stats 1).1)) = 50 ∧
  _tile_size (partitioner (slot_engine (on_client_stats demo_slot heavy_stats 1).1)) = 512 ∧
  0 < _tile_size (partitioner (slot_engine (on_client_stats demo_slot heavy_stats 1).1)).
Proof.
  split; [reflexivity|]. split; [reflexivity|].
  apply (client_stats_keep_engine_in_step demo_slot heavy_stats 1).
  - apply reachable_init.
  - reflexivity.
Defined.

(** ** Leaving, reusing and switching engines *)

(** X20.  When a connection ends, its socket is in the viewer set of
    no engine and is no dashboard; every other socket stays where it was,
    and the in-flight-send map is not touched. *)
Theorem disconnect_removes_socket_everywhere (st : Server) (websocket : Viewer) :
  let st' := _ws_handler_finally st websocket in
  dom (engines st') = dom (engines st) ∧
  (∀ mid slot, engines st' !! mid = Some slot → websocket ∉ clients slot) ∧
  (websocket ∉ _dashboards st') ∧
  (∀ mid slot ws, ws ≠ websocket → engines st !! mid = Some slot →
     ∃ slot', engines st' !! mid = Some slot' ∧ (ws ∈ clients slot' ↔ ws ∈ clients slot)) ∧
  (∀ ws, ws ≠ websocket → ws ∈ _dashboards st' ↔ ws ∈ _dashboards st) ∧
  _clients_sending st' = _clients_sending st.
Proof.
  unfold _ws_handler_finally. cbn. split; [apply dom_fmap_L|]. split; [|split; [|split]].
  - intros mid slot. rewrite lookup_fmap.
    destruct (engines st !! mid) as [s|]; [|done]. intros [= <-]. cbn. clear. set_solver.
  - clear. set_solver.
  - intros mid slot ws Hne Hs. rewrite lookup_fmap, Hs. cbn.
    eexists. split; [reflexivity|]. cbn. clear -Hne. set_solver.
  - split; [|done]. intros ws Hne. clear -Hne. set_solver.
Qed.

Lemma get_or_create_engine_dom env st m fc slot st' :
  get_or_create_engine env st m fc = (Returned slot, st') →
  dom (engines st') = {[m]} ∪ dom (engines st) ∧ config st' = config st.
Proof.
  unfold get_or_create_engine.
  generalize (if negb fc && in_cool_down st m then true else fc). intros fc'.
  assert (Hbuild : ∀ st0 cfg,
            build_engine env st0 m fc' cfg = (Returned slot, st') →
            dom (engines st') = {[m]} ∪ dom (engines st0) ∧ config st' = config st0).
  { intros st0 cfg. unfold build_engine.
    destruct (StreamEngine_new env cfg) as [engine|]; [|by destruct fc'].
    destruct (_ && _); intros [= _ <-]; cbn; by rewrite dom_insert_L. }
  destruct (engines st !! m) as [existing|] eqn:E.
  - destruct fc'.
    + intros [Hd Hc]%Hbuild. cbn in Hd, Hc. split; [|done].
      rewrite Hd, dom_delete_L. apply elem_of_dom_2 in E.
      apply set_eq. intros k. rewrite !elem_of_union, elem_of_difference, !elem_of_singleton.
      destruct (decide (k = m)); naive_solver.
    + intros [= <- <-]. split; [|done]. apply elem_of_dom_2 in E. clear -E. set_solver.
  - intros [Hd Hc]%Hbuild. done.
Qed.

(** X21.  An engine is created once: when the native backend
    answers and the monitor is not blacklisted, a second
    [get_or_create_engine] returns the slot the first one registered and
    leaves the server as it was. *)
Theorem engine_is_created_once (env : DriverEnv) (st : Server) (monitor_id : Z) :
  native_ok env = true → _backend_blacklist st !! monitor_id = None →
  ∃ slot st1,
    get_or_create_engine env st monitor_id false = (Returned slot, st1) ∧
    engines st1 !! monitor_id = Some slot ∧
    get_or_create_engine env st1 monitor_id false = (Returned slot, st1).
Proof.
  intros Hnat Hbl.
  assert (Hcool : in_cool_down st monitor_id = false)
    by (unfold in_cool_down; by rewrite Hbl).
  assert (Hagain : ∀ slot st1, engines st1 !! monitor_id = Some slot →
            _backend_blacklist st1 !! monitor_id = None →
            get_or_create_engine env st1 monitor_id false = (Returned slot, st1)).
  { intros slot st1 Hs Hb. unfold get_or_create_engine, in_cool_down.
    rewrite Hb, Hs. done. }
  destruct (engines st !! monitor_id) as [existing|] eqn:E.
  - exists existing, st. split; [by apply Hagain|]. split; [done | by apply Hagain].
  - unfold get_or_create_engine at 1. rewrite Hcool, E. cbn [negb andb].
    match goal with |- context [build_engine env st monitor_id false ?cfg] =>
      destruct (build_engine_returns env st monitor_id false cfg (or_introl Hnat))
        as (slot & st1 & Hb & _ & _ & _ & _ & He & _ & Hbl1)
    end.
    exists slot, st1. split; [done|].
    assert (Hs : engines st1 !! monitor_id = Some slot)
      by (rewrite He; apply lookup_insert_eq).
    split; [done|]. apply Hagain; [done|].
    rewrite Hbl1, Hnat. cbn. by rewrite andb_false_r.
Qed.

(** X21 at a concrete input: a fresh server on a host with the native core. *)
Lemma engine_is_created_once_witness :
  ∃ slot st1,
    get_or_create_engine native_env (new_server demo_config 0) 0 false = (Returned slot, st1) ∧
    get_or_create_engine native_env st1 0 false = (Returned slot, st1).
Proof.
  destruct (engine_is_created_once native_env (new_server demo_config 0) 0)
    as (slot & st1 & H1 & _ & H2).
  - reflexivity.
  - reflexivity.
  - exists slot, st1. split; [exact H1 | exact H2].
Defined.

Lemma collect_clients_loop_dom mids : ∀ acc,
  dom (engines (foldl collect_clients_of acc mids).2) = dom (engines acc.2) ∧
  config (foldl collect_clients_of acc mids).2 = config acc.2.
Proof.
  induction mids as [|m mids IH]; intros acc; [done|]. cbn [foldl].
  destruct (IH (collect_clients_of acc m)) as [-> ->].
  unfold collect_clients_of. destruct (engines acc.2 !! m) as [ed|] eqn:E; [|done].
  cbn. split; [|done]. rewrite dom_insert_L. apply elem_of_dom_2 in E. clear -E. set_solver.
Qed.

Lemma stop_other_engines_dom new_mon mids : ∀ st,
  dom (engines (foldl (stop_other_engine new_mon) st mids))
    = dom (engines st) ∖ (list_to_set mids ∖ {[new_mon]}) ∧
  config (foldl (stop_other_engine new_mon) st mids) = config st.
Proof.
  induction mids as [|m mids IH]; intros st.
  - cbn. split; [|done]. clear. set_solver.
  - cbn [foldl]. destruct (IH (stop_other_engine new_mon st m)) as [-> ->].
    unfold stop_other_engine, stop_engine_of. case_bool_decide as Hm.
    + destruct (engines st !! m) as [ed|] eqn:E; cbn.
      * split; [|done]. rewrite dom_delete_L. clear -Hm. set_solver.
      * split; [|done]. apply not_elem_of_dom in E. clear -Hm E. set_solver.
    + split; [|done]. subst m. clear. set_solver.
Qed.

(** X22.  After a monitor switch the registry holds the engine of
    the target monitor and no other, the configuration names the target
    monitor, and every socket that was a viewer of any engine has been
    sent the [VERSION] record of the target monitor and is a viewer of the
    target's engine. *)
Theorem switch_leaves_one_engine (env : DriverEnv) (st : Server) (new_mon : Z) :
  native_ok env = true ∨ mss_ok env = true →
  ∃ sent st' slot,
    _perform_switch env st new_mon = (sent, Returned (), st') ∧
    dom (engines st') = {[new_mon]} ∧
    engines st' !! new_mon = Some slot ∧
    cfg_monitor_id (config st') = Some new_mon ∧
    ∀ mid old ws, engines st !! mid = Some old → ws ∈ clients old →
      ws ∈ clients slot ∧ (ws, VERSION None new_mon "AIR" None) ∈ sent.
Proof.
  intros Henv. unfold _perform_switch.
  destruct (collect_clients_loop (engine_keys st) (∅, st)) as [_ Hall];
    [unfold engine_keys; apply NoDup_elements|].
  destruct (collect_clients_loop_dom (engine_keys st) (∅, st)) as [Hd1 Hc1].
  destruct (foldl collect_clients_of (∅, st) (engine_keys st)) as [all st1].
  cbn [fst snd] in *.
  destruct (stop_other_engines_dom new_mon (engine_keys st1) st1) as [Hd2 Hc2].
  set (st2 := foldl (stop_other_engine new_mon) st1 (engine_keys st1)) in *.
  match goal with |- context [get_or_create_engine env ?s new_mon false] =>
    destruct (get_or_create_engine_returns env s new_mon false Henv)
      as (slot & st' & Hget & _);
    destruct (get_or_create_engine_dom env s new_mon false slot st' Hget) as [Hd3 Hc3]
  end.
  rewrite Hget. eexists _, _, _. split; [reflexivity|].
  cbn [engines with_engines config with_config] in *.
  split; [|split; [|split; [|]]].
  - rewrite dom_insert_L, Hd3, Hd2. unfold engine_keys.
    apply set_eq. intros k.
    rewrite !elem_of_union, elem_of_difference, elem_of_difference,
      elem_of_list_to_set, elem_of_elements, !elem_of_singleton.
    destruct (decide (k = new_mon)); naive_solver.
  - apply lookup_insert_eq.
  - by rewrite Hc3.
  - intros mid old ws Hold Hws.
    assert (ws ∈ all) as Hin.
    { apply (Hall mid old ws); [|done..].
      unfold engine_keys. apply elem_of_elements. by apply elem_of_dom_2 in Hold. }
    split.
    + cbn [clients]. apply elem_of_union. by left.
    + apply list_elem_of_fmap. exists ws. split; [done|]. by apply elem_of_elements.
Qed.

(** X22 at a concrete input: one viewer on monitor 0, switch to monitor 1. *)
Lemma switch_leaves_one_engine_witness :
  ∃ sent st',
    _perform_switch portable_env demo_joined 1 = (sent, Returned (), st') ∧
    dom (engines st') = {[1]} ∧ cfg_monitor_id (config st') = Some 1.
Proof.
  destruct (switch_leaves_one_engine portable_env demo_joined 1)
    as (sent & st' & slot & Hsw & Hdom & _ & Hcfg & _).
  - right. reflexivity.
  - exists sent, st'. split; [exact Hsw|]. split; [exact Hdom | exact Hcfg].
Defined.

(** ** The jitter buffer *)

Lemma StronglySorted_lookup_le {A} (R : relation A) (l : list A) (i j : nat) (a b : A) :
  StronglySorted R l → (i < j)%nat → l !! i = Some a → l !! j = Some b → R a b.
Proof.
  intros Hs. revert i j. induction Hs as [|x l Hs IH Hx]; intros i j Hij Ha Hb; [done|].
  destruct i as [|i], j as [|j]; try lia; simpl in *.
  - injection Ha as <-. apply (proj1 (Forall_forall _ _) Hx). by eapply list_elem_of_lookup_2.
  - apply (IH i j); [lia | done | done].
Qed.

(** The binary search finds the insertion point of a sorted list: what
    is before it is smaller than [x], what is from it on is not. *)
Lemma bisect_left_loop_spec (a : list Q) (x : Q) :
  StronglySorted Qle a →
  ∀ turns lo hi,
    (lo ≤ hi ≤ length a)%nat → (hi - lo ≤ turns)%nat →
    (∀ j v, (j < lo)%nat → a !! j = Some v → (v < x)%Q) →
    (∀ j v, (hi ≤ j)%nat → a !! j = Some v → (x <= v)%Q) →
    let i := bisect_left_loop turns a x lo hi in
    (i ≤ length a)%nat ∧
    (∀ j v, (j < i)%nat → a !! j = Some v → (v < x)%Q) ∧
    (∀ j v, (i ≤ j)%nat → a !! j = Some v → (x <= v)%Q).
Proof.
  intros Hs. induction turns as [|turns IH]; intros lo hi Hlh Ht Hlo Hhi.
  - assert (lo = hi) as -> by lia. simpl. split; [lia|]. done.
  - cbn [bisect_left_loop]. destruct (Nat.ltb_spec lo hi) as [Hlt|Hge].
    + set (mid := ((lo + hi) / 2)%nat).
      assert (lo ≤ mid < hi)%nat as Hmid.
      { unfold mid. split.
        - apply Nat.div_le_lower_bound; lia.
        - apply Nat.Div0.div_lt_upper_bound; lia. }
      destruct (lookup_lt_is_Some_2 a mid) as [v Hv]; [lia|]. rewrite Hv.
      destruct (Qltb v x) eqn:Hvx.
      * apply Qltb_lt in Hvx. apply IH; [lia | lia | | done].
        intros j w Hj Hw. destruct (decide (j = mid)) as [->|Hne].
        -- by simplify_eq.
        -- assert (w <= v)%Q
             by (apply (StronglySorted_lookup_le Qle a j mid); [done | lia | done | done]).
           lra.
      * apply Qltb_ge in Hvx. apply IH; [lia | lia | done |].
        intros j w Hj Hw. destruct (decide (j = mid)) as [->|Hne].
        -- by simplify_eq.
        -- assert (v <= w)%Q
             by (apply (StronglySorted_lookup_le Qle a mid j); [done | lia | done | done]).
           lra.
    + assert (lo = hi) as -> by lia. split; [lia|]. done.
Qed.

Lemma bisect_left_spec (a : list Q) (x : Q) :
  StronglySorted Qle a →
  (bisect_left a x ≤ length a)%nat ∧
  (∀ j v, (j < bisect_left a x)%nat → a !! j = Some v → (v < x)%Q) ∧
  (∀ j v, (bisect_left a x ≤ j)%nat → a !! j = Some v → (x <= v)%Q).
Proof.
  intros Hs. unfold bisect_left. apply bisect_left_loop_spec; [done | lia | lia | |].
  - intros j v Hj. lia.
  - intros j v Hj Hv. apply lookup_lt_Some in Hv. lia.
Qed.

Section JitterBuffer.
Context {A : Type}.
Implicit Types (b : JitterBuffer A) (frames : list (Q * A)).

Lemma in_timestamp_order_fst frames :
  in_timestamp_order frames → StronglySorted Qle (fst <$> frames).
Proof. intros Hs. by apply (StronglySorted_fmap _ (λ f1 f2 : Q * A, (f1.1 <= f2.1)%Q)). Qed.

Lemma in_timestamp_order_tail frames :
  in_timestamp_order frames → in_timestamp_order (tail frames).
Proof. intros Hs. destruct Hs; [constructor | done]. Qed.

(** Inserting at the point of [bisect_left] keeps the order. *)
Lemma insert_in_timestamp_order frames (timestamp : Q) (frame_data : A) :
  in_timestamp_order frames →
  in_timestamp_order
    (deque_insert frames (bisect_left (fst <$> frames) timestamp) (timestamp, frame_data)).
Proof.
  intros Hs. pose proof (in_timestamp_order_fst _ Hs) as Hs'.
  destruct (bisect_left_spec _ timestamp Hs') as (Hlen & Hbefore & Hafter).
  set (i := bisect_left (fst <$> frames) timestamp) in *.
  unfold deque_insert, in_timestamp_order.
  rewrite <- (take_drop i frames) in Hs. apply StronglySorted_app in Hs as (Hcross & Hl & Hr).
  apply StronglySorted_app. split; [|split; [done|]].
  - intros f1 f2 Hf1 [->|Hf2]%elem_of_cons; [|by apply Hcross].
    apply list_elem_of_lookup in Hf1 as [j Hj].
    apply lookup_take_Some in Hj as [Hj Hji]. cbn.
    apply Qlt_le_weak, (Hbefore j); [done|]. by rewrite list_lookup_fmap, Hj.
  - constructor; [done|]. apply Forall_forall. intros f Hf.
    apply list_elem_of_lookup in Hf as [j Hj]. rewrite lookup_drop in Hj. cbn.
    apply (Hafter (i + j)%nat); [lia|]. by rewrite list_lookup_fmap, Hj.
Qed.

Lemma length_deque_insert frames (i : nat) (f : Q * A) :
  length (deque_insert frames i f) = S (length frames).
Proof.
  unfold deque_insert. rewrite length_app. cbn [length].
  rewrite length_take, length_drop. lia.
Qed.

Lemma deque_insert_Permutation frames (i : nat) (f : Q * A) :
  deque_insert frames i f ≡ₚ f :: frames.
Proof.
  unfold deque_insert. rewrite <- Permutation_middle. by rewrite take_drop.
Qed.

(** X23.  [add_frame] keeps the buffer in the order of the
    timestamps, and a buffer of at most [max_frames + 2] frames stays
    within that bound. *)
Theorem add_frame_keeps_order_and_bound b (frame_data : A) (timestamp now : Q) :
  in_timestamp_order (_frames b) →
  in_timestamp_order (_frames (add_frame b frame_data timestamp now)) ∧
  (Z.of_nat (length (_frames b)) ≤ _max_frames b + 2 →
   Z.of_nat (length (_frames (add_frame b frame_data timestamp now))) ≤ _max_frames b + 2) ∧
  _max_frames (add_frame b frame_data timestamp now) = _max_frames b.
Proof.
  intros Hs. unfold add_frame. cbn [_frames _max_frames].
  pose proof (insert_in_timestamp_order _ timestamp frame_data Hs) as Hins.
  pose proof (length_deque_insert (_frames b)
                (bisect_left (fst <$> _frames b) timestamp) (timestamp, frame_data)) as Hlen.
  destruct (Z.ltb_spec (_max_frames b + 2)
              (Z.of_nat (length (deque_insert (_frames b)
                                   (bisect_left (fst <$> _frames b) timestamp)
                                   (timestamp, frame_data))))) as [Hover|Hfit].
  - split; [by apply in_timestamp_order_tail|]. split; [|done].
    intros Hb. destruct (deque_insert _ _ _); cbn [tail length] in *; lia.
  - split; [done|]. split; [|done]. intros _. lia.
Qed.

(** X24.  [add_frame] loses a frame only on overflow, and then
    it is the frame with the oldest timestamp, which may be the frame
    just added. *)
Theorem add_frame_drops_only_the_oldest b (frame_data : A) (timestamp now : Q) :
  in_timestamp_order (_frames b) →
  let frames' := _frames (add_frame b frame_data timestamp now) in
  if _max_frames b + 2 <? Z.of_nat (length (_frames b)) + 1
  then ∃ oldest, (timestamp, frame_data) :: _frames b ≡ₚ oldest :: frames' ∧
                 Forall (λ f, (oldest.1 <= f.1)%Q) frames'
  else (timestamp, frame_data) :: _frames b ≡ₚ frames'.
Proof.
  intros Hs frames'. subst frames'. unfold add_frame. cbn [_frames].
  pose proof (insert_in_timestamp_order _ timestamp frame_data Hs) as Hins.
  pose proof (deque_insert_Permutation (_frames b)
                (bisect_left (fst <$> _frames b) timestamp) (timestamp, frame_data)) as Hperm.
  rewrite length_deque_insert.
  replace (Z.of_nat (S (length (_frames b)))) with (Z.of_nat (length (_frames b)) + 1) by lia.
  destruct (_ <? _); [|done].
  destruct (deque_insert _ _ _) as [|oldest rest] eqn:E.
  - apply Permutation_nil_cons in Hperm. done.
  - exists oldest. split; [done|]. cbn [tail].
    by apply StronglySorted_cons in Hins as [? _].
Qed.

Lemma _adjust_buffer_size_frames b :
  _frames (_adjust_buffer_size b) = _frames b ∧
  _last_playback_time (_adjust_buffer_size b) = _last_playback_time b ∧
  _target_fps (_adjust_buffer_size b) = _target_fps b.
Proof. unfold _adjust_buffer_size. by repeat case_match. Qed.

(** X25.  [get_frame] never loses or reorders frames: it
    answers [None] on an empty buffer; when it releases a frame, that frame
    is the first of the buffer, no remaining frame is older, and the
    rest of the buffer is untouched; when it releases none, the buffer is
    untouched. *)
Theorem get_frame_releases_the_oldest b (current_time : Q) :
  in_timestamp_order (_frames b) →
  let r := get_frame b current_time in
  (_frames b = [] → r.1 = GotNone) ∧
  match r.1 with
  | GotFrame frame_tuple =>
      _frames b = frame_tuple :: _frames r.2 ∧
      Forall (λ f, (frame_tuple.1 <= f.1)%Q) (_frames r.2) ∧
      _last_playback_time r.2 = current_time ∧
      _last_played_frame_data r.2 = Some frame_tuple
  | GotNone => _frames r.2 = _frames b
  | RaisedZeroDivisionError => _frames r.2 = _frames b ∧ _target_fps b = 0
  end.
Proof.
  intros Hs r. subst r. unfold get_frame. cbv zeta.
  destruct (_adjust_buffer_size_frames b) as (Hf & Hl & Hfps).
  revert Hf Hl Hfps. generalize (_adjust_buffer_size b). intros b0 Hf Hl Hfps.
  rewrite <- Hf, <- Hfps in *.
  destruct (_frames b0) as [|frame_tuple rest] eqn:E; [done|].
  split; [done|].
  apply StronglySorted_cons in Hs as [Hrest _].
  unfold release.
  repeat case_match; simplify_eq/=; try done.
  all: try (split; [done|]; by apply Z.eqb_eq).
Qed.

(** X26.  After [clear] the next frame added is played at
    once, whatever the clock says. *)
Theorem first_frame_after_clear_plays_at_once b (frame_data : A)
    (timestamp now current_time : Q) :
  1 ≤ _max_frames b →
  (get_frame (add_frame (clear b) frame_data timestamp now) current_time).1
  = GotFrame (timestamp, frame_data).
Proof.
  intros Hmax. unfold get_frame, _adjust_buffer_size, add_frame, clear.
  cbn [_frames _arrival_times _max_frames _last_playback_time fmap list_fmap length].
  unfold bisect_left, deque_insert, append_maxlen. cbn.
  destruct (Z.ltb_spec (_max_frames b + 2) (Z.of_nat 1)); [lia|]. done.
Qed.
End JitterBuffer.

(** X23 at a concrete input: three frames arriving out of order. *)
Lemma add_frame_keeps_order_and_bound_witness :
  fst <$> _frames (add_frame (add_frame (add_frame client_jitter_buffer 1%nat 0.3 10)
                                2%nat 0.1 11) 3%nat 0.2 12)
  = [0.1; 0.2; 0.3]%Q ∧
  in_timestamp_order
    (_frames (add_frame (add_frame (add_frame client_jitter_buffer 1%nat 0.3 10)
                           2%nat 0.1 11) 3%nat 0.2 12)).
Proof.
  split; [reflexivity|].
  apply add_frame_keeps_order_and_bound, add_frame_keeps_order_and_bound,
    add_frame_keeps_order_and_bound.
  constructor.
Defined.

Lemma full_jitter_buffer_in_order : in_timestamp_order (_frames full_jitter_buffer).
Proof.
  unfold in_timestamp_order. vm_compute.
  repeat (constructor; [|repeat (constructor; [discriminate|]); constructor]).
  constructor.
Qed.

(** X24 at a concrete input: a late frame that is older than the three frames
    of a full buffer is dropped itself. *)
Lemma add_frame_drops_only_the_oldest_witness :
  _frames (add_frame full_jitter_buffer 4%nat 0.1 13) = _frames full_jitter_buffer ∧
  ∃ oldest,
    (0.1%Q, 4%nat) :: _frames full_jitter_buffer
      ≡ₚ oldest :: _frames (add_frame full_jitter_buffer 4%nat 0.1 13) ∧
    Forall (λ f, (oldest.1 <= f.1)%Q) (_frames (add_frame full_jitter_buffer 4%nat 0.1 13)).
Proof.
  split; [reflexivity|].
  exact (add_frame_drops_only_the_oldest full_jitter_buffer 4%nat 0.1 13
           full_jitter_buffer_in_order).
Defined.

(** X25 at a concrete input: a full buffer releases its oldest frame, an
    empty one answers [None]. *)
Lemma get_frame_releases_the_oldest_witness :
  (get_frame full_jitter_buffer 20).1 = GotFrame (0.2%Q, 1%nat) ∧
  (fst <$> _frames (get_frame full_jitter_buffer 20).2) = [0.3; 0.4]%Q ∧
  (@get_frame nat client_jitter_buffer 20).1 = GotNone.
Proof.
  split; [reflexivity|]. split; [reflexivity|].
  apply (get_frame_releases_the_oldest client_jitter_buffer 20); [constructor | reflexivity].
Defined.

(** X26 at a concrete input. *)
Lemma first_frame_after_clear_plays_at_once_witness :
  (get_frame (add_frame (clear full_jitter_buffer) 5%nat 0.9 30) 30).1
  = GotFrame (0.9%Q, 5%nat).
Proof.
  apply (first_frame_after_clear_plays_at_once full_jitter_buffer 5%nat 0.9 30 30).
  vm_compute. discriminate.
Defined.

(** ** From the captured frame to the client's screen *)

Section EndToEnd.
Context `{ImageCodec}.

(** With a codec that reads the images back, the tile records decode to
    the very tiles that were encoded. *)
Lemma decode_tiles_exact enc tiles : ∀ data pre body,
  Forall (reads_back enc) tiles →
  encode_tile_entries enc tiles = Ok body →
  data = pre ++ body →
  decode_tiles (length tiles) data (Z.of_nat (length pre)) = Ok tiles.
Proof.
  induction tiles as [|t tiles IH]; intros data pre body Hrb Henc Hdata; [done|].
  apply Forall_cons in Hrb as [Ht Hrb].
  cbn [encode_tile_entries] in Henc.
  apply result_bind_Ok in Henc
    as (part & (hdr & len & -> & Hlh & Hh & Hll & Hl)%encode_tile_entry_Ok & Henc).
  apply result_bind_Ok in Henc as (parts & Hparts & [= <-]).
  unfold reads_back in Ht.
  set (img := _encode_tile enc t) in *.
  pose proof (IH data (pre ++ hdr ++ len ++ img) parts Hrb Hparts) as Hdec.
  cbn [length decode_tiles].
  set (off := Z.of_nat (length pre)).
  rewrite (py_slice_mid data pre hdr (len ++ img ++ parts) off (off + 16));
    [| rewrite Hdata; by rewrite <- !app_assoc | done | lia].
  rewrite Hh. cbn.
  rewrite (py_slice_mid data (pre ++ hdr) len (img ++ parts) (off + 16) (off + 16 + 4));
    [| rewrite Hdata; by rewrite <- !app_assoc | rewrite length_app; lia | lia].
  rewrite Hl. cbn.
  rewrite (py_slice_mid data (pre ++ hdr ++ len) img parts (off + 16 + 4)
             (off + 16 + 4 + Z.of_nat (length img)));
    [| rewrite Hdata; by rewrite <- !app_assoc | rewrite !length_app; lia | lia].
  replace (off + 16 + 4 + Z.of_nat (length img))
    with (Z.of_nat (length (pre ++ hdr ++ len ++ img)))
    by (rewrite !length_app; lia).
  rewrite Hdec by (rewrite Hdata; by rewrite <- !app_assoc). cbn.
  rewrite Ht. by destruct t.
Qed.

(** What the client decodes from the payload of a delta that is not a
    fallback: the same tiles. *)
Lemma client_receives_delta enc timestamp_ms d :
  full_frame_fallback d = false → changed_tiles d ≠ [] →
  in_signed 8 timestamp_ms → delta_fits enc d →
  Forall (reads_back enc) (changed_tiles d) →
  ∃ payload,
    encode enc timestamp_ms d = Ok payload ∧
    client_receive payload
    = Ok (Some ({| frame_number := 0; changed_tiles := changed_tiles d;
                   full_frame_fallback := false |},
                (inject_Z timestamp_ms / 1000)%Q)).
Proof.
  intros Hfb Hne Hts [Hn Hfit] Hrb.
  assert (Hq : pack_q timestamp_ms = Ok (pack_le 8 timestamp_ms))
    by by apply struct_pack_signed_fits.
  pose proof (unpack_pack_q _ _ Hq) as [Hlq Huq].
  assert (Hp0 : pack_i (Z.of_nat (length (changed_tiles d)))
                = Ok (pack_le 4 (Z.of_nat (length (changed_tiles d)))))
    by by apply struct_pack_signed_fits.
  pose proof (unpack_pack_i _ _ Hp0) as [Hl0 Hu0].
  destruct (encode_tile_entries_fits enc (changed_tiles d) Hfit) as [body Hbody].
  unfold encode. rewrite Hfb, Hq, bind_Ok, Hp0, bind_Ok, Hbody, bind_Ok.
  set (tsb := pack_le 8 timestamp_ms) in *.
  set (p0 := pack_le 4 (Z.of_nat (length (changed_tiles d)))) in *.
  clearbody tsb p0.
  eexists. split; [reflexivity|].
  unfold client_receive. rewrite bool_decide_eq_true_2 by done.
  unfold decode.
  rewrite (py_slice_mid _ [] tsb (p0 ++ body) 0 (0 + 8)); [| done | done | lia].
  rewrite Huq, bind_Ok.
  rewrite (py_slice_mid _ tsb p0 body (0 + 8) (0 + 8 + 4)); [| done | lia | lia].
  rewrite Hu0, bind_Ok.
  destruct (Z.eqb_spec (Z.of_nat (length (changed_tiles d))) 0) as [H0|_].
  { destruct (changed_tiles d); [done | simpl in H0; lia]. }
  rewrite Nat2Z.id.
  pose proof (decode_tiles_exact enc (changed_tiles d) (tsb ++ p0 ++ body) (tsb ++ p0) body
                Hrb Hbody) as Hdec.
  rewrite length_app in Hdec.
  replace (0 + 8 + 4) with (Z.of_nat (length tsb + length p0)) by lia.
  rewrite Hdec by (by rewrite <- app_assoc). done.
Qed.

(** What the client decodes from the payload of a keyframe: the single
    tile of the full frame, at the origin. *)
Lemma client_receives_keyframe enc timestamp_ms n t :
  tile_x t = 0 → tile_y t = 0 →
  in_signed 8 timestamp_ms →
  in_signed 4 (tile_width t) → in_signed 4 (tile_height t) →
  in_signed 4 (Z.of_nat (length (_encode_tile enc t))) →
  reads_back enc t →
  ∃ payload,
    encode enc timestamp_ms
      {| frame_number := n; changed_tiles := [t]; full_frame_fallback := true |} = Ok payload ∧
    client_receive payload
    = Ok (Some ({| frame_number := 0; changed_tiles := [t]; full_frame_fallback := true |},
                (inject_Z timestamp_ms / 1000)%Q)).
Proof.
  intros Hx Hy Hts Hw Hh Hl Hrb.
  assert (Hq : pack_q timestamp_ms = Ok (pack_le 8 timestamp_ms))
    by by apply struct_pack_signed_fits.
  pose proof (unpack_pack_q _ _ Hq) as [Hlq Huq].
  assert (Hp0 : pack_i 0 = Ok (pack_le 4 0))
    by by apply struct_pack_signed_fits, in_signed_0.
  pose proof (unpack_pack_i _ _ Hp0) as [Hl0 Hu0].
  assert (Hwh : ∃ wh, pack_ii (tile_width t) (tile_height t) = Ok wh).
  { unfold pack_ii, pack_i. rewrite !struct_pack_signed_fits by done. by eexists. }
  destruct Hwh as [wh Hwh]. pose proof (unpack_pack_ii _ _ _ Hwh) as [Hlwh Huwh].
  unfold reads_back in Hrb.
  set (img := _encode_tile enc t) in *.
  assert (Hpl : pack_i (Z.of_nat (length img)) = Ok (pack_le 4 (Z.of_nat (length img))))
    by by apply struct_pack_signed_fits.
  pose proof (unpack_pack_i _ _ Hpl) as [Hll Hul].
  unfold encode. cbn [full_frame_fallback changed_tiles].
  rewrite Hq, bind_Ok.
  rewrite bool_decide_eq_false_2 by done.
  rewrite bool_decide_eq_true_2 by done. cbn [negb orb].
  change ([t] !! 0%nat) with (Some t). cbv beta iota. fold img.
  rewrite Hp0, bind_Ok, Hwh, bind_Ok, Hpl, bind_Ok.
  set (tsb := pack_le 8 timestamp_ms) in *. set (p0 := pack_le 4 0) in *.
  set (pl := pack_le 4 (Z.of_nat (length img))) in *.
  clearbody tsb p0 pl.
  eexists. split; [reflexivity|].
  unfold client_receive. rewrite bool_decide_eq_true_2 by done.
  unfold decode.
  rewrite (py_slice_mid _ [] tsb (p0 ++ wh ++ pl ++ img) 0 (0 + 8)); [| done | done | lia].
  rewrite Huq, bind_Ok.
  rewrite (py_slice_mid _ tsb p0 (wh ++ pl ++ img) (0 + 8) (0 + 8 + 4)); [| done | lia | lia].
  rewrite Hu0, bind_Ok. change (0 =? 0) with true. cbv iota.
  rewrite (py_slice_mid _ (tsb ++ p0) wh (pl ++ img) (0 + 8 + 4) (0 + 8 + 4 + 8));
    [| by rewrite <- !app_assoc | rewrite length_app; lia | lia].
  rewrite Huwh, bind_Ok. cbv beta iota.
  rewrite (py_slice_mid _ (tsb ++ p0 ++ wh) pl img (0 + 8 + 4 + 8) (0 + 8 + 4 + 8 + 4));
    [| by rewrite <- !app_assoc | rewrite !length_app; lia | lia].
  rewrite Hul, bind_Ok.
  rewrite (py_slice_mid _ (tsb ++ p0 ++ wh ++ pl) img [] (0 + 8 + 4 + 8 + 4)
             (0 + 8 + 4 + 8 + 4 + Z.of_nat (length img)));
    [| by rewrite <- !app_assoc, app_nil_r | rewrite !length_app; lia | lia].
  rewrite Hrb. destruct t; simpl in *. by subst.
Qed.

(** X27.  When the codec reads the images back as they were
    saved and the fields fit the wire format, the frame that the server
    scans, encodes and sends, and that the client decodes and paints on a
    screen buffer holding the previous frame, is the captured frame. *)
Theorem client_screen_shows_captured_frame (enc : WebPEncoder) (tp : TilePartitioner)
    (f : ScreenFrame) (screen_buffer : ndarray) (render_queue_full : bool)
    (timestamp_ms : Z) (d : DeltaFrame) :
  0 < _tile_size tp →
  nd_wf (frame_np f) → nd_wf screen_buffer →
  (∀ last, _last_frame_np tp = Some last → screen_buffer = last) →
  (partition_and_detect_changes tp f).1 = Ok d →
  changed_tiles d ≠ [] →
  in_signed 8 timestamp_ms → delta_fits enc d →
  Forall (reads_back enc) (changed_tiles d) →
  ∃ payload d' timestamp,
    encode enc timestamp_ms d = Ok payload ∧
    client_receive payload = Ok (Some (d', timestamp)) ∧
    (_decode_worker screen_buffer render_queue_full d').1 = frame_np f.
Proof.
  intros Hts Hcur Hbuf Hlast Hd Hne Htime Hfit Hrb.
  destruct (partition_delta_paints_frame tp f screen_buffer render_queue_full
              Hts Hcur Hbuf Hlast) as (d0 & Hd0 & Hpaint & Hfull).
  rewrite Hd in Hd0. injection Hd0 as <-.
  destruct (full_frame_fallback d) eqn:Hfb.
  - specialize (Hfull eq_refl).
    destruct Hfit as [_ Hfit]. rewrite Hfull in Hfit, Hrb.
    apply Forall_cons in Hfit as [(_ & _ & Hw & Hh & Hl) _].
    apply Forall_cons in Hrb as [Hrb _].
    destruct (client_receives_keyframe enc timestamp_ms (frame_number d)
                (get_tile f 0 0 (frame_width f) (frame_height f))
                eq_refl eq_refl Htime Hw Hh Hl Hrb) as (payload & Henc & Hrecv).
    exists payload. eexists _, _. split; [|split; [exact Hrecv|]].
    + destruct d; simpl in *. by subst.
    + rewrite <- Hpaint. unfold _decode_worker. by rewrite Hfull, Hfb.
  - destruct (client_receives_delta enc timestamp_ms d Hfb Hne Htime Hfit Hrb)
      as (payload & Henc & Hrecv).
    exists payload. eexists _, _. split; [exact Henc|]. split; [exact Hrecv|].
    rewrite <- Hpaint. unfold _decode_worker. by rewrite Hfb.
Qed.
End EndToEnd.

(** X27 at a concrete input: the sample frames through the toy codec, which
    reads a tile of one pixel back as it was. *)
Lemma client_screen_shows_captured_frame_witness :
  ∃ payload d' timestamp,
    (partition_and_detect_changes demo_partitioner demo_next).1 = Ok demo_delta ∧
    @encode raw_codec (default_encoder 70) demo_timestamp_ms demo_delta = Ok payload ∧
    @client_receive raw_codec payload = Ok (Some (d', timestamp)) ∧
    (_decode_worker (frame_np demo_prev) false d').1 = frame_np demo_next.
Proof.
  assert (Hd : (partition_and_detect_changes demo_partitioner demo_next).1 = Ok demo_delta)
    by reflexivity.
  destruct (@client_screen_shows_captured_frame raw_codec (default_encoder 70)
              demo_partitioner demo_next (frame_np demo_prev) false demo_timestamp_ms
              demo_delta)
    as (payload & d' & timestamp & Henc & Hrecv & Hpaint).
  - reflexivity.
  - vm_compute. repeat split; try discriminate; repeat constructor.
  - vm_compute. repeat split; try discriminate; repeat constructor.
  - intros last [= <-]. reflexivity.
  - exact Hd.
  - discriminate.
  - solve_in_signed.
  - split; [solve_in_signed|].
    constructor; [|constructor]. repeat split; vm_compute; discriminate || reflexivity.
  - constructor; [reflexivity | constructor].
  - exists payload, d', timestamp. done.
Defined.

(** ** Enhancement keyframes *)

Lemma py_slice_past_head {A} (a b : A) (l : list A) (s e : Z) :
  1 ≤ s → py_slice (a :: l) s e = py_slice (b :: l) s e.
Proof.
  intros Hs. unfold py_slice, py_index. cbn [length].
  destruct (Z.ltb_spec s 0); [lia|].
  set (len := Z.of_nat (S (length l))).
  assert (∃ k, Z.to_nat (Z.min s len) = S k) as [k ->]
    by (exists (Z.to_nat (Z.min s len) - 1)%nat; lia).
  done.
Qed.

(** X28.  The enhancement packet the broadcast loop derives from a
    keyframe differs from it in the first byte only, which is [0x02]: the
    timestamp, the zero tile count and the frame size stay readable at
    their offsets; the Python client, which decodes type [0x01] only,
    ignores the packet. *)
Theorem enhancement_packet_is_retagged_keyframe `{ImageCodec} (e : StreamEngine)
    (frame : ScreenFrame) (timestamp_ms : Z) (lossless : bytes) (e' : StreamEngine) :
  get_initial_payload e (Ok frame) timestamp_ms = (Ok lossless, e') →
  lossless ≠ [] →
  ∃ pkt,
    enhancement_packet lossless = Some pkt ∧
    payload_tag pkt = Some Byte.x02 ∧
    tail pkt = tail lossless ∧
    payload_timestamp pkt = Ok timestamp_ms ∧
    payload_num_tiles pkt = payload_num_tiles lossless ∧
    payload_full_size pkt = payload_full_size lossless ∧
    client_receive pkt = Ok None.
Proof.
  unfold get_initial_payload. cbn [create_full_frame_delta].
  intros [= Henc _] Hne.
  apply encode_Ok_shape in Henc as [-> | (tsb & rest & Htsb & ->)]; [done|].
  eexists. split; [reflexivity|]. split; [done|]. split; [done|].
  split; [|split; [|split]].
  - apply unpack_pack_q in Htsb as [Hlen Hunpack]. unfold payload_timestamp.
    rewrite (py_slice_mid _ [Byte.x02] tsb rest 1 9); [done | done | done | lia].
  - unfold payload_num_tiles. by rewrite (py_slice_past_head Byte.x02 Byte.x01).
  - unfold payload_full_size. by rewrite (py_slice_past_head Byte.x02 Byte.x01).
  - done.
Qed.

(** X28 at a concrete input: the keyframe of the sample frame. *)
Lemma enhancement_packet_is_retagged_keyframe_witness :
  ∃ lossless e' pkt,
    @get_initial_payload raw_codec demo_engine (Ok demo_next) demo_timestamp_ms
      = (Ok lossless, e') ∧
    enhancement_packet lossless = Some pkt ∧
    payload_tag pkt = Some Byte.x02 ∧
    @client_receive raw_codec pkt = Ok None.
Proof.
  assert (Hget : ∃ lossless e',
    @get_initial_payload raw_codec demo_engine (Ok demo_next) demo_timestamp_ms
      = (Ok lossless, e') ∧ lossless ≠ [])
    by (vm_compute; eexists _, _; split; [reflexivity | discriminate]).
  destruct Hget as (lossless & e' & Hget & Hne).
  destruct (@enhancement_packet_is_retagged_keyframe raw_codec demo_engine demo_next
              demo_timestamp_ms lossless e' Hget Hne)
    as (pkt & Hpkt & Htag & _ & _ & _ & _ & Hrecv).
  exists lossless, e', pkt. done.
Defined.
